(** * brainglobe-atlasapi: the [Atlas] facade of [core.py]

    A shallow embedding of [brainglobe_atlasapi/core.py]: the [Atlas] class
    (lazy volumes, coordinate resolution, hierarchy queries, structure
    masks) and the [AdditionalRefDict] lazy reference store, followed by the
    properties of the specification that are stated about them.

    Conventions of the embedding.
    - Python exceptions are values of [exn]; a computation that may raise
      returns a [result].
    - Methods that read or fill the lazily loaded fields of an object are
      written in a state monad [M St] over the object; process-wide effects
      ([warnings.warn], files read through [read_tiff]) are logged in [Env].
    - Python [int] is [Z]; Python [float] is an IEEE-754 binary64 value,
      [spec_float] with [prec = 53] and [emax = 1024].
    - A three-dimensional [numpy] array is its shape, its dtype and its
      elements as a function of the index. *)

From Stdlib Require Import ZArith String List Bool Lia.
From Stdlib Require Import SpecFloat.
From stdpp Require Import gmap strings list pretty.

(** ** Exceptions and results *)

Inductive exn : Type :=
  | KeyError            (* the specification's StructureNotFound *)
  | IndexError
  | ValueError (msg : string)
  | ZeroDivisionError
  | OverflowError
  | AttributeError
  | OSError             (* a file that cannot be read *)
  | DuplicateStructure. (* construction-time failure of the catalog *)

Inductive result (A : Type) : Type :=
  | Ok (a : A)
  | Raise (e : exn).
Arguments Ok {A} a.
Arguments Raise {A} e.

#[global] Instance result_ret : MRet result := fun A a => Ok a.
#[global] Instance result_bind : MBind result := fun A B f m =>
  match m with
  | Ok a => f a
  | Raise e => Raise e
  end.
#[global] Instance result_fmap : FMap result := fun A B f m =>
  match m with
  | Ok a => Ok (f a)
  | Raise e => Raise e
  end.

#[global] Instance exn_eq_dec : EqDecision exn.
Proof. solve_decision. Defined.

(** What a collaborator that reads a file returns, as a result. *)
Definition of_file {A} (o : option A) : result A :=
  match o with
  | Some a => Ok a
  | None => Raise OSError
  end.

(** [try: m except e => h] *)
Definition try_except {A} (m : result A) (e : exn) (h : result A) : result A :=
  match m with
  | Ok a => Ok a
  | Raise e' => if decide (e' = e) then h else Raise e'
  end.

(** A list comprehension whose body may raise: elements are evaluated
    left to right and the first exception propagates. *)
Fixpoint comprehension {A B} (f : A -> result B) (l : list A) : result (list B) :=
  match l with
  | [] => Ok []
  | a :: t =>
      b ← f a;
      bs ← comprehension f t;
      Ok (b :: bs)
  end.

(** ** Python numbers *)

Module Py.

Local Open Scope Z_scope.

Definition prec : Z := 53.
Definition emax : Z := 1024.

Inductive num : Type :=
  | Int (z : Z)
  | Float (f : spec_float).

(** [float(z)]: round to nearest even; too large an integer raises. *)
Definition float_of_int (z : Z) : result spec_float :=
  match binary_normalize prec emax z 0 false with
  | S754_infinity _ => Raise OverflowError
  | f => Ok f
  end.

Definition to_float (c : num) : result spec_float :=
  match c with
  | Int z => float_of_int z
  | Float f => Ok f
  end.

(** [a / b] on two [int]s: the correctly rounded quotient. The dividend
    is scaled so that the integer quotient keeps more than [prec] bits,
    and the remainder decides the rounding. *)
Definition int_truediv (a b : Z) : result spec_float :=
  if b =? 0 then Raise ZeroDivisionError
  else if a =? 0 then Ok (S754_zero (b <? 0))
  else
    let s := Z.max 0 (Zdigits2 b - Zdigits2 a + 55) in
    let '(q, r) := Z.div_eucl (Z.shiftl (Z.abs a) s) (Z.abs b) in
    match binary_round_aux prec emax (xorb (a <? 0) (b <? 0)) q (- s)
            (new_location (Z.abs b) r) with
    | S754_infinity _ => Raise OverflowError
    | f => Ok f
    end.

(** [x / y] on two [float]s. *)
Definition float_truediv (x y : spec_float) : result spec_float :=
  match y with
  | S754_zero _ => Raise ZeroDivisionError
  | _ => Ok (SFdiv prec emax x y)
  end.

(** [c / res] *)
Definition truediv (c res : num) : result num :=
  match c, res with
  | Int a, Int b => Float <$> int_truediv a b
  | _, _ =>
      x ← to_float c;
      y ← to_float res;
      Float <$> float_truediv x y
  end.

(** [x * r] *)
Definition mul (x r : num) : result num :=
  match x, r with
  | Int a, Int b => Ok (Int (a * b))
  | _, _ =>
      a ← to_float x;
      b ← to_float r;
      Ok (Float (SFmul prec emax a b))
  end.

(** [int(c)]: the integral part of [c], the fraction dropped. *)
Definition int (c : num) : result Z :=
  match c with
  | Int z => Ok z
  | Float S754_nan => Raise (ValueError "cannot convert float NaN to integer")
  | Float (S754_infinity _) => Raise OverflowError
  | Float (S754_zero _) => Ok 0
  | Float (S754_finite s m e) =>
      Ok (cond_Zopp s (if 0 <=? e then Z.shiftl (Z.pos m) e
                       else Z.shiftr (Z.pos m) (- e)))
  end.

(** The exact value of a finite float as a fraction [fst / snd]. *)
Definition fraction (f : spec_float) : Z * Z :=
  match f with
  | S754_finite s m e =>
      if 0 <=? e then (cond_Zopp s (Z.pos m * 2 ^ e), 1)
      else (cond_Zopp s (Z.pos m), 2 ^ (- e))
  | _ => (0, 1)
  end.

Definition is_finite (c : num) : bool :=
  match c with
  | Int _ => true
  | Float (S754_zero _) | Float (S754_finite _ _ _) => true
  | Float _ => false
  end.

(** [l[i]] on a Python list: negative indices count from the end. *)
Definition list_getitem {A} (l : list A) (i : Z) : result A :=
  let n := Z.of_nat (length l) in
  let j := if i <? 0 then i + n else i in
  if (0 <=? j) && (j <? n) then
    match l !! Z.to_nat j with
    | Some a => Ok a
    | None => Raise IndexError
    end
  else Raise IndexError.

(** [l.index(x)] *)
Fixpoint list_index `{EqDecision A} (x : A) (l : list A) : result nat :=
  match l with
  | [] => Raise (ValueError "x not in list")
  | y :: t => if decide (y = x) then Ok 0%nat else S <$> list_index x t
  end.

(** [l[:-1]] *)
Definition all_but_last {A} (l : list A) : list A := removelast l.

End Py.

(** ** numpy arrays *)

Module np.

Local Open Scope Z_scope.

(** An integer dtype: its width and signedness. *)
Record dtype : Type := { bits : Z; signed : bool }.

Definition uint8 : dtype := {| bits := 8; signed := false |}.

(** Storing a Python integer into an array of dtype [dt] (C cast). *)
Definition cast (dt : dtype) (z : Z) : Z :=
  if signed dt
  then (z + 2 ^ (bits dt - 1)) mod 2 ^ bits dt - 2 ^ (bits dt - 1)
  else z mod 2 ^ bits dt.

Definition in_range (dt : dtype) (z : Z) : Prop :=
  if signed dt
  then - 2 ^ (bits dt - 1) <= z < 2 ^ (bits dt - 1)
  else 0 <= z < 2 ^ bits dt.

(** The same as a test. *)
Definition in_rangeb (dt : dtype) (z : Z) : bool :=
  if signed dt
  then (- 2 ^ (bits dt - 1) <=? z) && (z <? 2 ^ (bits dt - 1))
  else (0 <=? z) && (z <? 2 ^ bits dt).

(** [x - n] for a scalar [x] of dtype [dt] and a Python integer [n], as
    NumPy 2 computes it: [n] is converted to [dt], which raises when it
    does not fit, and the difference is again a scalar of dtype [dt]. It
    wraps around; the flag tells whether it did, which NumPy reports
    with a RuntimeWarning. *)
Definition scalar_sub (dt : dtype) (x n : Z) : result (Z * bool) :=
  if in_rangeb dt n
  then Ok (cast dt (x - n), negb (in_rangeb dt (x - n)))
  else Raise OverflowError.

(** The message of that RuntimeWarning. *)
Definition scalar_subtract_warning : string :=
  "overflow encountered in scalar subtract".

Definition shape3 : Type := nat * nat * nat.

Record ndarray : Type :=
  { shape : shape3; dtype_of : dtype; item : nat -> nat -> nat -> Z }.

(** The result of an element-wise test. *)
Record boolarray : Type :=
  { bshape : shape3; bitem : nat -> nat -> nat -> bool }.

Definition in_bounds (sh : shape3) (i j k : nat) : Prop :=
  let '(n0, n1, n2) := sh in (i < n0 /\ j < n1 /\ k < n2)%nat.

(** [np.full(shape, v, dtype=dt)] and [np.zeros(shape, dt)] *)
Definition full (sh : shape3) (v : Z) (dt : dtype) : ndarray :=
  {| shape := sh; dtype_of := dt; item := fun _ _ _ => cast dt v |}.

Definition zeros (sh : shape3) (dt : dtype) : ndarray := full sh 0 dt.

(** [np.isin(a, values)] *)
Definition isin (a : ndarray) (values : list Z) : boolarray :=
  {| bshape := shape a;
     bitem := fun i j k => bool_decide (item a i j k ∈ values) |}.

(** [a == v] *)
Definition eq_scalar (a : ndarray) (v : Z) : boolarray :=
  {| bshape := shape a; bitem := fun i j k => item a i j k =? v |}.

(** [a[mask] = v]: the boolean index must have the shape of [a]. *)
Definition setitem_mask (a : ndarray) (mask : boolarray) (v : Z) : result ndarray :=
  if decide (bshape mask = shape a) then
    Ok {| shape := shape a; dtype_of := dtype_of a;
          item := fun i j k =>
            if bitem mask i j k then cast (dtype_of a) v else item a i j k |}
  else Raise IndexError.

(** [slice(start, stop)], either bound possibly [None]. *)
Definition slice : Type := option Z * option Z.

Definition slice_None : slice := (None, None).

(** [slice.indices(n)] for a unit step: the half-open range selected. *)
Definition slice_bound (n : Z) (default : Z) (b : option Z) : Z :=
  match b with
  | None => default
  | Some x => if x <? 0 then Z.max (x + n) 0 else Z.min x n
  end.

Definition slice_selects (n : nat) (s : slice) (i : nat) : bool :=
  (slice_bound (Z.of_nat n) 0 (fst s) <=? Z.of_nat i)
  && (Z.of_nat i <? slice_bound (Z.of_nat n) (Z.of_nat n) (snd s)).

(** [a[tuple(slices)] = v] for a list of slices, one per axis. *)
Definition setitem_slices (a : ndarray) (slices : list slice) (v : Z) : result ndarray :=
  match slices with
  | [s0; s1; s2] =>
      let '(n0, n1, n2) := shape a in
      Ok {| shape := shape a; dtype_of := dtype_of a;
            item := fun i j k =>
              if slice_selects n0 s0 i && slice_selects n1 s1 j
                 && slice_selects n2 s2 k
              then cast (dtype_of a) v else item a i j k |}
  | _ => Raise IndexError
  end.

(** One integer index along an axis of length [n]. *)
Definition normalize_index (n : nat) (i : Z) : result nat :=
  let j := if i <? 0 then i + Z.of_nat n else i in
  if (0 <=? j) && (j <? Z.of_nat n) then Ok (Z.to_nat j) else Raise IndexError.

(** [a[(i, j, k)]] *)
Definition getitem (a : ndarray) (idx : Z * Z * Z) : result Z :=
  let '(i, j, k) := idx in
  let '(n0, n1, n2) := shape a in
  i' ← normalize_index n0 i;
  j' ← normalize_index n1 j;
  k' ← normalize_index n2 k;
  Ok (item a i' j' k').

(** [shape[ax]] *)
Definition shape_getitem (sh : shape3) (ax : nat) : result nat :=
  let '(n0, n1, n2) := sh in
  match ax with
  | 0%nat => Ok n0
  | 1%nat => Ok n1
  | 2%nat => Ok n2
  | _ => Raise IndexError
  end.

End np.

(** [l[i] = x] on a Python list, [i] not negative. *)
Definition list_setitem {A} (l : list A) (i : nat) (x : A) : result (list A) :=
  if decide (i < length l) then Ok (<[i:=x]> l) else Raise IndexError.

(** ** Structure records and the structure catalog *)

Module Structure.
(** One entry of [structures.json]; [mesh_filename] is the entry that
    [Atlas.__init__] adds. *)
Record t : Type :=
  { id : Z;
    acronym : string;
    name : string;
    structure_id_path : list Z;
    rgb_triplet : list Z;
    mesh_filename : option string }.

Definition set_mesh_filename (s : t) (p : string) : t :=
  {| id := id s; acronym := acronym s; name := name s;
     structure_id_path := structure_id_path s;
     rgb_triplet := rgb_triplet s; mesh_filename := Some p |}.
End Structure.

(** A key of the catalog: a numeric id or an acronym. *)
Inductive key : Type :=
  | KInt (i : Z)
  | KStr (s : string).

Module StructuresDict.

(** Modelled from the spec: the state of a [StructuresDict], the
    catalog class of [brainglobe_atlasapi/structure_class.py], which is
    not among the sources: the id -> record map, the acronym -> id map
    and the keys in the order of insertion. *)
Record t : Type :=
  { data : gmap Z Structure.t;
    acronym_to_id_map : gmap string Z;
    keys : list Z }.

Definition empty : t :=
  {| data := ∅; acronym_to_id_map := ∅; keys := [] |}.

(** Modelled from the spec: the constructor of [StructuresDict]. The
    catalog is built from the ordered records into an id -> record map
    and an acronym -> id map; a repeated id or a repeated acronym is a
    construction-time failure. *)
Fixpoint add_all (l : list Structure.t) (sd : t) : result t :=
  match l with
  | [] => Ok sd
  | s :: rest =>
      if decide (is_Some (data sd !! Structure.id s)) then Raise DuplicateStructure
      else if decide (is_Some (acronym_to_id_map sd !! Structure.acronym s))
      then Raise DuplicateStructure
      else add_all rest
             {| data := <[Structure.id s := s]> (data sd);
                acronym_to_id_map :=
                  <[Structure.acronym s := Structure.id s]> (acronym_to_id_map sd);
                keys := keys sd ++ [Structure.id s] |}
  end.

(** [StructuresDict(structures_list)] *)
Definition init (structures_list : list Structure.t) : result t :=
  add_all structures_list empty.

(** Modelled from the spec: [StructuresDict.__getitem__], the dual-key
    lookup. An integer is fetched by id; a string is resolved through
    the acronym -> id map first and then fetched by id; a key that
    matches neither raises. *)
Definition getitem (sd : t) (k : key) : result Structure.t :=
  match k with
  | KInt i =>
      match data sd !! i with
      | Some s => Ok s
      | None => Raise KeyError
      end
  | KStr a =>
      match acronym_to_id_map sd !! a with
      | Some i =>
          match data sd !! i with
          | Some s => Ok s
          | None => Raise KeyError
          end
      | None => Raise KeyError
      end
  end.

End StructuresDict.

(** ** Effects *)

(** What the process has observed so far: the warnings emitted and the
    paths handed to [read_tiff], most recent last. *)
Record Env : Type := { warnings : list string; reads : list string }.

Definition Env_empty : Env := {| warnings := []; reads := [] |}.

(** A method of an object of type [St]: it may update the object, log
    effects and raise. An exception leaves the updates made so far. *)
Definition M (St A : Type) : Type := St -> Env -> result A * St * Env.

#[global] Instance M_ret {St} : MRet (M St) := fun A a st env => (Ok a, st, env).
#[global] Instance M_bind {St} : MBind (M St) := fun A B f m st env =>
  match m st env with
  | (Ok a, st', env') => f a st' env'
  | (Raise e, st', env') => (Raise e, st', env')
  end.

Definition get {St} : M St St := fun st env => (Ok st, st, env).
Definition put {St} (st : St) : M St () := fun _ env => (Ok (), st, env).
Definition lift {St A} (r : result A) : M St A := fun st env => (r, st, env).

(** [warnings.warn(msg)] *)
Definition warn {St} (msg : string) : M St () := fun st env =>
  (Ok (), st, {| warnings := warnings env ++ [msg]; reads := reads env |}).

(** [Path / name] *)
Definition path_join (dir name : string) : string := dir +:+ "/" +:+ name.

(** [repr] of a list of strings, as an f-string prints it. *)
Definition repr_list (l : list string) : string :=
  "[" +:+ String.concat ", " (map (fun s => "'" +:+ s +:+ "'") l) +:+ "]".

Inductive pyval : Type :=
  | VInt (z : Z)
  | VStr (s : string).

(** The specification's InvalidHemisphereFilter, raised by
    [get_structure_mask]. *)
Definition InvalidHemisphereFilter : exn :=
  ValueError "Hemispheres parameter should be one of [-1, 0, 1]".

Definition LEFT_HEMI_VAL : Z := 1.
Definition RIGHT_HEMI_VAL : Z := 2.

(** The atlas metadata, [metadata.json]. The key [additional_references]
    may be absent. *)
Record Metadata : Type :=
  { md_resolution : Py.num * Py.num * Py.num;
    md_orientation : string;
    md_shape : np.shape3;
    md_symmetric : bool;
    md_additional_references : option (list string) }.

(** What the atlas uses of a [brainglobe_space.AnatomicalSpace]. *)
Record Space : Type := { axes_order : list string }.

(** The environment of [core.py]: the file names of
    [brainglobe_atlasapi.descriptors] and the collaborators the module
    imports, [utils.read_json] at its two uses, [utils.read_tiff],
    [utils.get_leaves_from_tree] and the constructor of [AnatomicalSpace].
    A reader returns [None] for a file it cannot read. Files do not change
    while the atlas is in use. *)
Record World : Type :=
  { ANNOTATION_FILENAME : string;
    HEMISPHERES_FILENAME : string;
    MESHES_DIRNAME : string;
    METADATA_FILENAME : string;
    REFERENCE_FILENAME : string;
    STRUCTURES_FILENAME : string;
    read_json_metadata : string -> option Metadata;
    read_json_structures : string -> option (list Structure.t);
    read_tiff_file : string -> option np.ndarray;
    get_leaves_from_tree : list Structure.t -> list Z;
    AnatomicalSpace :
      string -> np.shape3 -> Py.num * Py.num * Py.num -> result Space }.

Section Core.

Variable w : World.

Definition read_tiff {St} (path : string) : M St np.ndarray := fun st env =>
  (of_file (read_tiff_file w path), st,
   {| warnings := warnings env; reads := reads env ++ [path] |}).

(** *** class AdditionalRefDict(UserDict) *)

Record AdditionalRefDict : Type :=
  { data_path : string;
    references_list : list string;
    data : gmap string np.ndarray }.

(** [__init__]; [initial] is what [*args, **kwargs] hand to [UserDict]. *)
Definition AdditionalRefDict_init (references_list : list string)
    (data_path : string) (initial : gmap string np.ndarray) : AdditionalRefDict :=
  {| data_path := data_path; references_list := references_list;
     data := initial |}.

(** The text of the warning for a name outside [references_list]. *)
Definition unknown_reference_warning (ref_name : string)
    (references_list : list string) : string :=
  "No reference named " +:+ ref_name +:+ " (available: "
  +:+ repr_list references_list +:+ ")".

(** [__getitem__]; Python [None] is [None]. *)
Definition AdditionalRefDict_getitem (ref_name : string)
    : M AdditionalRefDict (option np.ndarray) :=
  self ← get;
  if decide (data self !! ref_name = None) then
    if decide (ref_name ∉ references_list self) then
      warn (unknown_reference_warning ref_name (references_list self));;
      mret None
    else
      v ← read_tiff (path_join (data_path self) (ref_name +:+ ".tiff"));
      put {| data_path := data_path self;
             references_list := references_list self;
             data := <[ref_name := v]> (data self) |};;
      self ← get;
      mret (data self !! ref_name)
  else mret (data self !! ref_name).

(** *** class Atlas *)

Record Atlas : Type :=
  { root_dir : string;
    metadata : Metadata;
    structures_list : list Structure.t;
    structures : StructuresDict.t;
    leaf_nodes : list Z;
    space : Space;
    _reference : option np.ndarray;
    (** [None]: the attribute was never assigned. *)
    additional_references : option AdditionalRefDict;
    _annotation : option np.ndarray;
    _hemispheres : option np.ndarray;
    _lookup : option (list (string * Z * string)) }.

Definition set_reference (self : Atlas) (v : np.ndarray) : Atlas :=
  {| root_dir := root_dir self; metadata := metadata self;
     structures_list := structures_list self; structures := structures self;
     leaf_nodes := leaf_nodes self; space := space self;
     _reference := Some v;
     additional_references := additional_references self;
     _annotation := _annotation self; _hemispheres := _hemispheres self;
     _lookup := _lookup self |}.

Definition set_annotation (self : Atlas) (v : np.ndarray) : Atlas :=
  {| root_dir := root_dir self; metadata := metadata self;
     structures_list := structures_list self; structures := structures self;
     leaf_nodes := leaf_nodes self; space := space self;
     _reference := _reference self;
     additional_references := additional_references self;
     _annotation := Some v; _hemispheres := _hemispheres self;
     _lookup := _lookup self |}.

Definition set_hemispheres (self : Atlas) (v : np.ndarray) : Atlas :=
  {| root_dir := root_dir self; metadata := metadata self;
     structures_list := structures_list self; structures := structures self;
     leaf_nodes := leaf_nodes self; space := space self;
     _reference := _reference self;
     additional_references := additional_references self;
     _annotation := _annotation self; _hemispheres := Some v;
     _lookup := _lookup self |}.

Definition set_lookup (self : Atlas) (v : list (string * Z * string)) : Atlas :=
  {| root_dir := root_dir self; metadata := metadata self;
     structures_list := structures_list self; structures := structures self;
     leaf_nodes := leaf_nodes self; space := space self;
     _reference := _reference self;
     additional_references := additional_references self;
     _annotation := _annotation self; _hemispheres := _hemispheres self;
     _lookup := Some v |}.

Definition resolution (self : Atlas) := md_resolution (metadata self).
Definition orientation (self : Atlas) := md_orientation (metadata self).
Definition shape (self : Atlas) := md_shape (metadata self).

(** The loop of [__init__] that adds the entry for the mesh file to
    every record. *)
Definition add_mesh_filenames (root_dir : string)
    (structures_list : list Structure.t) : list Structure.t :=
  map (fun struct =>
         Structure.set_mesh_filename struct
           (path_join (path_join root_dir (MESHES_DIRNAME w))
              (pretty (Structure.id struct) +:+ ".obj")))
      structures_list.

Definition outdated_warning : string :=
  "This atlas seems to be outdated as no "
  +:+ "additional_references list "
  +:+ "is found in metadata!".

(** [Atlas.__init__(path)] *)
Definition Atlas_init (path : string) : M () Atlas :=
  let root_dir := path in
  metadata ← lift (of_file (read_json_metadata w (path_join root_dir (METADATA_FILENAME w))));
  structures_list ←
    lift (of_file (read_json_structures w (path_join root_dir (STRUCTURES_FILENAME w))));
  let structures_list := add_mesh_filenames root_dir structures_list in
  structures ← lift (StructuresDict.init structures_list);
  let leaf_nodes := get_leaves_from_tree w structures_list in
  space ← lift (AnatomicalSpace w (md_orientation metadata) (md_shape metadata)
                  (md_resolution metadata));
  additional_references ←
    match md_additional_references metadata with
    | Some references_list =>
        mret (Some (AdditionalRefDict_init references_list root_dir ∅))
    | None => (* except KeyError *)
        warn outdated_warning;;
        mret None
    end;
  mret {| root_dir := root_dir; metadata := metadata;
          structures_list := structures_list; structures := structures;
          leaf_nodes := leaf_nodes; space := space;
          _reference := None;
          additional_references := additional_references;
          _annotation := None; _hemispheres := None; _lookup := None |}.

(** Reading the attribute [self.additional_references]. *)
Definition get_additional_references (self : Atlas) : result AdditionalRefDict :=
  match additional_references self with
  | Some d => Ok d
  | None => Raise AttributeError
  end.

Definition shape_um (self : Atlas) : result (Py.num * Py.num * Py.num) :=
  let '(s0, s1, s2) := shape self in
  let '(r0, r1, r2) := resolution self in
  u0 ← Py.mul (Py.Int (Z.of_nat s0)) r0;
  u1 ← Py.mul (Py.Int (Z.of_nat s1)) r1;
  u2 ← Py.mul (Py.Int (Z.of_nat s2)) r2;
  Ok (u0, u1, u2).

Definition lookup_df : M Atlas (list (string * Z * string)) :=
  self ← get;
  match _lookup self with
  | Some df => mret df
  | None =>
      let df := map (fun r => (Structure.acronym r, Structure.id r, Structure.name r))
                    (structures_list self) in
      put (set_lookup self df);;
      mret df
  end.

Definition reference : M Atlas np.ndarray :=
  self ← get;
  match _reference self with
  | Some v => mret v
  | None =>
      v ← read_tiff (path_join (root_dir self) (REFERENCE_FILENAME w));
      put (set_reference self v);;
      mret v
  end.

Definition annotation : M Atlas np.ndarray :=
  self ← get;
  match _annotation self with
  | Some v => mret v
  | None =>
      v ← read_tiff (path_join (root_dir self) (ANNOTATION_FILENAME w));
      put (set_annotation self v);;
      mret v
  end.

Definition hemispheres : M Atlas np.ndarray :=
  self ← get;
  match _hemispheres self with
  | Some v => mret v
  | None =>
      if md_symmetric (metadata self) then
        let stack := np.full (md_shape (metadata self)) 2 np.uint8 in
        front_ax_idx ← lift (Py.list_index "frontal" (axes_order (space self)));
        let slices := replicate 3 np.slice_None in
        n ← lift (np.shape_getitem (np.shape stack) front_ax_idx);
        slices ← lift (list_setitem slices front_ax_idx
                         (Some (Z.of_nat n / 2 + 1)%Z, None));
        stack ← lift (np.setitem_slices stack slices 1);
        put (set_hemispheres self stack);;
        mret stack
      else
        v ← read_tiff (path_join (root_dir self) (HEMISPHERES_FILENAME w));
        put (set_hemispheres self v);;
        mret v
  end.

(** [_idx_from_coords(coords, microns)] on a triplet of coordinates. *)
Definition _idx_from_coords (self : Atlas) (coords : Py.num * Py.num * Py.num)
    (microns : bool) : result (Z * Z * Z) :=
  let '(c0, c1, c2) := coords in
  coords ←
    (if microns then
       let '(r0, r1, r2) := resolution self in
       q0 ← Py.truediv c0 r0;
       q1 ← Py.truediv c1 r1;
       q2 ← Py.truediv c2 r2;
       Ok (q0, q1, q2)
     else Ok (c0, c1, c2));
  let '(c0, c1, c2) := coords in
  i0 ← Py.int c0;
  i1 ← Py.int c1;
  i2 ← Py.int c2;
  Ok (i0, i1, i2).

(** The value read from the volume is a scalar of the volume's dtype,
    and so is [hem - 1]: the difference wraps around in that dtype, and
    NumPy reports a wrap-around with a RuntimeWarning before the label
    list is indexed. *)
Definition hemisphere_from_coords (coords : Py.num * Py.num * Py.num)
    (microns as_string : bool) : M Atlas pyval :=
  h ← hemispheres;
  self ← get;
  idx ← lift (_idx_from_coords self coords microns);
  hem ← lift (np.getitem h idx);
  if as_string then
    '(i, overflow) ← lift (np.scalar_sub (np.dtype_of h) hem 1);
    (if overflow : bool then warn np.scalar_subtract_warning else mret ());;
    s ← lift (Py.list_getitem ["left"; "right"] i);
    mret (VStr s)
  else mret (VInt hem).

Definition structure_from_coords (coords : Py.num * Py.num * Py.num)
    (microns as_acronym : bool) (hierarchy_lev : option Z)
    (key_error_string : string) : M Atlas pyval :=
  a ← annotation;
  self ← get;
  idx ← lift (_idx_from_coords self coords microns);
  rid ← lift (np.getitem a idx);
  rid ←
    match hierarchy_lev with
    | Some lev =>
        s ← lift (StructuresDict.getitem (structures self) (KInt rid));
        lift (Py.list_getitem (Structure.structure_id_path s) lev)
    | None => mret rid
    end;
  if as_acronym then
    lift (try_except
            (d ← StructuresDict.getitem (structures self) (KInt rid);
             Ok (VStr (Structure.acronym d)))
            KeyError
            (Ok (VStr key_error_string)))
  else mret (VInt rid).

(** [_get_from_structure(structure, key)] dispatches on the kind of
    [structure]. The branch for a single id or acronym and the branch for
    a list or tuple of them are the two functions below; [key] is the
    field that is read. *)
Definition _get_from_structure {A} (self : Atlas) (structure : key)
    (key : Structure.t -> A) : result A :=
  s ← StructuresDict.getitem (structures self) structure;
  Ok (key s).

Definition _get_from_structure_list {A} (self : Atlas) (structure : list key)
    (key : Structure.t -> A) : result (list A) :=
  comprehension (fun s => _get_from_structure self s key) structure.

Definition meshfile_from_structure (self : Atlas) (structure : key)
    : result (option string) :=
  _get_from_structure self structure Structure.mesh_filename.

Definition root_meshfile (self : Atlas) : result (option string) :=
  meshfile_from_structure self (KStr "root").

Definition get_structure_ancestors (self : Atlas) (structure : key)
    : result (list string) :=
  path ← _get_from_structure self structure Structure.structure_id_path;
  let ancestors_id := Py.all_but_last path in
  _get_from_structure_list self (map KInt ancestors_id) Structure.acronym.

(** The loop of [get_structure_descendants] over the keys of the catalog. *)
Fixpoint descendants_loop (self : Atlas) (structure : string) (keys : list Z)
    (descendants : list string) : result (list string) :=
  match keys with
  | [] => Ok descendants
  | struc :: rest =>
      ancestors ← get_structure_ancestors self (KInt struc);
      if decide (structure ∈ ancestors) then
        a ← _get_from_structure self (KInt struc) Structure.acronym;
        descendants_loop self structure rest (descendants ++ [a])
      else descendants_loop self structure rest descendants
  end.

Definition get_structure_descendants (self : Atlas) (structure : key)
    : result (list string) :=
  structure ← _get_from_structure self structure Structure.acronym;
  descendants_loop self structure (StructuresDict.keys (structures self)) [].

Definition get_structure_mask (structure : key) (hemisphere : Z)
    : M Atlas np.ndarray :=
  self ← get;
  structure_id ← lift (Structure.id <$> StructuresDict.getitem (structures self) structure);
  descendants ← lift (get_structure_descendants self structure);
  descendant_ids ←
    lift (comprehension
            (fun descendant =>
               Structure.id <$> StructuresDict.getitem (structures self) (KStr descendant))
            descendants);
  let descendant_ids := descendant_ids ++ [structure_id] in
  a ← annotation;
  let mask_stack := np.zeros (shape self) (np.dtype_of a) in
  a ← annotation;
  mask_stack ← lift (np.setitem_mask mask_stack (np.isin a descendant_ids) structure_id);
  if negb (hemisphere =? 0)%Z then
    if (hemisphere =? -1)%Z then
      h ← hemispheres;
      lift (np.setitem_mask mask_stack (np.eq_scalar h RIGHT_HEMI_VAL) 0)
    else if (hemisphere =? 1)%Z then
      h ← hemispheres;
      lift (np.setitem_mask mask_stack (np.eq_scalar h LEFT_HEMI_VAL) 0)
    else lift (Raise InvalidHemisphereFilter)
  else mret mask_stack.

End Core.

(** ** Invariants of the data model and vocabulary of the properties *)

(** The hierarchy invariant of the catalog, as a check: every id on the
    path of a record, the record's own id apart, is the id of a record. *)
Definition paths_closed (sd : StructuresDict.t) : bool :=
  forallb
    (fun k =>
       match StructuresDict.data sd !! k with
       | Some s =>
           forallb (fun j => bool_decide (is_Some (StructuresDict.data sd !! j)))
                   (Py.all_but_last (Structure.structure_id_path s))
       | None => true
       end)
    (StructuresDict.keys sd).

(** The record [D] is a descendant of [S]: the id of [S] is on the
    [structure_id_path] of [D], before its last entry, which is the place
    of the own id of [D]. *)
Definition is_descendant (S D : Structure.t) : bool :=
  bool_decide (Structure.id S ∈ Py.all_but_last (Structure.structure_id_path D)).

(** The id set of the subtree of [S] in a catalog: the id of [S], and the
    ids under which the catalog holds a descendant of [S]. *)
Definition in_subtree (sd : StructuresDict.t) (S : Structure.t) (z : Z) : bool :=
  bool_decide (z = Structure.id S)
  || match StructuresDict.data sd !! z with
     | Some D => is_descendant S D
     | None => false
     end.

(** The voxels a hemisphere argument removes from a mask. *)
Definition excluded (hemisphere hem_value : Z) : Prop :=
  (hemisphere = (-1)%Z /\ hem_value = RIGHT_HEMI_VAL)
  \/ (hemisphere = 1%Z /\ hem_value = LEFT_HEMI_VAL).

(** The component of a voxel index along an axis. *)
Definition axis_index (ax : nat) (i j k : nat) : nat :=
  match ax with
  | 0 => i
  | 1 => j
  | _ => k
  end.

(** The reference stores an atlas can hold: created by [Atlas.__init__]
    with no initial content, then only read through [__getitem__]. *)
Inductive store_reachable (w : World) : AdditionalRefDict -> Prop :=
  | reach_init references_list data_path :
      store_reachable w (AdditionalRefDict_init references_list data_path ∅)
  | reach_getitem d ref_name env r d' env' :
      store_reachable w d ->
      AdditionalRefDict_getitem w ref_name d env = (r, d', env') ->
      store_reachable w d'.

(** What the constructor of the catalog establishes: the keys are the ids
    stored, a record is stored under its own id, and the acronym map is
    the inverse of [Structure.acronym] on the records stored. *)
Record catalog_wf (sd : StructuresDict.t) : Prop :=
  { wf_keys : forall i, i ∈ StructuresDict.keys sd <-> is_Some (StructuresDict.data sd !! i);
    wf_id : forall i s, StructuresDict.data sd !! i = Some s -> Structure.id s = i;
    wf_acronym : forall i s,
      StructuresDict.data sd !! i = Some s ->
      StructuresDict.acronym_to_id_map sd !! Structure.acronym s = Some i;
    wf_acronym_inv : forall a i,
      StructuresDict.acronym_to_id_map sd !! a = Some i ->
      exists s, StructuresDict.data sd !! i = Some s /\ Structure.acronym s = a }.

(** The integral part of a finite number: its exact value rounded toward
    zero. *)
Definition truncate (c : Py.num) : Z :=
  match c with
  | Py.Int z => z
  | Py.Float f => Z.quot (fst (Py.fraction f)) (snd (Py.fraction f))
  end.

(** ** A small atlas *)

(** A catalog of five structures, [root > A > B > C] and [root > D], an
    annotation volume of shape (2, 2, 5) whose value depends on the last
    index only, and the worlds and atlases built on them. *)
Module Example.

Definition record (i : Z) (a : string) (path : list Z) : Structure.t :=
  {| Structure.id := i; Structure.acronym := a; Structure.name := a;
     Structure.structure_id_path := path; Structure.rgb_triplet := [0; 0; 0]%Z;
     Structure.mesh_filename := None |}.

Definition structures_json : list Structure.t :=
  [ record 1 "root" [1]; record 7 "A" [1; 7]; record 8 "B" [1; 7; 8];
    record 9 "C" [1; 7; 8; 9]; record 99 "D" [1; 99] ]%Z.

Definition uint32 : np.dtype := {| np.bits := 32; np.signed := false |}.

Definition annotation_tiff : np.ndarray :=
  {| np.shape := (2, 2, 5); np.dtype_of := uint32;
     np.item := fun _ _ k => nth k [0; 7; 8; 9; 99]%Z 0%Z |}.

(** A stored hemisphere volume with the stray values 0 and 3. *)
Definition hemispheres_tiff : np.ndarray :=
  {| np.shape := (2, 2, 5); np.dtype_of := np.uint8;
     np.item := fun _ _ k => nth k [0; 1; 2; 3; 2]%Z 0%Z |}.

(** 0.7, [0x1.6666666666666p-1], and 2.9, [0x1.7333333333333p+1]. *)
Definition f0_7 : spec_float := S754_finite false 6305039478318694 (-53).
Definition f2_9 : spec_float := S754_finite false 6530219459687219 (-51).

Definition meta (res : Py.num) (symmetric : bool)
    (refs : option (list string)) : Metadata :=
  {| md_resolution := (res, res, res); md_orientation := "asr";
     md_shape := (2, 2, 5); md_symmetric := symmetric;
     md_additional_references := refs |}.

Definition world (md : Metadata) : World :=
  {| ANNOTATION_FILENAME := "annotation.tiff";
     HEMISPHERES_FILENAME := "hemispheres.tiff";
     MESHES_DIRNAME := "meshes";
     METADATA_FILENAME := "metadata.json";
     REFERENCE_FILENAME := "reference.tiff";
     STRUCTURES_FILENAME := "structures.json";
     read_json_metadata := fun p =>
       if decide (p = "atlas/metadata.json") then Some md else None;
     read_json_structures := fun p =>
       if decide (p = "atlas/structures.json") then Some structures_json else None;
     read_tiff_file := fun p =>
       if decide (p = "atlas/annotation.tiff") then Some annotation_tiff
       else if decide (p = "atlas/hemispheres.tiff") then Some hemispheres_tiff
       else None;
     get_leaves_from_tree := fun _ => [9; 99]%Z;
     AnatomicalSpace := fun _ _ _ =>
       Ok {| axes_order := ["sagittal"; "vertical"; "frontal"] |} |}.

(** The atlas [Atlas("atlas")] of a world, if its construction succeeds. *)
Definition atlas_of (md : Metadata) : option Atlas :=
  match Atlas_init (world md) "atlas" () Env_empty with
  | (Ok a, _, _) => Some a
  | _ => None
  end.

Definition empty_atlas (md : Metadata) : Atlas :=
  {| root_dir := ""; metadata := md; structures_list := [];
     structures := StructuresDict.empty; leaf_nodes := [];
     space := {| axes_order := [] |}; _reference := None;
     additional_references := None; _annotation := None;
     _hemispheres := None; _lookup := None |}.

Definition atlas (md : Metadata) : Atlas :=
  default (empty_atlas md) (atlas_of md).

(** Current atlas, integer resolution, symmetric. *)
Definition md_current : Metadata := meta (Py.Int 25) true (Some ["nissl"]).
(** No [additional_references] in the metadata. *)
Definition md_outdated : Metadata := meta (Py.Int 25) true None.
(** A resolution of 0.7 microns. *)
Definition md_fine : Metadata := meta (Py.Float f0_7) true (Some []).
(** Hemispheres stored in a file. *)
Definition md_stored : Metadata := meta (Py.Int 25) false (Some []).

(** The state of an atlas once a method has run on it. *)
Definition after {A} (m : M Atlas A) (st : Atlas * Env) : Atlas * Env :=
  let '(_, a, env) := m st.1 st.2 in (a, env).

Definition value {A} (m : M Atlas A) (st : Atlas * Env) : result A :=
  (m st.1 st.2).1.1.

End Example.

(** What the example atlases hold and return. *)
Module ExampleValues.
Import Example.

Definition lookup (md : Metadata) (k : key) : Structure.t :=
  match StructuresDict.getitem (structures (atlas md)) k with
  | Ok s => s
  | Raise _ => record 0 "" []
  end.

Definition volume (r : result np.ndarray) : np.ndarray :=
  match r with
  | Ok v => v
  | Raise _ => np.zeros (0, 0, 0) np.uint8
  end.

(** The atlas after its annotation volume has been read. *)
Definition annotated (md : Metadata) : Atlas * Env :=
  after (annotation (world md)) (atlas md, Env_empty).

(** The hemisphere volume of the atlas. *)
Definition hemisphere_stack (md : Metadata) (st : Atlas * Env) : np.ndarray :=
  volume (value (hemispheres (world md)) st).

(** The store of the current atlas. *)
Definition store : AdditionalRefDict := AdditionalRefDict_init ["nissl"] "atlas" ∅.

(** -2.9, [-0x1.7333333333333p+1]. *)
Definition minus_2_9 : spec_float := S754_finite true 6530219459687219 (-51).
End ExampleValues.

(** The float that holds the integer [n], for [0 < n < 2^53]: the
    mantissa is [n] shifted to 53 bits. *)
Definition float_of_small_int (n : Z) : spec_float :=
  S754_finite false (Z.to_pos (n * 2 ^ (53 - Zdigits2 n))) (Zdigits2 n - 53).

(** The number [r] is the integer [R], as an [int] or as a [float]. *)
Definition is_integer (R : Z) (r : Py.num) : Prop :=
  r = Py.Int R \/ r = Py.Float (float_of_small_int R).

(** Further worlds around the example atlas: one whose volumes cannot be
    read, one with a secondary reference on disk, one whose structure
    list names an id, 7, that has no record, and one whose stored
    hemisphere volume has a signed dtype. *)
Module Edge.

Definition world_no_volumes (md : Metadata) : World :=
  {| ANNOTATION_FILENAME := "annotation.tiff";
     HEMISPHERES_FILENAME := "hemispheres.tiff";
     MESHES_DIRNAME := "meshes";
     METADATA_FILENAME := "metadata.json";
     REFERENCE_FILENAME := "reference.tiff";
     STRUCTURES_FILENAME := "structures.json";
     read_json_metadata := read_json_metadata (Example.world md);
     read_json_structures := read_json_structures (Example.world md);
     read_tiff_file := fun _ => None;
     get_leaves_from_tree := get_leaves_from_tree (Example.world md);
     AnatomicalSpace := AnatomicalSpace (Example.world md) |}.

Definition nissl_tiff : np.ndarray :=
  {| np.shape := (2, 2, 5); np.dtype_of := np.uint8;
     np.item := fun i j k => Z.of_nat (i + j + k) |}.

Definition world_nissl (md : Metadata) : World :=
  {| ANNOTATION_FILENAME := "annotation.tiff";
     HEMISPHERES_FILENAME := "hemispheres.tiff";
     MESHES_DIRNAME := "meshes";
     METADATA_FILENAME := "metadata.json";
     REFERENCE_FILENAME := "reference.tiff";
     STRUCTURES_FILENAME := "structures.json";
     read_json_metadata := read_json_metadata (Example.world md);
     read_json_structures := read_json_structures (Example.world md);
     read_tiff_file := fun p =>
       if decide (p = "atlas/nissl.tiff") then Some nissl_tiff
       else read_tiff_file (Example.world md) p;
     get_leaves_from_tree := get_leaves_from_tree (Example.world md);
     AnatomicalSpace := AnatomicalSpace (Example.world md) |}.

Definition dangling_json : list Structure.t :=
  [ Example.record 1 "root" [1]; Example.record 8 "B" [1; 7; 8] ]%Z.

Definition world_dangling (md : Metadata) : World :=
  {| ANNOTATION_FILENAME := "annotation.tiff";
     HEMISPHERES_FILENAME := "hemispheres.tiff";
     MESHES_DIRNAME := "meshes";
     METADATA_FILENAME := "metadata.json";
     REFERENCE_FILENAME := "reference.tiff";
     STRUCTURES_FILENAME := "structures.json";
     read_json_metadata := read_json_metadata (Example.world md);
     read_json_structures := fun p =>
       if decide (p = "atlas/structures.json") then Some dangling_json else None;
     read_tiff_file := read_tiff_file (Example.world md);
     get_leaves_from_tree := fun _ => [8]%Z;
     AnatomicalSpace := AnatomicalSpace (Example.world md) |}.

(** A stored hemisphere volume of a signed dtype, with the stray values
    0, -1 and 3. *)
Definition int16 : np.dtype := {| np.bits := 16; np.signed := true |}.

Definition hemispheres_int16 : np.ndarray :=
  {| np.shape := (2, 2, 5); np.dtype_of := int16;
     np.item := fun _ _ k => nth k [0; 1; 2; -1; 3]%Z 0%Z |}.

Definition world_signed (md : Metadata) : World :=
  {| ANNOTATION_FILENAME := "annotation.tiff";
     HEMISPHERES_FILENAME := "hemispheres.tiff";
     MESHES_DIRNAME := "meshes";
     METADATA_FILENAME := "metadata.json";
     REFERENCE_FILENAME := "reference.tiff";
     STRUCTURES_FILENAME := "structures.json";
     read_json_metadata := read_json_metadata (Example.world md);
     read_json_structures := read_json_structures (Example.world md);
     read_tiff_file := fun p =>
       if decide (p = "atlas/hemispheres.tiff") then Some hemispheres_int16
       else read_tiff_file (Example.world md) p;
     get_leaves_from_tree := get_leaves_from_tree (Example.world md);
     AnatomicalSpace := AnatomicalSpace (Example.world md) |}.

(** The atlas [Atlas("atlas")] of a world. *)
Definition atlas_in (w : World) : Atlas :=
  match Atlas_init w "atlas" () Env_empty with
  | (Ok a, _, _) => a
  | _ => Example.empty_atlas Example.md_current
  end.

(** A resolution of zero along every axis. *)
Definition md_flat : Metadata := Example.meta (Py.Int 0) true None.

Definition lookup_in (a : Atlas) (k : key) : Structure.t :=
  match StructuresDict.getitem (structures a) k with
  | Ok s => s
  | Raise _ => Example.record 0 "" []
  end.

End Edge.

(** * Properties *)

(** ** The result and state monads *)

Lemma comprehension_ok {A B} (f : A -> result B) (l : list A) :
  (forall a, a ∈ l -> exists b, f a = Ok b) ->
  exists bs, comprehension f l = Ok bs
             /\ Forall2 (fun a b => f a = Ok b) l bs.
Proof.
  induction l as [|a t IH]; intros H; simpl.
  - eexists; split; [reflexivity | constructor].
  - destruct (H a) as [b Hb]; [left |].
    destruct IH as (bs & Hbs & HF); [intros x Hx; apply H; right; exact Hx |].
    rewrite Hb. simpl. rewrite Hbs. simpl.
    eexists; split; [reflexivity | constructor; assumption].
Qed.

Lemma comprehension_inv {A B} (f : A -> result B) (l : list A) (bs : list B) :
  comprehension f l = Ok bs -> Forall2 (fun a b => f a = Ok b) l bs.
Proof.
  revert bs. induction l as [|a t IH]; intros bs; simpl.
  - intros [= <-]. constructor.
  - destruct (f a) as [b|e] eqn:Hb; simpl; [| discriminate].
    destruct (comprehension f t) as [bs'|e] eqn:Ht; simpl; [| discriminate].
    intros [= <-]. constructor; [assumption | apply IH; reflexivity].
Qed.

(** ** The structure catalog *)

Module StructuresDictFacts.
Import StructuresDict.

Lemma empty_wf : catalog_wf empty.
Proof.
  split; simpl.
  - intros i. rewrite lookup_empty. split; [intros H; inversion H | intros [? [=]]].
  - intros i s. rewrite lookup_empty. discriminate.
  - intros i s. rewrite lookup_empty. discriminate.
  - intros a i. rewrite lookup_empty. discriminate.
Qed.

Lemma add_all_wf (l : list Structure.t) (sd sd' : t) :
  catalog_wf sd -> add_all l sd = Ok sd' -> catalog_wf sd'.
Proof.
  revert sd. induction l as [|s rest IH]; intros sd Hwf; simpl.
  - intros [= <-]. exact Hwf.
  - destruct (decide (is_Some (data sd !! Structure.id s))) as [|Hid]; [discriminate |].
    destruct (decide (is_Some (acronym_to_id_map sd !! Structure.acronym s))) as [|Hac];
      [discriminate |].
    apply IH. destruct Hwf as [Hk Hi Ha Hinv].
    apply eq_None_not_Some in Hid. apply eq_None_not_Some in Hac.
    split; simpl.
    + intros i. rewrite elem_of_app, list_elem_of_singleton, Hk.
      destruct (decide (i = Structure.id s)) as [-> | Hne].
      * rewrite lookup_insert_eq. split; [eauto | intros _; right; reflexivity].
      * rewrite lookup_insert_ne by congruence. tauto.
    + intros i s'. destruct (decide (i = Structure.id s)) as [-> | Hne].
      * rewrite lookup_insert_eq. intros [= <-]. reflexivity.
      * rewrite lookup_insert_ne by congruence. apply Hi.
    + intros i s'. destruct (decide (i = Structure.id s)) as [-> | Hne].
      * rewrite lookup_insert_eq. intros [= <-]. apply lookup_insert_eq.
      * rewrite lookup_insert_ne by congruence. intros Hs'.
        rewrite lookup_insert_ne; [apply Ha; exact Hs' |].
        intros Heq. apply Ha in Hs'. rewrite <- Heq, Hac in Hs'. discriminate.
    + intros a i. destruct (decide (a = Structure.acronym s)) as [-> | Hne].
      * rewrite lookup_insert_eq. intros [= <-]. exists s.
        rewrite lookup_insert_eq. split; reflexivity.
      * rewrite lookup_insert_ne by congruence. intros Hai.
        destruct (Hinv _ _ Hai) as (s' & Hs' & Has'). exists s'.
        rewrite lookup_insert_ne; [split; assumption |].
        intros <-. rewrite Hid in Hs'. discriminate.
Qed.

Lemma init_wf (l : list Structure.t) (sd : t) : init l = Ok sd -> catalog_wf sd.
Proof. apply add_all_wf, empty_wf. Qed.

Lemma getitem_KInt (sd : t) (i : Z) (s : Structure.t) :
  getitem sd (KInt i) = Ok s <-> data sd !! i = Some s.
Proof.
  simpl. destruct (data sd !! i); split; intros H; inversion H; reflexivity.
Qed.

Lemma getitem_KInt_None (sd : t) (i : Z) :
  data sd !! i = None -> getitem sd (KInt i) = Raise KeyError.
Proof. simpl. intros ->. reflexivity. Qed.

(** Whatever the key, the record found is the one stored under its id. *)
Lemma getitem_data (sd : t) (k : key) (s : Structure.t) :
  catalog_wf sd -> getitem sd k = Ok s -> data sd !! Structure.id s = Some s.
Proof.
  intros Hwf. destruct k as [i | a]; simpl.
  - destruct (data sd !! i) as [s'|] eqn:E; [| discriminate].
    intros [= <-]. rewrite (wf_id _ Hwf _ _ E). exact E.
  - destruct (acronym_to_id_map sd !! a) as [i|]; [| discriminate].
    destruct (data sd !! i) as [s'|] eqn:E; [| discriminate].
    intros [= <-]. rewrite (wf_id _ Hwf _ _ E). exact E.
Qed.

Lemma getitem_acronym (sd : t) (i : Z) (s : Structure.t) :
  catalog_wf sd -> data sd !! i = Some s ->
  getitem sd (KStr (Structure.acronym s)) = Ok s.
Proof.
  intros Hwf Hs. simpl. rewrite (wf_acronym _ Hwf _ _ Hs), Hs. reflexivity.
Qed.

(** Acronyms identify records. *)
Lemma acronym_inj (sd : t) (i j : Z) (s s' : Structure.t) :
  catalog_wf sd -> data sd !! i = Some s -> data sd !! j = Some s' ->
  Structure.acronym s = Structure.acronym s' -> i = j /\ s = s'.
Proof.
  intros Hwf Hi Hj Heq.
  pose proof (wf_acronym _ Hwf _ _ Hi) as H1.
  pose proof (wf_acronym _ Hwf _ _ Hj) as H2.
  rewrite Heq, H2 in H1. injection H1 as <-.
  split; [reflexivity | congruence].
Qed.

Lemma paths_closed_spec (sd : t) (i j : Z) (s : Structure.t) :
  catalog_wf sd -> paths_closed sd = true -> data sd !! i = Some s ->
  j ∈ Py.all_but_last (Structure.structure_id_path s) ->
  is_Some (data sd !! j).
Proof.
  intros Hwf Hc Hs Hj. unfold paths_closed in Hc.
  rewrite forallb_forall in Hc.
  assert (Hin : In i (keys sd)).
  { apply list_elem_of_In, (wf_keys _ Hwf). eauto. }
  specialize (Hc _ Hin). rewrite Hs, forallb_forall in Hc.
  apply list_elem_of_In in Hj. specialize (Hc _ Hj).
  apply bool_decide_eq_true in Hc. exact Hc.
Qed.

End StructuresDictFacts.

(** ** Ancestors and descendants *)

Section Hierarchy.

Variable self : Atlas.
Hypothesis Hwf : catalog_wf (structures self).

Import StructuresDict StructuresDictFacts.

(** The ancestors of a structure do not depend on the key used. *)
Lemma ancestors_key (k : key) (s : Structure.t) :
  getitem (structures self) k = Ok s ->
  get_structure_ancestors self k
  = get_structure_ancestors self (KInt (Structure.id s)).
Proof.
  intros Hk. pose proof (getitem_data _ _ _ Hwf Hk) as Hd.
  apply getitem_KInt in Hd.
  unfold get_structure_ancestors, _get_from_structure. rewrite Hk, Hd. reflexivity.
Qed.

Lemma acronym_key (k : key) (s : Structure.t) :
  getitem (structures self) k = Ok s ->
  _get_from_structure self k Structure.acronym = Ok (Structure.acronym s).
Proof. intros Hk. unfold _get_from_structure. rewrite Hk. reflexivity. Qed.

Hypothesis Hclosed : paths_closed (structures self) = true.

(** On a closed catalog the ancestors of every record exist. *)
Lemma ancestors_total (i : Z) (s : Structure.t) :
  data (structures self) !! i = Some s ->
  exists ancestors, get_structure_ancestors self (KInt i) = Ok ancestors.
Proof.
  intros Hs. unfold get_structure_ancestors, _get_from_structure at 1.
  rewrite (proj2 (getitem_KInt _ _ _) Hs). simpl.
  destruct (comprehension_ok
              (fun k => _get_from_structure self k Structure.acronym)
              (map KInt (Py.all_but_last (Structure.structure_id_path s))))
    as (bs & Hbs & _).
  - intros k Hk. apply list_elem_of_fmap in Hk as (j & -> & Hj).
    destruct (paths_closed_spec _ _ _ _ Hwf Hclosed Hs Hj) as [s' Hs'].
    exists (Structure.acronym s'). apply acronym_key, getitem_KInt, Hs'.
  - exists bs. exact Hbs.
Qed.

(** The loop of [get_structure_descendants] terminates normally and
    collects the acronyms of the keys whose ancestors hold
    [structure]. *)
Lemma descendants_loop_spec (structure : string) (keys : list Z) (acc : list string) :
  (forall k, k ∈ keys -> is_Some (data (structures self) !! k)) ->
  exists ds,
    descendants_loop self structure keys acc = Ok ds
    /\ forall x, x ∈ ds <->
         x ∈ acc
         \/ exists k s ancestors,
              k ∈ keys /\ data (structures self) !! k = Some s
              /\ Structure.acronym s = x
              /\ get_structure_ancestors self (KInt k) = Ok ancestors
              /\ structure ∈ ancestors.
Proof.
  revert acc. induction keys as [|k rest IH]; intros acc Hkeys; simpl.
  - exists acc. split; [reflexivity |]. intros x. split; [auto |].
    intros [H | (k & s & a & Hk & _)]; [exact H | inversion Hk].
  - destruct (Hkeys k) as [s Hs]; [left |].
    destruct (ancestors_total _ _ Hs) as [anc Hanc]. rewrite Hanc. simpl.
    assert (Hrest : forall k', k' ∈ rest -> is_Some (data (structures self) !! k'))
      by (intros k' Hk'; apply Hkeys; right; exact Hk').
    destruct (decide (structure ∈ anc)) as [Hin | Hnin].
    + rewrite (acronym_key (KInt k) s) by (apply getitem_KInt, Hs). simpl.
      destruct (IH (acc ++ [Structure.acronym s]) Hrest) as (ds & Hds & Hspec).
      exists ds. split; [exact Hds |]. intros x. rewrite Hspec.
      rewrite elem_of_app, list_elem_of_singleton. split.
      * intros [[H | ->] | (k' & s' & a' & Hk' & H')].
        -- left; exact H.
        -- right. exists k, s, anc. repeat split; try assumption. left.
        -- right. exists k', s', a'. split; [right; exact Hk' | exact H'].
      * intros [H | (k' & s' & a' & Hk' & Hs' & Hx & Ha' & Hin')]; [left; left; exact H |].
        apply elem_of_cons in Hk' as [-> | Hk'].
        -- left; right. rewrite Hs in Hs'. injection Hs' as <-. symmetry; exact Hx.
        -- right. exists k', s', a'. repeat split; assumption.
    + destruct (IH acc Hrest) as (ds & Hds & Hspec).
      exists ds. split; [exact Hds |]. intros x. rewrite Hspec. split.
      * intros [H | (k' & s' & a' & Hk' & H')]; [left; exact H |].
        right. exists k', s', a'. split; [right; exact Hk' | exact H'].
      * intros [H | (k' & s' & a' & Hk' & Hs' & Hx & Ha' & Hin')]; [left; exact H |].
        apply elem_of_cons in Hk' as [-> | Hk'].
        -- rewrite Hanc in Ha'. injection Ha' as <-. contradiction.
        -- right. exists k', s', a'. repeat split; assumption.
Qed.

(** The descendants of [P] are the acronyms of the records that have
    the acronym of [P] among their ancestors. *)
Lemma descendants_spec (kP : key) (P : Structure.t) :
  getitem (structures self) kP = Ok P ->
  exists ds,
    get_structure_descendants self kP = Ok ds
    /\ forall x, x ∈ ds <->
         exists D, data (structures self) !! Structure.id D = Some D
                   /\ Structure.acronym D = x
                   /\ exists ancestors,
                        get_structure_ancestors self (KInt (Structure.id D))
                        = Ok ancestors
                        /\ Structure.acronym P ∈ ancestors.
Proof.
  intros HP. unfold get_structure_descendants.
  rewrite (acronym_key _ _ HP). simpl.
  destruct (descendants_loop_spec (Structure.acronym P) (keys (structures self)) [])
    as (ds & Hds & Hspec).
  { intros k Hk. apply (wf_keys _ Hwf), Hk. }
  exists ds. split; [exact Hds |]. intros x. rewrite Hspec. split.
  - intros [H | (k & s & a & Hk & Hs & Hx & Ha & Hin)]; [inversion H |].
    pose proof (wf_id _ Hwf _ _ Hs) as Hid.
    exists s. rewrite Hid. split; [exact Hs |]. split; [exact Hx |].
    exists a. split; assumption.
  - intros (D & HD & Hx & a & Ha & Hin). right.
    exists (Structure.id D), D, a. repeat split; try assumption.
    apply (wf_keys _ Hwf). eauto.
Qed.

(** The ancestors of a record are the acronyms of the records on its
    path, the last entry apart, in the order of the path. *)
Lemma ancestors_of_path (i : Z) (D : Structure.t) (ancestors : list string) :
  data (structures self) !! i = Some D ->
  get_structure_ancestors self (KInt i) = Ok ancestors ->
  Forall2 (fun j acr => exists s, data (structures self) !! j = Some s
                                  /\ Structure.acronym s = acr)
    (Py.all_but_last (Structure.structure_id_path D)) ancestors.
Proof.
  intros HD. unfold get_structure_ancestors, _get_from_structure at 1.
  rewrite (proj2 (getitem_KInt _ _ _) HD). simpl.
  unfold _get_from_structure_list. intros Hc. apply comprehension_inv in Hc.
  apply Forall2_fmap_l in Hc. eapply Forall2_impl; [exact Hc |].
  intros j acr Hj. simpl in Hj. unfold _get_from_structure in Hj.
  destruct (getitem (structures self) (KInt j)) as [s|] eqn:Es; [| discriminate].
  injection Hj as <-. exists s. split; [apply getitem_KInt, Es | reflexivity].
Qed.

(** Acronyms are unique, so the acronym of [P] is among the ancestors
    of a record exactly when the id of [P] is on the path of the record
    before its last entry. *)
Lemma ancestor_on_path (P D : Structure.t) (i : Z) (ancestors : list string) :
  data (structures self) !! Structure.id P = Some P ->
  data (structures self) !! i = Some D ->
  get_structure_ancestors self (KInt i) = Ok ancestors ->
  Structure.acronym P ∈ ancestors <-> is_descendant P D = true.
Proof.
  intros HP HD Hanc. pose proof (ancestors_of_path _ _ _ HD Hanc) as HF.
  unfold is_descendant. rewrite bool_decide_eq_true. split.
  - intros Hin. apply list_elem_of_lookup in Hin as [n Hn].
    destruct (Forall2_lookup_r _ _ _ _ _ HF Hn) as (j & Hj & s & Hs & Hacr).
    destruct (acronym_inj _ _ _ _ _ Hwf Hs HP Hacr) as [-> _].
    apply list_elem_of_lookup. eauto.
  - intros Hin. apply list_elem_of_lookup in Hin as [n Hn].
    destruct (Forall2_lookup_l _ _ _ _ _ HF Hn) as (acr & Hacr & s & Hs & <-).
    rewrite HP in Hs. injection Hs as <-.
    apply list_elem_of_lookup. eauto.
Qed.

(** The descendants of [P] are the acronyms of the records whose path
    holds the id of [P] before its last entry. *)
Lemma descendants_by_path (kP : key) (P : Structure.t) :
  getitem (structures self) kP = Ok P ->
  exists ds,
    get_structure_descendants self kP = Ok ds
    /\ forall x, x ∈ ds <->
         exists D, data (structures self) !! Structure.id D = Some D
                   /\ Structure.acronym D = x
                   /\ is_descendant P D = true.
Proof.
  intros HP. destruct (descendants_spec kP P HP) as (ds & Hds & Hspec).
  pose proof (getitem_data _ _ _ Hwf HP) as HdP.
  exists ds. split; [exact Hds |]. intros x. rewrite Hspec. split.
  - intros (D & HD & Hx & anc & Hanc & Hin). exists D.
    split; [exact HD |]. split; [exact Hx |].
    apply (ancestor_on_path P D _ anc HdP HD Hanc), Hin.
  - intros (D & HD & Hx & Hdesc). exists D.
    split; [exact HD |]. split; [exact Hx |].
    destruct (ancestors_total _ _ HD) as [anc Hanc]. exists anc.
    split; [exact Hanc |].
    apply (ancestor_on_path P D _ anc HdP HD Hanc), Hdesc.
Qed.

End Hierarchy.

(** C4. For structures S and P of the catalog, the acronym of S is among
    the descendants of P exactly when the acronym of P is among the
    ancestors of S; on a catalog built by the constructor whose paths are
    closed both queries return. *)
Theorem descendants_iff_ancestors (self : Atlas) (structures_list : list Structure.t)
    (kS kP : key) (S P : Structure.t) :
  StructuresDict.init structures_list = Ok (structures self) ->
  paths_closed (structures self) = true ->
  StructuresDict.getitem (structures self) kS = Ok S ->
  StructuresDict.getitem (structures self) kP = Ok P ->
  exists descendants ancestors,
    get_structure_descendants self kP = Ok descendants
    /\ get_structure_ancestors self kS = Ok ancestors
    /\ (Structure.acronym S ∈ descendants <-> Structure.acronym P ∈ ancestors).
Proof.
  intros Hinit Hclosed HS HP.
  pose proof (StructuresDictFacts.init_wf _ _ Hinit) as Hwf.
  pose proof (StructuresDictFacts.getitem_data _ _ _ Hwf HS) as HdS.
  destruct (descendants_spec self Hwf Hclosed kP P HP) as (ds & Hds & Hspec).
  destruct (ancestors_total self Hwf Hclosed _ _ HdS) as [anc Hanc].
  exists ds, anc. split; [exact Hds |].
  split; [rewrite (ancestors_key self Hwf kS S HS); exact Hanc |].
  rewrite Hspec. split.
  - intros (D & HD & Hacr & a & Ha & Hin).
    destruct (StructuresDictFacts.acronym_inj _ _ _ _ _ Hwf HD HdS Hacr) as [_ ->].
    rewrite Hanc in Ha. injection Ha as <-. exact Hin.
  - intros Hin. exists S. repeat split; try assumption.
    exists anc. split; assumption.
Qed.

(** ** numpy arrays *)

Module npFacts.
Import np.
Local Open Scope Z_scope.

Lemma pow2_double (b : Z) : 0 < b -> 2 ^ b = 2 * 2 ^ (b - 1).
Proof. intros Hb. rewrite <- Z.pow_succ_r by lia. f_equal. lia. Qed.

Lemma cast_zero (dt : dtype) : cast dt 0 = 0.
Proof.
  unfold cast. destruct (signed dt); [| reflexivity].
  destruct (Z.le_gt_cases (bits dt) 0) as [Hle | Hgt].
  - rewrite (Z.pow_neg_r 2 (bits dt - 1)) by lia. reflexivity.
  - rewrite (pow2_double (bits dt)) by lia.
    pose proof (Z.pow_pos_nonneg 2 (bits dt - 1)).
    rewrite Z.add_0_l, Z.mod_small by lia. lia.
Qed.

(** A value of the dtype is stored unchanged. *)
Lemma cast_in_range (dt : dtype) (z : Z) : in_range dt z -> cast dt z = z.
Proof.
  unfold in_range, cast. destruct (signed dt); intros Hz.
  - destruct (Z.le_gt_cases (bits dt) 0) as [Hle | Hgt].
    + rewrite (Z.pow_neg_r 2 (bits dt - 1)) in Hz by lia. lia.
    + rewrite (pow2_double (bits dt)) by lia.
      rewrite Z.mod_small by lia. lia.
  - apply Z.mod_small. exact Hz.
Qed.

Lemma normalize_index_nonneg (n : nat) (i : nat) :
  (i < n)%nat -> normalize_index n (Z.of_nat i) = Ok i.
Proof.
  intros Hi. unfold normalize_index.
  destruct (Z.of_nat i <? 0) eqn:E; [apply Z.ltb_lt in E; lia |].
  replace (0 <=? Z.of_nat i) with true by (symmetry; apply Z.leb_le; lia).
  replace (Z.of_nat i <? Z.of_nat n) with true by (symmetry; apply Z.ltb_lt; lia).
  simpl. rewrite Nat2Z.id. reflexivity.
Qed.

(** A negative index in range counts from the end of the axis. *)
Lemma normalize_index_negative (n : nat) (i : Z) :
  - Z.of_nat n <= i < 0 -> normalize_index n i = Ok (Z.to_nat (Z.of_nat n + i)).
Proof.
  intros Hi. unfold normalize_index.
  replace (i <? 0) with true by (symmetry; apply Z.ltb_lt; lia).
  replace (0 <=? i + Z.of_nat n) with true by (symmetry; apply Z.leb_le; lia).
  replace (i + Z.of_nat n <? Z.of_nat n) with true by (symmetry; apply Z.ltb_lt; lia).
  simpl. do 2 f_equal. lia.
Qed.

Lemma normalize_index_raises (n : nat) (i : Z) (e : exn) :
  normalize_index n i = Raise e -> e = IndexError.
Proof.
  unfold normalize_index.
  destruct ((0 <=? _) && (_ <? _)); [discriminate | congruence].
Qed.

Lemma setitem_mask_raises (a : ndarray) (m : boolarray) (v : Z) (e : exn) :
  setitem_mask a m v = Raise e -> e = IndexError.
Proof. unfold setitem_mask. destruct (decide _); [discriminate | congruence]. Qed.

Lemma setitem_mask_ok (a : ndarray) (m : boolarray) (v : Z) :
  bshape m = shape a ->
  setitem_mask a m v
  = Ok {| shape := shape a; dtype_of := dtype_of a;
          item := fun i j k =>
            if bitem m i j k then cast (dtype_of a) v else item a i j k |}.
Proof. intros H. unfold setitem_mask. destruct (decide _); [reflexivity | contradiction]. Qed.

End npFacts.

(** ** Lazily loaded volumes *)

Arguments StructuresDict.getitem : simpl never.

Ltac unfold_M :=
  unfold mbind, M_bind, mret, M_ret, get, put, lift, read_tiff, warn in *.

Section Lazy.

Variable w : World.

Lemma annotation_cached (self : Atlas) (env : Env) (ann : np.ndarray) :
  _annotation self = Some ann -> annotation w self env = (Ok ann, self, env).
Proof. intros H. unfold annotation. unfold_M. rewrite H. reflexivity. Qed.

(** Reading the annotation changes nothing but the cached volume, and
    fails only when the file cannot be read. *)
Lemma annotation_inv (self : Atlas) (env : Env) (r : result np.ndarray)
    (self1 : Atlas) (env1 : Env) :
  annotation w self env = (r, self1, env1) ->
  structures self1 = structures self
  /\ metadata self1 = metadata self
  /\ space self1 = space self
  /\ root_dir self1 = root_dir self
  /\ _hemispheres self1 = _hemispheres self
  /\ (forall ann, r = Ok ann -> _annotation self1 = Some ann)
  /\ (forall e, r = Raise e -> e = OSError).
Proof.
  unfold annotation. unfold_M.
  destruct (_annotation self) as [v|] eqn:E.
  - intros [= <- <- <-]. repeat split; try reflexivity; [congruence | discriminate].
  - destruct (read_tiff_file w _) as [v|]; simpl; intros [= <- <- <-].
    + repeat split; try reflexivity; [simpl; congruence | discriminate].
    + repeat split; try reflexivity; [discriminate | congruence].
Qed.

End Lazy.

(** ** Structure masks *)

Section Mask.

Variable w : World.
Variable self : Atlas.
Hypothesis Hwf : catalog_wf (structures self).
Hypothesis Hclosed : paths_closed (structures self) = true.

Import StructuresDict StructuresDictFacts.

(** The id list built by [get_structure_mask] is the id set of the
    subtree. *)
Lemma descendant_ids_spec (structure : key) (S : Structure.t) :
  getitem (structures self) structure = Ok S ->
  exists descendants descendant_ids,
    get_structure_descendants self structure = Ok descendants
    /\ comprehension
         (fun descendant =>
            Structure.id <$> getitem (structures self) (KStr descendant))
         descendants = Ok descendant_ids
    /\ forall z, z ∈ descendant_ids ++ [Structure.id S]
                 <-> in_subtree (structures self) S z = true.
Proof.
  intros HS.
  destruct (descendants_by_path self Hwf Hclosed structure S HS) as (ds & Hds & Hspec).
  destruct (comprehension_ok
              (fun descendant =>
                 Structure.id <$> getitem (structures self) (KStr descendant)) ds)
    as (ids & Hids & HF).
  { intros x Hx. apply Hspec in Hx as (D & HD & <- & _).
    exists (Structure.id D). rewrite (getitem_acronym _ _ _ Hwf HD). reflexivity. }
  exists ds, ids. split; [exact Hds |]. split; [exact Hids |].
  intros z. rewrite elem_of_app, list_elem_of_singleton. unfold in_subtree.
  rewrite orb_true_iff, bool_decide_eq_true. split.
  - intros [Hz | ->]; [right | left; reflexivity].
    apply list_elem_of_lookup in Hz as [n Hn].
    destruct (Forall2_lookup_r _ _ _ _ _ HF Hn) as (x & Hx & Hfx).
    assert (Hxin : x ∈ ds) by (apply list_elem_of_lookup; eauto).
    apply Hspec in Hxin as (D & HD & <- & Hdesc).
    rewrite (getitem_acronym _ _ _ Hwf HD) in Hfx. injection Hfx as <-.
    rewrite HD. exact Hdesc.
  - intros [-> | Hdesc]; [right; reflexivity | left].
    destruct (data (structures self) !! z) as [D|] eqn:HD; [| discriminate].
    pose proof (wf_id _ Hwf _ _ HD) as Hid. subst z.
    assert (Hxin : Structure.acronym D ∈ ds) by (apply Hspec; exists D; auto).
    apply list_elem_of_lookup in Hxin as [n Hn].
    destruct (Forall2_lookup_l _ _ _ _ _ HF Hn) as (y & Hy & Hfy).
    rewrite (getitem_acronym _ _ _ Hwf HD) in Hfy. injection Hfy as <-.
    apply list_elem_of_lookup. eauto.
Qed.

End Mask.

(** C1. Where the catalog is the constructor's and its paths are closed,
    the annotation volume has the atlas shape and the id of S fits its
    dtype, [get_structure_mask(S, hemisphere)] for a hemisphere of -1, 0 or
    1 returns a volume of the atlas shape that holds the id of S at the
    voxels whose annotation is the id of S or the id of a record whose
    [structure_id_path] holds the id of S before its last entry, and 0
    elsewhere; hemisphere -1 also zeroes the voxels whose hemisphere value
    is 2 (RIGHT) and hemisphere 1 those whose value is 1 (LEFT). *)
Theorem get_structure_mask_spec (w : World) (self : Atlas) (env : Env)
    (structures_list : list Structure.t) (structure : key) (S : Structure.t)
    (ann : np.ndarray) (self1 : Atlas) (env1 : Env)
    (hemisphere : Z) (hem : np.ndarray) :
  StructuresDict.init structures_list = Ok (structures self) ->
  paths_closed (structures self) = true ->
  StructuresDict.getitem (structures self) structure = Ok S ->
  annotation w self env = (Ok ann, self1, env1) ->
  np.shape ann = shape self ->
  np.in_range (np.dtype_of ann) (Structure.id S) ->
  (hemisphere = 0 \/ hemisphere = -1 \/ hemisphere = 1)%Z ->
  (hemisphere <> 0%Z ->
   exists self2 env2,
     hemispheres w self1 env1 = (Ok hem, self2, env2)
     /\ np.shape hem = shape self) ->
  exists mask self' env',
    get_structure_mask w structure hemisphere self env = (Ok mask, self', env')
    /\ np.shape mask = shape self
    /\ forall i j k, np.in_bounds (shape self) i j k ->
         (excluded hemisphere (np.item hem i j k) -> np.item mask i j k = 0%Z)
         /\ (~ excluded hemisphere (np.item hem i j k) ->
             in_subtree (structures self) S (np.item ann i j k) = true ->
             np.item mask i j k = Structure.id S)
         /\ (in_subtree (structures self) S (np.item ann i j k) = false ->
             np.item mask i j k = 0%Z).
Proof.
  intros Hinit Hclosed HS Hann Hshape Hrange Hhemi Hhem.
  pose proof (StructuresDictFacts.init_wf _ _ Hinit) as Hwf.
  destruct (descendant_ids_spec self Hwf Hclosed structure S HS)
    as (ds & ids & Hds & Hids & Hset).
  destruct (annotation_inv w _ _ _ _ _ Hann) as (_ & _ & _ & _ & _ & Hcache & _).
  pose proof (annotation_cached w self1 env1 ann (Hcache _ eq_refl)) as Hann2.
  assert (Hval : forall i j k,
             (if bool_decide (np.item ann i j k ∈ ids ++ [Structure.id S])
              then np.cast (np.dtype_of ann) (Structure.id S)
              else np.cast (np.dtype_of ann) 0)
             = if bool_decide (np.item ann i j k ∈ ids ++ [Structure.id S])
               then Structure.id S else 0%Z).
  { intros i j k. rewrite npFacts.cast_zero, npFacts.cast_in_range by assumption.
    reflexivity. }
  unfold get_structure_mask. unfold_M.
  rewrite HS. simpl. rewrite Hds. simpl. rewrite Hids. rewrite Hann, Hann2.
  rewrite npFacts.setitem_mask_ok by (simpl; exact Hshape).
  destruct Hhemi as [-> | [-> | ->]]; simpl.
  - do 3 eexists. split; [reflexivity |]. split; [reflexivity |].
    intros i j k _. simpl. rewrite Hval.
    split; [| split].
    + intros [[? _] | [? _]]; discriminate.
    + intros _ Hin. apply Hset in Hin. rewrite bool_decide_eq_true_2 by assumption.
      reflexivity.
    + intros Hnin. rewrite bool_decide_eq_false_2; [reflexivity |].
      intros Hin. apply Hset in Hin. congruence.
  - destruct Hhem as (self2 & env2 & Hh & Hhshape); [discriminate |].
    rewrite Hh. rewrite npFacts.setitem_mask_ok by (simpl; exact Hhshape).
    do 3 eexists. split; [reflexivity |]. split; [reflexivity |].
    intros i j k _. simpl. rewrite Hval, npFacts.cast_zero.
    destruct (Z.eqb_spec (np.item hem i j k) RIGHT_HEMI_VAL) as [Heq | Hne].
    + split; [reflexivity | split].
      * intros Hex. exfalso. apply Hex. left. split; [reflexivity | exact Heq].
      * intros Hnin. reflexivity.
    + split; [| split].
      * intros [[_ ?] | [? _]]; [contradiction | discriminate].
      * intros _ Hin. apply Hset in Hin. rewrite bool_decide_eq_true_2 by assumption.
        reflexivity.
      * intros Hnin. rewrite bool_decide_eq_false_2; [reflexivity |].
        intros Hin. apply Hset in Hin. congruence.
  - destruct Hhem as (self2 & env2 & Hh & Hhshape); [discriminate |].
    rewrite Hh. rewrite npFacts.setitem_mask_ok by (simpl; exact Hhshape).
    do 3 eexists. split; [reflexivity |]. split; [reflexivity |].
    intros i j k _. simpl. rewrite Hval, npFacts.cast_zero.
    destruct (Z.eqb_spec (np.item hem i j k) LEFT_HEMI_VAL) as [Heq | Hne].
    + split; [reflexivity | split].
      * intros Hex. exfalso. apply Hex. right. split; [reflexivity | exact Heq].
      * intros Hnin. reflexivity.
    + split; [| split].
      * intros [[? _] | [_ ?]]; [discriminate | contradiction].
      * intros _ Hin. apply Hset in Hin. rewrite bool_decide_eq_true_2 by assumption.
        reflexivity.
      * intros Hnin. rewrite bool_decide_eq_false_2; [reflexivity |].
        intros Hin. apply Hset in Hin. congruence.
Qed.

(** ** Which exceptions the operations raise *)

Lemma getitem_raises (sd : StructuresDict.t) (k : key) (e : exn) :
  StructuresDict.getitem sd k = Raise e -> e = KeyError.
Proof.
  unfold StructuresDict.getitem. destruct k as [i | a].
  - destruct (_ !! i); [discriminate | congruence].
  - destruct (_ !! a) as [i|]; [| congruence].
    destruct (_ !! i); [discriminate | congruence].
Qed.

Lemma comprehension_raises {A B} (P : exn -> Prop) (f : A -> result B)
    (l : list A) (e : exn) :
  (forall a e', f a = Raise e' -> P e') -> comprehension f l = Raise e -> P e.
Proof.
  intros Hf. induction l as [|a t IH]; simpl; [discriminate |].
  destruct (f a) as [b|e'] eqn:Hb; simpl.
  - destruct (comprehension f t) as [bs|e'']; simpl; [discriminate |].
    intros [= <-]. apply IH. reflexivity.
  - intros [= <-]. eapply Hf, Hb.
Qed.

Lemma get_from_structure_raises {A} (self : Atlas) (k : key)
    (field : Structure.t -> A) (e : exn) :
  _get_from_structure self k field = Raise e -> e = KeyError.
Proof.
  unfold _get_from_structure.
  destruct (StructuresDict.getitem _ k) eqn:E; simpl; [discriminate |].
  intros [= <-]. eapply getitem_raises, E.
Qed.

Lemma ancestors_raises (self : Atlas) (k : key) (e : exn) :
  get_structure_ancestors self k = Raise e -> e = KeyError.
Proof.
  unfold get_structure_ancestors.
  destruct (_get_from_structure self k _) as [path|e'] eqn:E; simpl.
  - apply (comprehension_raises (fun e => e = KeyError)).
    intros a e'. apply get_from_structure_raises.
  - intros [= <-]. eapply get_from_structure_raises, E.
Qed.

Lemma descendants_loop_raises (self : Atlas) (a : string) (keys : list Z)
    (acc : list string) (e : exn) :
  descendants_loop self a keys acc = Raise e -> e = KeyError.
Proof.
  revert acc. induction keys as [|k rest IH]; intros acc; simpl; [discriminate |].
  destruct (get_structure_ancestors self (KInt k)) as [anc|e'] eqn:E; simpl.
  - destruct (decide (a ∈ anc)); [| apply IH].
    destruct (_get_from_structure self (KInt k) _) as [x|e'] eqn:E'; simpl; [apply IH |].
    intros [= <-]. eapply get_from_structure_raises, E'.
  - intros [= <-]. eapply ancestors_raises, E.
Qed.

Lemma descendants_raises (self : Atlas) (k : key) (e : exn) :
  get_structure_descendants self k = Raise e -> e = KeyError.
Proof.
  unfold get_structure_descendants.
  destruct (_get_from_structure self k _) as [a|e'] eqn:E; simpl.
  - apply descendants_loop_raises.
  - intros [= <-]. eapply get_from_structure_raises, E.
Qed.

Lemma list_index_raises `{EqDecision A} (x : A) (l : list A) (e : exn) :
  Py.list_index x l = Raise e -> e = ValueError "x not in list".
Proof.
  induction l as [|y t IH]; simpl; [congruence |].
  destruct (decide (y = x)); [discriminate |].
  destruct (Py.list_index x t); simpl; [discriminate |].
  intros [= <-]. apply IH. reflexivity.
Qed.

(** Building or loading the hemisphere volume never raises the error of
    the hemisphere argument. *)
Lemma hemispheres_raises (w : World) (self : Atlas) (env : Env) (e : exn)
    (self' : Atlas) (env' : Env) :
  hemispheres w self env = (Raise e, self', env') -> e <> InvalidHemisphereFilter.
Proof.
  unfold hemispheres. unfold_M.
  destruct (_hemispheres self); [discriminate |].
  destruct (md_symmetric (metadata self)).
  - destruct (Py.list_index _ _) as [ax|e'] eqn:Eax;
      [| intros [= <- <- <-]; rewrite (list_index_raises _ _ _ Eax); discriminate].
    destruct (np.shape_getitem _ ax) as [n|e'] eqn:En.
    2:{ intros [= <- <- <-]. unfold np.shape_getitem in En.
        destruct (np.shape _) as [[n0 n1] n2].
        destruct ax as [|[|[|ax]]]; try discriminate. injection En as <-. discriminate. }
    destruct (list_setitem _ ax _) as [sl|e'] eqn:Esl.
    2:{ intros [= <- <- <-]. unfold list_setitem in Esl.
        destruct (decide _); [discriminate |]. injection Esl as <-. discriminate. }
    destruct (np.setitem_slices _ sl 1) as [st|e'] eqn:Est; [discriminate |].
    intros [= <- <- <-]. unfold np.setitem_slices in Est.
    destruct sl as [|s0 [|s1 [|s2 [|]]]]; try (injection Est as <-; discriminate).
    destruct (np.shape _) as [[n0 n1] n2]. discriminate.
  - destruct (read_tiff_file w _); simpl; [discriminate |].
    intros [= <- <- <-]. discriminate.
Qed.

(** C6. Whenever the mask of a structure key can be computed without a
    hemisphere filter, [get_structure_mask] raises InvalidHemisphereFilter
    for every hemisphere argument outside -1, 0 and 1; for an argument among
    -1, 0 and 1 it never raises that error, whatever the key and the
    atlas. *)
Theorem get_structure_mask_hemisphere_check (w : World) (structure : key)
    (self : Atlas) (env : Env) :
  (forall hemisphere mask self' env',
     hemisphere <> (-1)%Z -> hemisphere <> 0%Z -> hemisphere <> 1%Z ->
     get_structure_mask w structure 0 self env = (Ok mask, self', env') ->
     get_structure_mask w structure hemisphere self env
     = (Raise InvalidHemisphereFilter, self', env'))
  /\ (forall hemisphere self' env',
        (hemisphere = -1 \/ hemisphere = 0 \/ hemisphere = 1)%Z ->
        get_structure_mask w structure hemisphere self env
        <> (Raise InvalidHemisphereFilter, self', env')).
Proof.
  split.
  - intros hemisphere mask self' env' Hm1 H0 H1.
    unfold get_structure_mask. unfold_M.
    destruct (Structure.id <$> StructuresDict.getitem (structures self) structure)
      as [sid|]; [| discriminate].
    destruct (get_structure_descendants self structure) as [ds|]; [| discriminate].
    destruct (comprehension _ ds) as [ids|]; [| discriminate].
    destruct (annotation w self env) as [[[ann|] self1] env1]; [| discriminate].
    destruct (annotation w self1 env1) as [[[ann'|] self2] env2]; [| discriminate].
    destruct (np.setitem_mask _ _ sid) as [mask1|]; [| discriminate].
    simpl. intros [= <- <- <-].
    apply Z.eqb_neq in Hm1, H0, H1. rewrite Hm1, H0, H1. reflexivity.
  - intros hemisphere self' env' Hh.
    unfold get_structure_mask. unfold_M.
    destruct (Structure.id <$> StructuresDict.getitem (structures self) structure)
      as [sid|e] eqn:Esid.
    2:{ intros [= -> <- <-].
        destruct (StructuresDict.getitem (structures self) structure) eqn:E;
          simpl in Esid; [discriminate |].
        injection Esid as ->. apply getitem_raises in E. discriminate. }
    destruct (get_structure_descendants self structure) as [ds|e] eqn:Eds.
    2:{ intros [= -> <- <-]. apply descendants_raises in Eds. discriminate. }
    destruct (comprehension _ ds) as [ids|e] eqn:Eids.
    2:{ intros [= -> <- <-].
        apply (comprehension_raises (fun e => e = KeyError)) in Eids;
          [cbv beta in Eids; discriminate |].
        intros a e'.
        destruct (StructuresDict.getitem (structures self) (KStr a)) eqn:E; simpl;
          [discriminate |].
        intros [= <-]. eapply getitem_raises, E. }
    destruct (annotation w self env) as [[[ann|e] self1] env1] eqn:Eann.
    2:{ intros [= -> <- <-].
        destruct (annotation_inv w _ _ _ _ _ Eann) as (_ & _ & _ & _ & _ & _ & He).
        specialize (He _ eq_refl). discriminate. }
    destruct (annotation w self1 env1) as [[[ann'|e] self2] env2] eqn:Eann2.
    2:{ intros [= -> <- <-].
        destruct (annotation_inv w _ _ _ _ _ Eann2) as (_ & _ & _ & _ & _ & _ & He).
        specialize (He _ eq_refl). discriminate. }
    destruct (np.setitem_mask _ _ sid) as [mask1|e] eqn:Em.
    2:{ intros [= -> <- <-]. apply npFacts.setitem_mask_raises in Em. discriminate. }
    destruct Hh as [-> | [-> | ->]]; simpl; [| discriminate |].
    + destruct (hemispheres w self2 env2) as [[[h|e] self3] env3] eqn:Eh.
      * destruct (np.setitem_mask _ _ 0) as [m|e] eqn:Em2; [discriminate |].
        intros [= -> <- <-]. apply npFacts.setitem_mask_raises in Em2. discriminate.
      * intros [= -> <- <-]. eapply hemispheres_raises; [exact Eh | reflexivity].
    + destruct (hemispheres w self2 env2) as [[[h|e] self3] env3] eqn:Eh.
      * destruct (np.setitem_mask _ _ 0) as [m|e] eqn:Em2; [discriminate |].
        intros [= -> <- <-]. apply npFacts.setitem_mask_raises in Em2. discriminate.
      * intros [= -> <- <-]. eapply hemispheres_raises; [exact Eh | reflexivity].
Qed.

(** ** The hemisphere volume *)

Lemma slice_selects_all (n i : nat) :
  i < n -> np.slice_selects n np.slice_None i = true.
Proof.
  intros Hi. unfold np.slice_selects, np.slice_None, np.slice_bound. simpl.
  apply andb_true_intro. split; [apply Z.leb_le | apply Z.ltb_lt]; lia.
Qed.

Lemma slice_selects_from (n start i : nat) :
  i < n ->
  np.slice_selects n (Some (Z.of_nat start), None) i = bool_decide (start <= i).
Proof.
  intros Hi. unfold np.slice_selects, np.slice_bound. simpl.
  destruct (Z.of_nat start <? 0)%Z eqn:E; [apply Z.ltb_lt in E; lia |].
  replace (Z.of_nat i <? Z.of_nat n)%Z with true by (symmetry; apply Z.ltb_lt; lia).
  rewrite andb_true_r.
  destruct (decide (start <= i)) as [Hle | Hgt].
  - rewrite bool_decide_eq_true_2 by assumption. apply Z.leb_le. lia.
  - rewrite bool_decide_eq_false_2 by assumption. apply Z.leb_gt. lia.
Qed.

Lemma split_index_nat (n : nat) : (Z.of_nat n / 2 + 1)%Z = Z.of_nat (n / 2 + 1).
Proof. rewrite Nat2Z.inj_add, Nat2Z.inj_div. reflexivity. Qed.

(** C3. For a symmetric atlas the hemisphere volume is built on first
    access: it has the atlas shape, holds 1 (LEFT) at the voxels whose
    index along the frontal axis is at least [shape[frontal] // 2 + 1] and
    2 (RIGHT) at all the others. *)
Theorem hemispheres_symmetric (w : World) (self : Atlas) (env : Env)
    (front_ax_idx n : nat) :
  _hemispheres self = None ->
  md_symmetric (metadata self) = true ->
  Py.list_index "frontal" (axes_order (space self)) = Ok front_ax_idx ->
  np.shape_getitem (md_shape (metadata self)) front_ax_idx = Ok n ->
  exists stack,
    hemispheres w self env = (Ok stack, set_hemispheres self stack, env)
    /\ np.shape stack = md_shape (metadata self)
    /\ forall i j k, np.in_bounds (np.shape stack) i j k ->
         np.item stack i j k
         = if decide (n / 2 + 1 <= axis_index front_ax_idx i j k)
           then LEFT_HEMI_VAL else RIGHT_HEMI_VAL.
Proof.
  intros Hnone Hsym Hax Hn.
  unfold hemispheres. unfold_M. rewrite Hnone, Hsym, Hax.
  cbn [np.shape np.full]. rewrite Hn.
  rewrite split_index_nat. set (start := n / 2 + 1). clearbody start.
  destruct (md_shape (metadata self)) as [[n0 n1] n2] eqn:Hshape.
  destruct front_ax_idx as [|[|[|ax]]]; simpl in Hn; try discriminate;
    clear Hn; simpl;
    (eexists; split; [reflexivity |]; split; [reflexivity |]);
    intros i j k (Hi & Hj & Hk); simpl;
    rewrite ?slice_selects_all by assumption;
    rewrite slice_selects_from by assumption;
    rewrite ?andb_true_r; simpl;
    case_decide;
    [ rewrite bool_decide_eq_true_2 by assumption; reflexivity
    | rewrite bool_decide_eq_false_2 by assumption; reflexivity
    | rewrite bool_decide_eq_true_2 by assumption; reflexivity
    | rewrite bool_decide_eq_false_2 by assumption; reflexivity
    | rewrite bool_decide_eq_true_2 by assumption; reflexivity
    | rewrite bool_decide_eq_false_2 by assumption; reflexivity ].
Qed.

(** ** Python numbers *)

Module PyFacts.
Import Py.
Local Open Scope Z_scope.

Lemma digits2_pos_bounds (p : positive) :
  2 ^ (Z.pos (digits2_pos p) - 1) <= Z.pos p < 2 ^ Z.pos (digits2_pos p).
Proof.
  induction p as [p IH | p IH |]; simpl digits2_pos.
  - rewrite Pos2Z.inj_succ.
    replace (Z.succ (Z.pos (digits2_pos p)) - 1) with (Z.succ (Z.pos (digits2_pos p) - 1)) by lia.
    rewrite !Z.pow_succ_r by lia. lia.
  - rewrite Pos2Z.inj_succ.
    replace (Z.succ (Z.pos (digits2_pos p)) - 1) with (Z.succ (Z.pos (digits2_pos p) - 1)) by lia.
    rewrite !Z.pow_succ_r by lia. lia.
  - simpl. lia.
Qed.

Lemma Zdigits2_unique (m d : Z) :
  2 ^ (d - 1) <= m < 2 ^ d -> 0 < d -> Zdigits2 m = d.
Proof.
  intros [Hlo Hhi] Hd.
  assert (0 < m) by (pose proof (Z.pow_pos_nonneg 2 (d - 1)); lia).
  destruct m as [|p|p]; try lia.
  simpl. pose proof (digits2_pos_bounds p) as [Hl Hh].
  set (d' := Z.pos (digits2_pos p)) in *.
  assert (0 < d') by (unfold d'; lia).
  destruct (Z.lt_trichotomy d d') as [Hlt | [Heq | Hgt]]; [| exact (eq_sym Heq) |].
  - assert (2 ^ d <= 2 ^ (d' - 1)) by (apply Z.pow_le_mono_r; lia). lia.
  - assert (2 ^ d' <= 2 ^ (d - 1)) by (apply Z.pow_le_mono_r; lia). lia.
Qed.

Lemma Zdigits2_bounds (m : Z) :
  0 < m -> 2 ^ (Zdigits2 m - 1) <= m < 2 ^ Zdigits2 m /\ 0 < Zdigits2 m.
Proof.
  destruct m as [|p|p]; try lia. intros _. simpl.
  split; [apply digits2_pos_bounds | lia].
Qed.

Lemma Zdigits2_shift (m s : Z) :
  0 < m -> 0 <= s -> Zdigits2 (m * 2 ^ s) = Zdigits2 m + s.
Proof.
  intros Hm Hs. destruct (Zdigits2_bounds m Hm) as [[Hlo Hhi] Hd].
  apply Zdigits2_unique; [| lia].
  replace (Zdigits2 m + s - 1) with ((Zdigits2 m - 1) + s) by lia.
  rewrite !Z.pow_add_r by lia.
  pose proof (Z.pow_pos_nonneg 2 s). nia.
Qed.

Lemma iter_pos_nat {A} (f : A -> A) (p : positive) (x : A) :
  SpecFloat.iter_pos f p x = Nat.iter (Pos.to_nat p) f x.
Proof.
  revert x. induction p as [p IH | p IH |]; intros x; simpl SpecFloat.iter_pos.
  - rewrite !IH, <- Nat.iter_succ_r, <- Nat.iter_add. f_equal. lia.
  - rewrite !IH, <- Nat.iter_add. f_equal. lia.
  - reflexivity.
Qed.

Lemma shr_1_exact (m : Z) :
  0 <= m -> shr_1 (Build_shr_record (2 * m) false false) = Build_shr_record m false false.
Proof. destruct m as [|p|p]; [reflexivity | reflexivity | lia]. Qed.

Lemma shr_exact (m e n : Z) :
  0 <= m -> 0 <= n ->
  shr (Build_shr_record (m * 2 ^ n) false false) e n
  = (Build_shr_record m false false, e + n).
Proof.
  intros Hm Hn. destruct n as [|p|p]; try lia.
  - simpl. rewrite Z.mul_1_r, Z.add_0_r. reflexivity.
  - unfold shr. f_equal. rewrite iter_pos_nat.
    rewrite <- (positive_nat_Z p). generalize (Pos.to_nat p) as k.
    induction k as [|k IH].
    + simpl. rewrite Z.mul_1_r. reflexivity.
    + rewrite Nat.iter_succ_r, Nat2Z.inj_succ, Z.pow_succ_r by lia.
      replace (m * (2 * 2 ^ Z.of_nat k)) with (2 * (m * 2 ^ Z.of_nat k)) by lia.
      rewrite shr_1_exact; [exact IH |].
      pose proof (Z.pow_pos_nonneg 2 (Z.of_nat k)). nia.
Qed.

(** Rounding an integer [x] below [2^53], scaled by a power of two,
    is exact. *)
Lemma binary_round_aux_exact (sx : bool) (x s : Z) :
  0 < x < 2 ^ 53 -> 0 <= s ->
  let k := Z.min s (53 - Zdigits2 x) in
  binary_round_aux prec emax sx (x * 2 ^ s) (- s) loc_Exact
  = S754_finite sx (Z.to_pos (x * 2 ^ k)) (- k).
Proof.
  intros Hx Hs k.
  destruct (Zdigits2_bounds x (proj1 Hx)) as [[Hlo Hhi] Hd].
  assert (Hd53 : Zdigits2 x <= 53).
  { destruct (Z.le_gt_cases (Zdigits2 x) 53) as [|Hgt]; [assumption |].
    assert (2 ^ 53 <= 2 ^ (Zdigits2 x - 1)) by (apply Z.pow_le_mono_r; lia). lia. }
  assert (Hk : 0 <= k) by (unfold k; lia).
  assert (Hxk : 0 < x * 2 ^ k) by (pose proof (Z.pow_pos_nonneg 2 k); nia).
  assert (Hstep : shr_fexp prec emax (x * 2 ^ s) (- s) loc_Exact
                  = (Build_shr_record (x * 2 ^ k) false false, - k)).
  { unfold shr_fexp. rewrite Zdigits2_shift by lia.
    unfold fexp, emin, prec, emax. simpl shr_record_of_loc.
    replace (Z.max (Zdigits2 x + s + - s - 53) (3 - 1024 - 53) - - s)
      with (Zdigits2 x - 53 + s) by lia.
    destruct (Z.le_gt_cases s (53 - Zdigits2 x)) as [Hle | Hgt].
    - replace k with s by (unfold k; lia).
      unfold shr. destruct (Zdigits2 x - 53 + s) eqn:E; try reflexivity. lia.
    - replace k with (53 - Zdigits2 x) by (unfold k; lia).
      replace (x * 2 ^ s) with ((x * 2 ^ (53 - Zdigits2 x)) * 2 ^ (Zdigits2 x - 53 + s)).
      2:{ rewrite <- Z.mul_assoc, <- Z.pow_add_r by lia. do 2 f_equal. lia. }
      rewrite shr_exact; [f_equal; lia | | lia].
      pose proof (Z.pow_pos_nonneg 2 (53 - Zdigits2 x)). nia. }
  assert (Hstep2 : shr_fexp prec emax (x * 2 ^ k) (- k) loc_Exact
                   = (Build_shr_record (x * 2 ^ k) false false, - k)).
  { unfold shr_fexp. rewrite Zdigits2_shift by lia.
    unfold fexp, emin, prec, emax. simpl shr_record_of_loc.
    unfold shr.
    destruct (Z.max (Zdigits2 x + k + - k - 53) (3 - 1024 - 53) - - k) eqn:E;
      try reflexivity.
    unfold k in E. lia. }
  unfold binary_round_aux. rewrite Hstep. cbn [shr_m loc_of_shr_record round_nearest_even].
  rewrite Hstep2. cbn [shr_m].
  destruct (x * 2 ^ k) as [|p|p] eqn:E; try lia.
  replace (- k <=? emax - prec) with true; [reflexivity |].
  symmetry. apply Z.leb_le. unfold emax, prec. lia.
Qed.

Lemma int_of_scaled (sx : bool) (x k : Z) :
  0 < x -> 0 <= k ->
  int (Float (S754_finite sx (Z.to_pos (x * 2 ^ k)) (- k))) = Ok (cond_Zopp sx x).
Proof.
  intros Hx Hk. unfold int.
  assert (0 < x * 2 ^ k) by (pose proof (Z.pow_pos_nonneg 2 k); nia).
  rewrite Z2Pos.id by assumption.
  destruct (0 <=? - k) eqn:E.
  - apply Z.leb_le in E. assert (k = 0) by lia. subst k.
    simpl. rewrite Z.mul_1_r. reflexivity.
  - rewrite Z.opp_involutive, Z.shiftr_div_pow2 by lia.
    rewrite Z.div_mul; [reflexivity |]. pose proof (Z.pow_pos_nonneg 2 k). lia.
Qed.

(** An exact integer quotient below [2^53] survives [/] and [int]. *)
Lemma int_truediv_exact (x r : Z) :
  0 <= x < 2 ^ 53 -> r <> 0 ->
  exists f, int_truediv (x * r) r = Ok f /\ int (Float f) = Ok x.
Proof.
  intros Hx Hr. unfold int_truediv.
  destruct (r =? 0) eqn:Er; [apply Z.eqb_eq in Er; contradiction |].
  destruct (x * r =? 0) eqn:Ea.
  - apply Z.eqb_eq in Ea. assert (x = 0) by nia. subst x.
    eexists; split; reflexivity.
  - apply Z.eqb_neq in Ea. assert (Hx0 : 0 < x) by nia.
    set (s := Z.max 0 (Zdigits2 r - Zdigits2 (x * r) + 55)).
    assert (Hs : 0 <= s) by (unfold s; lia).
    assert (Hsgn : xorb (x * r <? 0) (r <? 0) = false).
    { destruct (r <? 0) eqn:E1, (x * r <? 0) eqn:E2; try reflexivity;
        [apply Z.ltb_lt in E1; apply Z.ltb_ge in E2 | apply Z.ltb_ge in E1; apply Z.ltb_lt in E2];
        nia. }
    rewrite Hsgn.
    assert (Hdiv : Z.div_eucl (Z.shiftl (Z.abs (x * r)) s) (Z.abs r) = (x * 2 ^ s, 0)).
    { rewrite Z.shiftl_mul_pow2 by lia.
      assert (Hab : 0 < Z.abs r) by lia.
      pose proof (Z.div_eucl_eq (Z.abs (x * r) * 2 ^ s) (Z.abs r)) as Heq.
      pose proof (Z.mod_pos_bound (Z.abs (x * r) * 2 ^ s) (Z.abs r) Hab) as Hb.
      unfold Z.modulo in Hb.
      destruct (Z.div_eucl (Z.abs (x * r) * 2 ^ s) (Z.abs r)) as [q m].
      specialize (Heq ltac:(lia)).
      rewrite Z.abs_mul, (Z.abs_eq x) in Heq by lia.
      assert (Z.abs r * (x * 2 ^ s - q) = m) by lia.
      assert (x * 2 ^ s - q = 0) by nia.
      f_equal; nia. }
    rewrite Hdiv.
    replace (new_location (Z.abs r) 0) with loc_Exact.
    2:{ unfold new_location, new_location_even, new_location_odd.
        destruct (Z.even (Z.abs r)); reflexivity. }
    rewrite binary_round_aux_exact by lia.
    eexists; split; [reflexivity |].
    apply (int_of_scaled false); [lia |].
    destruct (Zdigits2_bounds x Hx0) as [[Hlo Hhi] Hd].
    assert (Zdigits2 x <= 53).
    { destruct (Z.le_gt_cases (Zdigits2 x) 53) as [|Hgt]; [assumption |].
      assert (2 ^ 53 <= 2 ^ (Zdigits2 x - 1)) by (apply Z.pow_le_mono_r; lia). lia. }
    lia.
Qed.

(** [int] of a float drops the fraction: it is the quotient of the
    float's exact value rounded toward zero. *)
Lemma int_truncates (s : bool) (m : positive) (e : Z) :
  let f := S754_finite s m e in
  int (Float f) = Ok (Z.quot (fst (fraction f)) (snd (fraction f))).
Proof.
  simpl. destruct (0 <=? e) eqn:E; simpl; f_equal.
  - apply Z.leb_le in E. rewrite Z.quot_1_r, Z.shiftl_mul_pow2 by lia. reflexivity.
  - apply Z.leb_gt in E. rewrite Z.shiftr_div_pow2 by lia.
    assert (0 < 2 ^ (- e)) by (apply Z.pow_pos_nonneg; lia).
    destruct s; simpl.
    + rewrite <- (Z.quot_div_nonneg (Z.pos m)) by lia.
      change (Z.neg m) with (- Z.pos m). rewrite Z.quot_opp_l by lia. reflexivity.
    + rewrite Z.quot_div_nonneg by lia. reflexivity.
Qed.

Lemma Zdigits2_le (a b : Z) : 0 < a <= b -> Zdigits2 a <= Zdigits2 b.
Proof.
  intros [Ha Hab].
  destruct (Zdigits2_bounds a Ha) as [[Hlo _] Hda].
  destruct (Zdigits2_bounds b ltac:(lia)) as [[_ Hhi] Hdb].
  destruct (Z.le_gt_cases (Zdigits2 a) (Zdigits2 b)) as [|Hgt]; [assumption |].
  assert (2 ^ Zdigits2 b <= 2 ^ (Zdigits2 a - 1)) by (apply Z.pow_le_mono_r; lia).
  lia.
Qed.

Lemma Zdigits2_small (n : Z) : 0 < n < 2 ^ 53 -> 0 < Zdigits2 n <= 53.
Proof.
  intros Hn. destruct (Zdigits2_bounds n (proj1 Hn)) as [[Hlo _] Hd].
  split; [assumption |].
  destruct (Z.le_gt_cases (Zdigits2 n) 53) as [|Hgt]; [assumption |].
  assert (2 ^ 53 <= 2 ^ (Zdigits2 n - 1)) by (apply Z.pow_le_mono_r; lia). lia.
Qed.

Lemma pos_iter_xO (p k : positive) :
  Z.pos (Pos.iter xO p k) = Z.pos p * 2 ^ Z.pos k.
Proof.
  induction k as [|k IH] using Pos.peano_ind.
  - simpl. lia.
  - rewrite Pos.iter_succ, Pos2Z.inj_xO, IH, Pos2Z.inj_succ, Z.pow_succ_r by lia.
    lia.
Qed.

Lemma div_eucl_exact (q b : Z) : 0 < b -> Z.div_eucl (q * b) b = (q, 0).
Proof.
  intros Hb. rewrite (surjective_pairing (Z.div_eucl (q * b) b)).
  change (fst (Z.div_eucl (q * b) b)) with (q * b / b).
  change (snd (Z.div_eucl (q * b) b)) with ((q * b) mod b).
  rewrite Z.div_mul, Z.mod_mul by lia. reflexivity.
Qed.

(** The mantissa of the float of a small integer has 53 bits. *)
Lemma float_of_small_int_mantissa (n : Z) :
  0 < n < 2 ^ 53 ->
  let m := n * 2 ^ (53 - Zdigits2 n) in
  0 < m /\ Z.pos (Z.to_pos m) = m /\ Zdigits2 m = 53.
Proof.
  intros Hn m. destruct (Zdigits2_small n Hn) as [Hd0 Hd].
  assert (Hm : 0 < m) by (pose proof (Z.pow_pos_nonneg 2 (53 - Zdigits2 n)); nia).
  split; [exact Hm |]. split; [apply Z2Pos.id; exact Hm |].
  unfold m. rewrite Zdigits2_shift by lia. lia.
Qed.

(** [float(n)] is exact for a small integer. *)
Lemma float_of_int_small (n : Z) :
  0 < n < 2 ^ 53 -> float_of_int n = Ok (float_of_small_int n).
Proof.
  intros Hn. destruct (Zdigits2_small n Hn) as [Hd0 Hd].
  assert (Hround : binary_normalize prec emax n 0 false = float_of_small_int n).
  { destruct n as [|p|p]; try lia.
    unfold binary_normalize, binary_round.
    change (Z.pos (digits2_pos p)) with (Zdigits2 (Z.pos p)).
    set (d := Zdigits2 (Z.pos p)) in *.
    assert (Hfexp : fexp prec emax (d + 0) = d - 53)
      by (unfold fexp, emin, prec, emax; lia).
    rewrite Hfexp.
    assert (Halign : exists mz,
               shl_align p 0 (d - 53) = (mz, d - 53)
               /\ Z.pos mz = Z.pos p * 2 ^ (53 - d)).
    { unfold shl_align. destruct (d - 53 - 0) as [|q|q] eqn:E; try lia.
      - exists p. assert (d = 53) as -> by lia. split; [reflexivity | simpl; lia].
      - exists (Pos.iter xO p q). split; [reflexivity |].
        rewrite pos_iter_xO. do 2 f_equal. lia. }
    destruct Halign as (mz & -> & Hmz). rewrite Hmz.
    replace (d - 53) with (- (53 - d)) at 1 by lia.
    rewrite binary_round_aux_exact by lia.
    fold d. replace (Z.min (53 - d) (53 - d)) with (53 - d) by lia.
    unfold float_of_small_int. fold d. f_equal. lia. }
  unfold float_of_int. rewrite Hround. reflexivity.
Qed.

(** A product of small integers below [2^53] is exact. *)
Lemma SFmul_small (a b : Z) :
  0 < a -> 0 < b -> a * b < 2 ^ 53 ->
  SFmul prec emax (float_of_small_int a) (float_of_small_int b)
  = float_of_small_int (a * b).
Proof.
  intros Ha Hb Hab.
  assert (Ha53 : 0 < a < 2 ^ 53) by nia.
  assert (Hb53 : 0 < b < 2 ^ 53) by nia.
  destruct (float_of_small_int_mantissa a Ha53) as (_ & Hma & _).
  destruct (float_of_small_int_mantissa b Hb53) as (_ & Hmb & _).
  destruct (Zdigits2_small a Ha53) as [Hda0 Hda].
  destruct (Zdigits2_small b Hb53) as [Hdb0 Hdb].
  destruct (Zdigits2_small (a * b) ltac:(nia)) as [Hd0 Hd].
  pose proof (Zdigits2_le b (a * b) ltac:(nia)) as Hmono.
  unfold float_of_small_int at 1 2. unfold SFmul. cbn [xorb].
  rewrite Pos2Z.inj_mul, Hma, Hmb.
  replace (a * 2 ^ (53 - Zdigits2 a) * (b * 2 ^ (53 - Zdigits2 b)))
    with (a * b * 2 ^ ((53 - Zdigits2 a) + (53 - Zdigits2 b))).
  2:{ rewrite Z.pow_add_r by lia. ring. }
  replace (Zdigits2 a - 53 + (Zdigits2 b - 53))
    with (- ((53 - Zdigits2 a) + (53 - Zdigits2 b))) by lia.
  rewrite binary_round_aux_exact by nia.
  replace (Z.min (53 - Zdigits2 a + (53 - Zdigits2 b)) (53 - Zdigits2 (a * b)))
    with (53 - Zdigits2 (a * b)) by lia.
  unfold float_of_small_int. f_equal. lia.
Qed.

(** Dividing the float of [x * r] by the float of [r] gives a float
    whose integral part is [x]. *)
Lemma SFdiv_small (x r : Z) :
  0 < x -> 0 < r -> x * r < 2 ^ 53 ->
  int (Float (SFdiv prec emax (float_of_small_int (x * r)) (float_of_small_int r)))
  = Ok x.
Proof.
  intros Hx Hr Hxr.
  assert (Ha53 : 0 < x * r < 2 ^ 53) by nia.
  assert (Hr53 : 0 < r < 2 ^ 53) by nia.
  destruct (float_of_small_int_mantissa (x * r) Ha53) as (Hma0 & Hma & Hdma).
  destruct (float_of_small_int_mantissa r Hr53) as (Hmr0 & Hmr & Hdmr).
  destruct (Zdigits2_small (x * r) Ha53) as [Hda0 Hda].
  destruct (Zdigits2_small r Hr53) as [Hdr0 Hdr].
  pose proof (Zdigits2_le r (x * r) ltac:(nia)) as Hmono.
  set (da := Zdigits2 (x * r)) in *. set (dr := Zdigits2 r) in *.
  set (S := 53 + dr - da).
  assert (Hcore : SFdiv_core_binary prec emax
                    (Z.pos (Z.to_pos (x * r * 2 ^ (53 - da)))) (da - 53)
                    (Z.pos (Z.to_pos (r * 2 ^ (53 - dr)))) (dr - 53)
                  = (x * 2 ^ S, - S, loc_Exact)).
  { unfold SFdiv_core_binary. rewrite Hma, Hmr, Hdma, Hdmr.
    assert (He : Z.min (fexp prec emax (53 + (da - 53) - (53 + (dr - 53))))
                   (da - 53 - (dr - 53)) = - S)
      by (unfold fexp, emin, prec, emax, S; lia).
    rewrite He.
    replace (da - 53 - (dr - 53) - - S) with 53 by (unfold S; lia).
    rewrite Z.shiftl_mul_pow2 by lia.
    replace (x * r * 2 ^ (53 - da) * 2 ^ 53) with (x * 2 ^ S * (r * 2 ^ (53 - dr))).
    2:{ unfold S. replace (53 + dr - da) with ((53 - da) + 53 - (53 - dr)) by lia.
        rewrite <- (Z.mul_assoc (x * r)), <- Z.pow_add_r by lia.
        replace (53 - da + 53) with ((53 - da + 53 - (53 - dr)) + (53 - dr)) at 2 by lia.
        rewrite (Z.pow_add_r 2 (53 - da + 53 - (53 - dr))) by lia. ring. }
    rewrite div_eucl_exact by assumption.
    unfold new_location, new_location_even, new_location_odd.
    destruct (Z.even _); reflexivity. }
  unfold float_of_small_int. fold da dr. unfold SFdiv. rewrite Hcore. cbn [xorb].
  rewrite binary_round_aux_exact by (unfold S; nia).
  apply (int_of_scaled false); [assumption |].
  destruct (Zdigits2_small x ltac:(nia)). unfold S. lia.
Qed.
End PyFacts.

(** ** Coordinates to voxel indices *)

Lemma int_finite (c : Py.num) : Py.is_finite c = true -> Py.int c = Ok (truncate c).
Proof.
  destruct c as [z | [s | s | | s m e]]; simpl; try discriminate; intros _.
  - reflexivity.
  - reflexivity.
  - apply (PyFacts.int_truncates s m e).
Qed.

Lemma idx_from_coords_voxels (self : Atlas) (c0 c1 c2 : Py.num) :
  Py.is_finite c0 = true -> Py.is_finite c1 = true -> Py.is_finite c2 = true ->
  _idx_from_coords self (c0, c1, c2) false = Ok (truncate c0, truncate c1, truncate c2).
Proof.
  intros H0 H1 H2. unfold _idx_from_coords. simpl.
  rewrite (int_finite _ H0), (int_finite _ H1), (int_finite _ H2). reflexivity.
Qed.

Lemma idx_from_coords_microns (self : Atlas) (c0 c1 c2 r0 r1 r2 q0 q1 q2 : Py.num) :
  resolution self = (r0, r1, r2) ->
  Py.truediv c0 r0 = Ok q0 -> Py.truediv c1 r1 = Ok q1 -> Py.truediv c2 r2 = Ok q2 ->
  Py.is_finite q0 = true -> Py.is_finite q1 = true -> Py.is_finite q2 = true ->
  _idx_from_coords self (c0, c1, c2) true = Ok (truncate q0, truncate q1, truncate q2).
Proof.
  intros Hres E0 E1 E2 H0 H1 H2. unfold _idx_from_coords.
  rewrite Hres, E0, E1, E2. simpl.
  rewrite (int_finite _ H0), (int_finite _ H1), (int_finite _ H2). reflexivity.
Qed.

Lemma truediv_int_exact (x r : Z) :
  (0 <= x < 2 ^ 53)%Z -> r <> 0%Z ->
  exists q, Py.truediv (Py.Int (x * r)) (Py.Int r) = Ok q /\ Py.int q = Ok x.
Proof.
  intros Hx Hr. destruct (PyFacts.int_truediv_exact x r Hx Hr) as (f & Hf & Hi).
  exists (Py.Float f). simpl. rewrite Hf. split; [reflexivity | exact Hi].
Qed.

(** The round trip of one coordinate: [x * r] divided by [r] has the
    integral part [x] when [r] is a positive integer, held as an [int] or
    as a [float], and the product stays below [2^53]. *)
Lemma truediv_round_trip (x R : Z) (r c : Py.num) :
  is_integer R r -> (0 < R)%Z -> (0 <= x)%Z -> (x * R < 2 ^ 53)%Z ->
  Py.mul (Py.Int x) r = Ok c ->
  exists q, Py.truediv c r = Ok q /\ Py.int q = Ok x.
Proof.
  intros [-> | ->] HR Hx HxR.
  - intros [= <-]. apply truediv_int_exact; [nia | lia].
  - destruct (Z.eq_dec x 0%Z) as [-> | Hx0].
    + intros [= <-]. eexists. split; reflexivity.
    + assert (Hx53 : (0 < x < 2 ^ 53)%Z) by nia.
      unfold Py.mul. cbn [Py.to_float].
      rewrite (PyFacts.float_of_int_small x Hx53). cbn [mbind result_bind].
      rewrite PyFacts.SFmul_small by lia. intros [= <-].
      eexists. split; [reflexivity |].
      apply PyFacts.SFdiv_small; lia.
Qed.

Lemma idx_from_coords_round_trip (self : Atlas) (x y z rx ry rz : Z)
    (r0 r1 r2 cx cy cz : Py.num) :
  resolution self = (r0, r1, r2) ->
  is_integer rx r0 -> is_integer ry r1 -> is_integer rz r2 ->
  (0 < rx)%Z -> (0 < ry)%Z -> (0 < rz)%Z ->
  (0 <= x)%Z -> (0 <= y)%Z -> (0 <= z)%Z ->
  (x * rx < 2 ^ 53)%Z -> (y * ry < 2 ^ 53)%Z -> (z * rz < 2 ^ 53)%Z ->
  Py.mul (Py.Int x) r0 = Ok cx ->
  Py.mul (Py.Int y) r1 = Ok cy ->
  Py.mul (Py.Int z) r2 = Ok cz ->
  _idx_from_coords self (cx, cy, cz) true = Ok (x, y, z).
Proof.
  intros Hres Hi0 Hi1 Hi2 Hrx Hry Hrz Hx Hy Hz Hbx Hby Hbz Hcx Hcy Hcz.
  unfold _idx_from_coords. rewrite Hres.
  destruct (truediv_round_trip x rx r0 cx Hi0 Hrx Hx Hbx Hcx) as (q0 & -> & H0).
  destruct (truediv_round_trip y ry r1 cy Hi1 Hry Hy Hby Hcy) as (q1 & -> & H1).
  destruct (truediv_round_trip z rz r2 cz Hi2 Hrz Hz Hbz Hcz) as (q2 & -> & H2).
  simpl. rewrite H0, H1, H2. reflexivity.
Qed.

(** C7, as amended. [_idx_from_coords] takes the integral part of each
    coordinate, rounding toward zero, so that (2.9, 0, 0) gives (2, 0, 0);
    with [microns] it first divides each coordinate by the resolution of
    its axis; and it round-trips, [(x*rx, y*ry, z*rz)] in microns giving
    back [(x, y, z)], for integers [x, y, z >= 0] and a resolution whose
    components are positive integers, held as [int] or as [float], with
    [x*rx], [y*ry] and [z*rz] below [2^53]. *)
Theorem idx_from_coords_spec (self : Atlas) :
  (forall c0 c1 c2,
     Py.is_finite c0 = true -> Py.is_finite c1 = true -> Py.is_finite c2 = true ->
     _idx_from_coords self (c0, c1, c2) false
     = Ok (truncate c0, truncate c1, truncate c2))
  /\ _idx_from_coords self (Py.Float Example.f2_9, Py.Int 0, Py.Int 0) false
     = Ok (2, 0, 0)%Z
  /\ (forall c0 c1 c2 r0 r1 r2 q0 q1 q2,
        resolution self = (r0, r1, r2) ->
        Py.truediv c0 r0 = Ok q0 -> Py.truediv c1 r1 = Ok q1 ->
        Py.truediv c2 r2 = Ok q2 ->
        Py.is_finite q0 = true -> Py.is_finite q1 = true -> Py.is_finite q2 = true ->
        _idx_from_coords self (c0, c1, c2) true
        = Ok (truncate q0, truncate q1, truncate q2))
  /\ (forall x y z rx ry rz r0 r1 r2 cx cy cz,
        resolution self = (r0, r1, r2) ->
        is_integer rx r0 -> is_integer ry r1 -> is_integer rz r2 ->
        (0 < rx)%Z -> (0 < ry)%Z -> (0 < rz)%Z ->
        (0 <= x)%Z -> (0 <= y)%Z -> (0 <= z)%Z ->
        (x * rx < 2 ^ 53)%Z -> (y * ry < 2 ^ 53)%Z -> (z * rz < 2 ^ 53)%Z ->
        Py.mul (Py.Int x) r0 = Ok cx ->
        Py.mul (Py.Int y) r1 = Ok cy ->
        Py.mul (Py.Int z) r2 = Ok cz ->
        _idx_from_coords self (cx, cy, cz) true = Ok (x, y, z)).
Proof.
  split; [apply idx_from_coords_voxels |].
  split; [reflexivity |].
  split; [apply idx_from_coords_microns |].
  intros x y z rx ry rz r0 r1 r2 cx cy cz. apply idx_from_coords_round_trip.
Qed.

(** C7, the claim as stated fails: at a resolution of 0.7 microns the
    voxel 3 is sent to the coordinate [3 * 0.7 = 2.0999999999999996], and
    [2.0999999999999996 / 0.7 = 2.9999999999999996], whose integral part
    is 2. *)
Lemma idx_from_coords_round_trip_fails :
  resolution (Example.atlas Example.md_fine)
  = (Py.Float Example.f0_7, Py.Float Example.f0_7, Py.Float Example.f0_7)
  /\ exists cx cy cz,
       Py.mul (Py.Int 3) (Py.Float Example.f0_7) = Ok cx
       /\ Py.mul (Py.Int 0) (Py.Float Example.f0_7) = Ok cy
       /\ Py.mul (Py.Int 0) (Py.Float Example.f0_7) = Ok cz
       /\ _idx_from_coords (Example.atlas Example.md_fine) (cx, cy, cz) true
          = Ok (2, 0, 0)%Z
       /\ _idx_from_coords (Example.atlas Example.md_fine) (cx, cy, cz) true
          <> Ok (3, 0, 0)%Z.
Proof.
  split; [reflexivity |].
  do 3 eexists. split; [reflexivity |]. split; [reflexivity |]. split; [reflexivity |].
  split; [vm_compute; reflexivity | vm_compute; discriminate].
Qed.

(** The bound [2^53] matters for an integer resolution too: at 25
    microns the voxel [2^53 + 1] comes back as [2^53]. *)
Lemma idx_from_coords_round_trip_large :
  _idx_from_coords (Example.atlas Example.md_current)
    (Py.Int ((2 ^ 53 + 1) * 25), Py.Int 0, Py.Int 0) true
  = Ok (2 ^ 53, 0, 0)%Z.
Proof. vm_compute. reflexivity. Qed.

(** ** Coordinate queries *)

Lemma getitem_negative (a : np.ndarray) (n0 n1 n2 : nat) (i j k : Z) :
  np.shape a = (n0, n1, n2) ->
  (- Z.of_nat n0 <= i < 0)%Z -> (- Z.of_nat n1 <= j < 0)%Z ->
  (- Z.of_nat n2 <= k < 0)%Z ->
  np.getitem a (i, j, k)
  = Ok (np.item a (Z.to_nat (Z.of_nat n0 + i)) (Z.to_nat (Z.of_nat n1 + j))
          (Z.to_nat (Z.of_nat n2 + k))).
Proof.
  intros Hs Hi Hj Hk. unfold np.getitem. rewrite Hs.
  rewrite !npFacts.normalize_index_negative by assumption. reflexivity.
Qed.

(** C9. [_idx_from_coords] looks at no shape: for finite coordinates in
    voxels it returns their integral parts, negative ones included, and
    [hemisphere_from_coords] and [structure_from_coords] index the volume
    with them as they are, so that a negative index in range reads the
    voxel counted from the end of the axis instead of being rejected. *)
Theorem coords_not_validated (w : World) (self : Atlas) (env : Env)
    (c0 c1 c2 : Py.num) :
  Py.is_finite c0 = true -> Py.is_finite c1 = true -> Py.is_finite c2 = true ->
  _idx_from_coords self (c0, c1, c2) false
  = Ok (truncate c0, truncate c1, truncate c2)
  /\ (forall h self' env' n0 n1 n2,
        hemispheres w self env = (Ok h, self', env') ->
        np.shape h = (n0, n1, n2) ->
        (- Z.of_nat n0 <= truncate c0 < 0)%Z ->
        (- Z.of_nat n1 <= truncate c1 < 0)%Z ->
        (- Z.of_nat n2 <= truncate c2 < 0)%Z ->
        hemisphere_from_coords w (c0, c1, c2) false false self env
        = (Ok (VInt (np.item h (Z.to_nat (Z.of_nat n0 + truncate c0))
                       (Z.to_nat (Z.of_nat n1 + truncate c1))
                       (Z.to_nat (Z.of_nat n2 + truncate c2)))),
           self', env'))
  /\ (forall a self' env' n0 n1 n2 key_error_string,
        annotation w self env = (Ok a, self', env') ->
        np.shape a = (n0, n1, n2) ->
        (- Z.of_nat n0 <= truncate c0 < 0)%Z ->
        (- Z.of_nat n1 <= truncate c1 < 0)%Z ->
        (- Z.of_nat n2 <= truncate c2 < 0)%Z ->
        structure_from_coords w (c0, c1, c2) false false None key_error_string self env
        = (Ok (VInt (np.item a (Z.to_nat (Z.of_nat n0 + truncate c0))
                       (Z.to_nat (Z.of_nat n1 + truncate c1))
                       (Z.to_nat (Z.of_nat n2 + truncate c2)))),
           self', env')).
Proof.
  intros H0 H1 H2. split; [apply idx_from_coords_voxels; assumption |]. split.
  - intros h self' env' n0 n1 n2 Hh Hs Hi Hj Hk.
    unfold hemisphere_from_coords. unfold_M. rewrite Hh.
    rewrite idx_from_coords_voxels by assumption.
    rewrite (getitem_negative h n0 n1 n2) by assumption. reflexivity.
  - intros a self' env' n0 n1 n2 kes Ha Hs Hi Hj Hk.
    unfold structure_from_coords. unfold_M. rewrite Ha.
    rewrite idx_from_coords_voxels by assumption.
    rewrite (getitem_negative a n0 n1 n2) by assumption. reflexivity.
Qed.

Lemma label_getitem (hem : Z) :
  Py.list_getitem ["left"; "right"] (hem - 1)%Z
  = if decide (hem = 1 \/ hem = -1)%Z then Ok "left"
    else if decide (hem = 2 \/ hem = 0)%Z then Ok "right"
    else Raise IndexError.
Proof.
  unfold Py.list_getitem. cbn [length].
  destruct (decide (hem = 1 \/ hem = -1)%Z) as [[-> | ->] | H1]; [reflexivity .. |].
  destruct (decide (hem = 2 \/ hem = 0)%Z) as [[-> | ->] | H2]; [reflexivity .. |].
  destruct (hem - 1 <? 0)%Z eqn:E.
  - apply Z.ltb_lt in E.
    replace (0 <=? hem - 1 + Z.of_nat 2)%Z with false; [reflexivity |].
    symmetry. apply Z.leb_gt. lia.
  - apply Z.ltb_ge in E.
    replace (hem - 1 <? Z.of_nat 2)%Z with false;
      [rewrite andb_false_r; reflexivity |].
    symmetry. apply Z.ltb_ge. lia.
Qed.

(** An index of 2 or more is outside the label list. *)
Lemma label_getitem_large (i : Z) :
  (2 <= i)%Z -> Py.list_getitem ["left"; "right"] i = Raise IndexError.
Proof.
  intros Hi. replace i with (i + 1 - 1)%Z by lia. rewrite label_getitem.
  destruct (decide _) as [[H | H] |]; [lia | lia |].
  destruct (decide _) as [[H | H] |]; [lia | lia | reflexivity].
Qed.

(** [x - 1] on a scalar: the one value of the dtype that has no
    predecessor wraps around to the largest one, and that is reported. *)
Lemma scalar_sub_one (dt : np.dtype) (x : Z) :
  np.in_range dt x -> (8 <= np.bits dt)%Z ->
  np.scalar_sub dt x 1
  = if np.signed dt then
      if decide (x = - 2 ^ (np.bits dt - 1))%Z
      then Ok ((2 ^ (np.bits dt - 1) - 1)%Z, true)
      else Ok ((x - 1)%Z, false)
    else
      if decide (x = 0)%Z then Ok ((2 ^ np.bits dt - 1)%Z, true)
      else Ok ((x - 1)%Z, false).
Proof.
  intros Hx Hb. unfold np.scalar_sub, np.in_rangeb, np.in_range, np.cast in *.
  assert (Hp : (128 <= 2 ^ (np.bits dt - 1))%Z).
  { change 128%Z with (2 ^ 7)%Z. apply Z.pow_le_mono_r; lia. }
  pose proof (npFacts.pow2_double (np.bits dt) ltac:(lia)) as Hd.
  set (p := (2 ^ (np.bits dt - 1))%Z) in *. clearbody p.
  set (q := (2 ^ np.bits dt)%Z) in *. clearbody q. subst q.
  destruct (np.signed dt).
  - replace (- p <=? 1)%Z with true by (symmetry; apply Z.leb_le; lia).
    replace (1 <? p)%Z with true by (symmetry; apply Z.ltb_lt; lia).
    cbn [andb]. destruct (decide (x = - p)%Z) as [-> | Hne].
    + replace (- p - 1 + p)%Z with (-1)%Z by lia.
      rewrite <- (Z.mod_unique (-1) (2 * p) (-1) (2 * p - 1)) by lia.
      replace (- p <=? - p - 1)%Z with false by (symmetry; apply Z.leb_gt; lia).
      cbn [andb negb]. do 2 f_equal. lia.
    + rewrite Z.mod_small by lia.
      replace (- p <=? x - 1)%Z with true by (symmetry; apply Z.leb_le; lia).
      replace (x - 1 <? p)%Z with true by (symmetry; apply Z.ltb_lt; lia).
      cbn [andb negb]. do 2 f_equal. lia.
  - replace (0 <=? 1)%Z with true by reflexivity.
    replace (1 <? 2 * p)%Z with true by (symmetry; apply Z.ltb_lt; lia).
    cbn [andb]. destruct (decide (x = 0)%Z) as [-> | Hne].
    + rewrite <- (Z.mod_unique (0 - 1) (2 * p) (-1) (2 * p - 1)) by lia.
      reflexivity.
    + rewrite Z.mod_small by lia.
      replace (0 <=? x - 1)%Z with true by (symmetry; apply Z.leb_le; lia).
      replace (x - 1 <? 2 * p)%Z with true by (symmetry; apply Z.ltb_lt; lia).
      reflexivity.
Qed.

(** C10, as amended. With [as_string] the value of the voxel is
    decremented in the dtype of the hemisphere volume before the label
    list is indexed. In a volume of an unsigned dtype only the values 1
    and 2 have a label: 0 wraps around to the largest value of the dtype,
    which is reported with a warning, and like every larger value it
    makes the lookup fail with IndexError. In a volume of a signed dtype
    the value 0 gives "right" (the label at index -1) and -1 gives
    "left", and every value other than -1, 0, 1 and 2 fails with
    IndexError. *)
Theorem hemisphere_from_coords_label (w : World) (self : Atlas) (env : Env)
    (coords : Py.num * Py.num * Py.num) (microns : bool)
    (h : np.ndarray) (self' : Atlas) (env' : Env) (idx : Z * Z * Z) (hem : Z) :
  hemispheres w self env = (Ok h, self', env') ->
  _idx_from_coords self' coords microns = Ok idx ->
  np.getitem h idx = Ok hem ->
  np.in_range (np.dtype_of h) hem ->
  (8 <= np.bits (np.dtype_of h))%Z ->
  let warned := {| warnings := warnings env' ++ [np.scalar_subtract_warning];
                   reads := reads env' |} in
  hemisphere_from_coords w coords microns true self env
  = if np.signed (np.dtype_of h) then
      if decide (hem = 1 \/ hem = -1)%Z then (Ok (VStr "left"), self', env')
      else if decide (hem = 2 \/ hem = 0)%Z then (Ok (VStr "right"), self', env')
      else if decide (hem = - 2 ^ (np.bits (np.dtype_of h) - 1))%Z
           then (Raise IndexError, self', warned)
           else (Raise IndexError, self', env')
    else
      if decide (hem = 1)%Z then (Ok (VStr "left"), self', env')
      else if decide (hem = 2)%Z then (Ok (VStr "right"), self', env')
      else if decide (hem = 0)%Z then (Raise IndexError, self', warned)
           else (Raise IndexError, self', env').
Proof.
  intros Hh Hidx Hget Hrange Hbits warned. subst warned.
  unfold hemisphere_from_coords. unfold_M.
  rewrite Hh, Hidx, Hget, (scalar_sub_one _ _ Hrange Hbits).
  assert (Hp : (128 <= 2 ^ (np.bits (np.dtype_of h) - 1))%Z).
  { change 128%Z with (2 ^ 7)%Z. apply Z.pow_le_mono_r; lia. }
  pose proof (npFacts.pow2_double (np.bits (np.dtype_of h)) ltac:(lia)) as Hd.
  unfold np.in_range in Hrange.
  destruct (np.signed (np.dtype_of h)).
  - destruct (decide (hem = - 2 ^ (np.bits (np.dtype_of h) - 1))%Z) as [Hmin | Hmin].
    + rewrite label_getitem_large by lia.
      destruct (decide _) as [[H | H] |]; [lia | lia |].
      destruct (decide _) as [[H | H] |]; [lia | lia | reflexivity].
    + rewrite label_getitem.
      destruct (decide _); [reflexivity |]. destruct (decide _); reflexivity.
  - destruct (decide (hem = 0)%Z) as [-> | H0].
    + rewrite label_getitem_large by lia. reflexivity.
    + rewrite label_getitem.
      destruct (decide (hem = 1)%Z) as [-> | H1]; [reflexivity |].
      destruct (decide (hem = 2)%Z) as [-> | H2]; [reflexivity |].
      destruct (decide _) as [[H | H] |]; [lia | lia |].
      destruct (decide _) as [[H | H] |]; [lia | lia | reflexivity].
Qed.

(** C10, the claim as stated fails: in the stored hemisphere volume,
    whose dtype is uint8, the voxel (0, 0, 0) holds 0 and the voxel
    (0, 0, 3) holds 3; for neither of them a label is returned, the
    lookup fails with IndexError. *)
Lemma hemisphere_from_coords_stray_value_fails :
  np.dtype_of Example.hemispheres_tiff = np.uint8
  /\ np.getitem Example.hemispheres_tiff (0, 0, 0)%Z = Ok 0%Z
  /\ Example.value
       (hemisphere_from_coords (Example.world Example.md_stored)
          (Py.Int 0, Py.Int 0, Py.Int 0) false true)
       (Example.atlas Example.md_stored, Env_empty)
     = Raise IndexError
  /\ np.getitem Example.hemispheres_tiff (0, 0, 3)%Z = Ok 3%Z
  /\ Example.value
       (hemisphere_from_coords (Example.world Example.md_stored)
          (Py.Int 0, Py.Int 0, Py.Int 3) false true)
       (Example.atlas Example.md_stored, Env_empty)
     = Raise IndexError.
Proof. repeat split; vm_compute; reflexivity. Qed.

(** [structure_from_coords] with [as_acronym] and no hierarchy level:
    an id that is not in the catalog gives [key_error_string]. *)
Lemma structure_from_coords_unknown_id (w : World) (self : Atlas) (env : Env)
    (coords : Py.num * Py.num * Py.num) (microns : bool) (key_error_string : string)
    (a : np.ndarray) (self' : Atlas) (env' : Env) (idx : Z * Z * Z) (rid : Z) :
  annotation w self env = (Ok a, self', env') ->
  _idx_from_coords self' coords microns = Ok idx ->
  np.getitem a idx = Ok rid ->
  StructuresDict.data (structures self') !! rid = None ->
  structure_from_coords w coords microns true None key_error_string self env
  = (Ok (VStr key_error_string), self', env').
Proof.
  intros Ha Hidx Hget Hnone. unfold structure_from_coords. unfold_M.
  rewrite Ha, Hidx, Hget.
  rewrite (StructuresDictFacts.getitem_KInt_None _ _ Hnone). reflexivity.
Qed.

(** With a hierarchy level the same voxel raises: the lookup of the
    path of [rid] is outside the [try]. *)
Lemma structure_from_coords_unknown_id_level (w : World) (self : Atlas) (env : Env)
    (coords : Py.num * Py.num * Py.num) (microns : bool) (key_error_string : string)
    (a : np.ndarray) (self' : Atlas) (env' : Env) (idx : Z * Z * Z) (rid lev : Z) :
  annotation w self env = (Ok a, self', env') ->
  _idx_from_coords self' coords microns = Ok idx ->
  np.getitem a idx = Ok rid ->
  StructuresDict.data (structures self') !! rid = None ->
  structure_from_coords w coords microns true (Some lev) key_error_string self env
  = (Raise KeyError, self', env').
Proof.
  intros Ha Hidx Hget Hnone. unfold structure_from_coords. unfold_M.
  rewrite Ha, Hidx, Hget.
  rewrite (StructuresDictFacts.getitem_KInt_None _ _ Hnone). reflexivity.
Qed.

(** C2. On the background voxel (0, 0, 0), whose annotation 0 is no
    structure, [structure_from_coords] with [as_acronym] returns
    "Outside atlas" when no hierarchy level is given and raises KeyError
    when the level 0 is asked for. *)
Theorem structure_from_coords_background_level :
  np.getitem Example.annotation_tiff (0, 0, 0)%Z = Ok 0%Z
  /\ Example.value
       (structure_from_coords (Example.world Example.md_current)
          (Py.Int 0, Py.Int 0, Py.Int 0) false true None "Outside atlas")
       (Example.atlas Example.md_current, Env_empty)
     = Ok (VStr "Outside atlas")
  /\ Example.value
       (structure_from_coords (Example.world Example.md_current)
          (Py.Int 0, Py.Int 0, Py.Int 0) false true (Some 0%Z) "Outside atlas")
       (Example.atlas Example.md_current, Env_empty)
     = Raise KeyError.
Proof. repeat split; vm_compute; reflexivity. Qed.

(** ** Construction and the reference store *)

(** C5, as amended. When the metadata has no [additional_references]
    and the rest of the construction succeeds, [Atlas.__init__] emits one
    warning and returns the atlas, and the atlas has no reference store:
    the attribute [additional_references] was never assigned, and reading
    it fails. *)
Theorem Atlas_init_outdated (w : World) (path : string) (env : Env)
    (md : Metadata) (structures_json : list Structure.t)
    (sd : StructuresDict.t) (sp : Space) :
  read_json_metadata w (path_join path (METADATA_FILENAME w)) = Some md ->
  md_additional_references md = None ->
  read_json_structures w (path_join path (STRUCTURES_FILENAME w)) = Some structures_json ->
  StructuresDict.init (add_mesh_filenames w path structures_json) = Ok sd ->
  AnatomicalSpace w (md_orientation md) (md_shape md) (md_resolution md) = Ok sp ->
  exists atlas,
    Atlas_init w path () env
    = (Ok atlas, (),
       {| warnings := warnings env ++ [outdated_warning]; reads := reads env |})
    /\ additional_references atlas = None
    /\ get_additional_references atlas = Raise AttributeError.
Proof.
  intros Hmd Hrefs Hjson Hsd Hsp.
  unfold Atlas_init. unfold_M. rewrite Hmd, Hjson. cbn [of_file].
  rewrite Hsd, Hsp, Hrefs.
  eexists. split; [reflexivity |]. split; reflexivity.
Qed.

(** C5, the claim as stated fails: the atlas built from metadata
    without [additional_references] holds no reference store, empty or
    not, and reading the attribute raises. *)
Lemma outdated_atlas_has_no_store :
  md_additional_references Example.md_outdated = None
  /\ Example.atlas_of Example.md_outdated = Some (Example.atlas Example.md_outdated)
  /\ get_additional_references (Example.atlas Example.md_outdated)
     = Raise AttributeError
  /\ ~ (exists store,
          get_additional_references (Example.atlas Example.md_outdated) = Ok store
          /\ references_list store = []).
Proof.
  split; [reflexivity |]. split; [vm_compute; reflexivity |].
  split; [vm_compute; reflexivity |].
  intros (store & Hstore & _). vm_compute in Hstore. discriminate.
Qed.

(** A store an atlas holds caches allowed names only. *)
Lemma store_reachable_allowed (w : World) (d : AdditionalRefDict) :
  store_reachable w d ->
  forall ref_name, is_Some (data d !! ref_name) -> ref_name ∈ references_list d.
Proof.
  induction 1 as [refs path | d ref_name env r d' env' Hreach IH Hstep].
  - intros k [v Hv]. simpl in Hv. rewrite lookup_empty in Hv. discriminate.
  - revert Hstep. unfold AdditionalRefDict_getitem. unfold_M.
    destruct (decide (data d !! ref_name = None)) as [Hmiss | Hhit].
    + destruct (decide (ref_name ∉ references_list d)) as [Hout | Hin].
      * intros [= <- <- <-]. exact IH.
      * destruct (read_tiff_file w _) as [v|]; simpl; intros [= <- <- <-]; [| exact IH].
        intros k. simpl. destruct (decide (k = ref_name)) as [-> | Hne].
        -- intros _. destruct (decide (ref_name ∈ references_list d)); tauto.
        -- rewrite lookup_insert_ne by congruence. apply IH.
    + intros [= <- <- <-]. exact IH.
Qed.

(** C8. On a store an atlas holds, looking up a name outside
    [references_list] emits one warning and returns None; the store is
    unchanged and no file is read. *)
Theorem AdditionalRefDict_getitem_unknown (w : World) (d : AdditionalRefDict)
    (env : Env) (ref_name : string) :
  store_reachable w d ->
  ref_name ∉ references_list d ->
  AdditionalRefDict_getitem w ref_name d env
  = (Ok None, d,
     {| warnings := warnings env
                    ++ [unknown_reference_warning ref_name (references_list d)];
        reads := reads env |}).
Proof.
  intros Hreach Hout.
  assert (Hmiss : data d !! ref_name = None).
  { apply eq_None_not_Some. intros Hsome.
    apply Hout, (store_reachable_allowed w d Hreach), Hsome. }
  unfold AdditionalRefDict_getitem. unfold_M.
  destruct (decide (data d !! ref_name = None)); [| contradiction].
  destruct (decide (ref_name ∉ references_list d)); [reflexivity | contradiction].
Qed.

(** ** The properties on the example atlas *)

(** C1 on the example atlas: the mask of A, left hemisphere kept. *)
Lemma get_structure_mask_spec_witness :
  let w := Example.world Example.md_current in
  let self := Example.atlas Example.md_current in
  let S := ExampleValues.lookup Example.md_current (KInt 7) in
  let st1 := ExampleValues.annotated Example.md_current in
  let hem := ExampleValues.hemisphere_stack Example.md_current st1 in
  StructuresDict.init (structures_list self) = Ok (structures self)
  /\ paths_closed (structures self) = true
  /\ StructuresDict.getitem (structures self) (KInt 7) = Ok S
  /\ annotation w self Env_empty = (Ok Example.annotation_tiff, st1.1, st1.2)
  /\ np.shape Example.annotation_tiff = shape self
  /\ np.in_range (np.dtype_of Example.annotation_tiff) (Structure.id S)
  /\ exists mask self' env',
       get_structure_mask w (KInt 7) (-1) self Env_empty = (Ok mask, self', env')
       /\ np.shape mask = shape self
       /\ forall i j k, np.in_bounds (shape self) i j k ->
            (excluded (-1) (np.item hem i j k) -> np.item mask i j k = 0%Z)
            /\ (~ excluded (-1) (np.item hem i j k) ->
                in_subtree (structures self) S (np.item Example.annotation_tiff i j k)
                = true ->
                np.item mask i j k = Structure.id S)
            /\ (in_subtree (structures self) S (np.item Example.annotation_tiff i j k)
                = false ->
                np.item mask i j k = 0%Z).
Proof.
  intros w self S st1 hem.
  assert (H1 : StructuresDict.init (structures_list self) = Ok (structures self))
    by (vm_compute; reflexivity).
  assert (H2 : paths_closed (structures self) = true) by (vm_compute; reflexivity).
  assert (H3 : StructuresDict.getitem (structures self) (KInt 7) = Ok S)
    by (vm_compute; reflexivity).
  assert (H4 : annotation w self Env_empty = (Ok Example.annotation_tiff, st1.1, st1.2))
    by (vm_compute; reflexivity).
  assert (H5 : np.shape Example.annotation_tiff = shape self) by (vm_compute; reflexivity).
  assert (H6 : np.in_range (np.dtype_of Example.annotation_tiff) (Structure.id S))
    by (vm_compute; split; [discriminate | reflexivity]).
  repeat (split; [assumption |]).
  apply (get_structure_mask_spec w self Env_empty (structures_list self) (KInt 7) S
           Example.annotation_tiff st1.1 st1.2 (-1) hem H1 H2 H3 H4 H5 H6).
  - right; left; reflexivity.
  - intros _. exists (Example.after (hemispheres w) st1).1, (Example.after (hemispheres w) st1).2.
    split; vm_compute; reflexivity.
Defined.

(** C3 on the example atlas: frontal axis 2, of length 5. *)
Lemma hemispheres_symmetric_witness :
  let self := Example.atlas Example.md_current in
  _hemispheres self = None
  /\ md_symmetric (metadata self) = true
  /\ Py.list_index "frontal" (axes_order (space self)) = Ok 2
  /\ np.shape_getitem (md_shape (metadata self)) 2 = Ok 5
  /\ exists stack,
       hemispheres (Example.world Example.md_current) self Env_empty
       = (Ok stack, set_hemispheres self stack, Env_empty)
       /\ np.shape stack = md_shape (metadata self)
       /\ forall i j k, np.in_bounds (np.shape stack) i j k ->
            np.item stack i j k
            = if decide (5 / 2 + 1 <= axis_index 2 i j k)
              then LEFT_HEMI_VAL else RIGHT_HEMI_VAL.
Proof.
  intros self.
  assert (H1 : _hemispheres self = None) by (vm_compute; reflexivity).
  assert (H2 : md_symmetric (metadata self) = true) by (vm_compute; reflexivity).
  assert (H3 : Py.list_index "frontal" (axes_order (space self)) = Ok 2)
    by (vm_compute; reflexivity).
  assert (H4 : np.shape_getitem (md_shape (metadata self)) 2 = Ok 5)
    by (vm_compute; reflexivity).
  repeat (split; [assumption |]).
  exact (hemispheres_symmetric (Example.world Example.md_current) self Env_empty 2 5
           H1 H2 H3 H4).
Defined.

(** C4 on the example atlas: C under A. *)
Lemma descendants_iff_ancestors_witness :
  let self := Example.atlas Example.md_current in
  let S := ExampleValues.lookup Example.md_current (KInt 9) in
  let P := ExampleValues.lookup Example.md_current (KStr "A") in
  StructuresDict.init (structures_list self) = Ok (structures self)
  /\ paths_closed (structures self) = true
  /\ StructuresDict.getitem (structures self) (KInt 9) = Ok S
  /\ StructuresDict.getitem (structures self) (KStr "A") = Ok P
  /\ exists descendants ancestors,
       get_structure_descendants self (KStr "A") = Ok descendants
       /\ get_structure_ancestors self (KInt 9) = Ok ancestors
       /\ (Structure.acronym S ∈ descendants <-> Structure.acronym P ∈ ancestors).
Proof.
  intros self S P.
  assert (H1 : StructuresDict.init (structures_list self) = Ok (structures self))
    by (vm_compute; reflexivity).
  assert (H2 : paths_closed (structures self) = true) by (vm_compute; reflexivity).
  assert (H3 : StructuresDict.getitem (structures self) (KInt 9) = Ok S)
    by (vm_compute; reflexivity).
  assert (H4 : StructuresDict.getitem (structures self) (KStr "A") = Ok P)
    by (vm_compute; reflexivity).
  repeat (split; [assumption |]).
  exact (descendants_iff_ancestors self (structures_list self) (KInt 9) (KStr "A") S P
           H1 H2 H3 H4).
Defined.

(** C5 on the example atlas without [additional_references]. *)
Lemma Atlas_init_outdated_witness :
  let w := Example.world Example.md_outdated in
  let self := Example.atlas Example.md_outdated in
  read_json_metadata w (path_join "atlas" (METADATA_FILENAME w)) = Some Example.md_outdated
  /\ md_additional_references Example.md_outdated = None
  /\ read_json_structures w (path_join "atlas" (STRUCTURES_FILENAME w))
     = Some Example.structures_json
  /\ StructuresDict.init (add_mesh_filenames w "atlas" Example.structures_json)
     = Ok (structures self)
  /\ AnatomicalSpace w (md_orientation Example.md_outdated)
       (md_shape Example.md_outdated) (md_resolution Example.md_outdated)
     = Ok (space self)
  /\ exists atlas,
       Atlas_init w "atlas" () Env_empty
       = (Ok atlas, (),
          {| warnings := warnings Env_empty ++ [outdated_warning];
             reads := reads Env_empty |})
       /\ additional_references atlas = None
       /\ get_additional_references atlas = Raise AttributeError.
Proof.
  intros w self.
  assert (H1 : read_json_metadata w (path_join "atlas" (METADATA_FILENAME w))
               = Some Example.md_outdated) by (vm_compute; reflexivity).
  assert (H2 : md_additional_references Example.md_outdated = None) by reflexivity.
  assert (H3 : read_json_structures w (path_join "atlas" (STRUCTURES_FILENAME w))
               = Some Example.structures_json) by (vm_compute; reflexivity).
  assert (H4 : StructuresDict.init (add_mesh_filenames w "atlas" Example.structures_json)
               = Ok (structures self)) by (vm_compute; reflexivity).
  assert (H5 : AnatomicalSpace w (md_orientation Example.md_outdated)
                 (md_shape Example.md_outdated) (md_resolution Example.md_outdated)
               = Ok (space self)) by (vm_compute; reflexivity).
  repeat (split; [assumption |]).
  exact (Atlas_init_outdated w "atlas" Env_empty Example.md_outdated
           Example.structures_json (structures self) (space self) H1 H2 H3 H4 H5).
Defined.

(** C6 on the example atlas: hemisphere 5 is refused, hemisphere 1 is not. *)
Lemma get_structure_mask_hemisphere_check_witness :
  let w := Example.world Example.md_current in
  let self := Example.atlas Example.md_current in
  let mask := ExampleValues.volume (Example.value (get_structure_mask w (KInt 7) 0)
                                      (self, Env_empty)) in
  let st' := Example.after (get_structure_mask w (KInt 7) 0) (self, Env_empty) in
  get_structure_mask w (KInt 7) 0 self Env_empty = (Ok mask, st'.1, st'.2)
  /\ get_structure_mask w (KInt 7) 5 self Env_empty
     = (Raise InvalidHemisphereFilter, st'.1, st'.2)
  /\ get_structure_mask w (KInt 7) 1 self Env_empty
     <> (Raise InvalidHemisphereFilter, st'.1, st'.2).
Proof.
  intros w self mask st'.
  assert (H0 : get_structure_mask w (KInt 7) 0 self Env_empty = (Ok mask, st'.1, st'.2))
    by (vm_compute; reflexivity).
  destruct (get_structure_mask_hemisphere_check w (KInt 7) self Env_empty)
    as [Hout Hin].
  split; [exact H0 |]. split.
  - apply (Hout 5%Z mask st'.1 st'.2); [discriminate | discriminate | discriminate | exact H0].
  - apply Hin. right; right; reflexivity.
Defined.

(** C7 on the example atlas, at 25 microns. *)
Lemma idx_from_coords_spec_witness :
  let self := Example.atlas Example.md_current in
  resolution self = (Py.Int 25, Py.Int 25, Py.Int 25)
  /\ is_integer 25 (Py.Int 25)
  /\ _idx_from_coords self
       (Py.Float ExampleValues.minus_2_9, Py.Int 4, Py.Float Example.f0_7) false
     = Ok (-2, 4, 0)%Z
  /\ _idx_from_coords self (Py.Int 80, Py.Int 0, Py.Int 49) true = Ok (3, 0, 1)%Z
  /\ _idx_from_coords self (Py.Int 75, Py.Int 0, Py.Int 100) true = Ok (3, 0, 4)%Z.
Proof.
  intros self.
  assert (Hres : resolution self = (Py.Int 25, Py.Int 25, Py.Int 25))
    by (vm_compute; reflexivity).
  assert (Hint : is_integer 25 (Py.Int 25)) by (left; reflexivity).
  destruct (idx_from_coords_spec self) as (Hvox & _ & Hmic & Hround).
  split; [exact Hres |]. split; [exact Hint |]. split; [| split].
  - exact (Hvox (Py.Float ExampleValues.minus_2_9) (Py.Int 4) (Py.Float Example.f0_7)
             eq_refl eq_refl eq_refl).
  - destruct (Py.truediv (Py.Int 80) (Py.Int 25)) as [q0|] eqn:E0;
      [| vm_compute in E0; discriminate].
    destruct (Py.truediv (Py.Int 0) (Py.Int 25)) as [q1|] eqn:E1;
      [| vm_compute in E1; discriminate].
    destruct (Py.truediv (Py.Int 49) (Py.Int 25)) as [q2|] eqn:E2;
      [| vm_compute in E2; discriminate].
    rewrite (Hmic (Py.Int 80) (Py.Int 0) (Py.Int 49) _ _ _ q0 q1 q2 Hres E0 E1 E2);
      vm_compute in E0, E1, E2; injection E0 as <-; injection E1 as <-;
      injection E2 as <-; reflexivity.
  - apply (Hround 3 0 4 25 25 25 (Py.Int 25) (Py.Int 25) (Py.Int 25)
             (Py.Int 75) (Py.Int 0) (Py.Int 100))%Z;
      first [exact Hres | exact Hint | reflexivity | discriminate].
Defined.

(** C8 on the store of the example atlas: "golgi" is not allowed. *)
Lemma AdditionalRefDict_getitem_unknown_witness :
  let w := Example.world Example.md_current in
  store_reachable w ExampleValues.store
  /\ ("golgi" ∉ references_list ExampleValues.store)
  /\ AdditionalRefDict_getitem w "golgi" ExampleValues.store Env_empty
     = (Ok None, ExampleValues.store,
        {| warnings := ["No reference named golgi (available: ['nissl'])"];
           reads := [] |}).
Proof.
  intros w.
  assert (H1 : store_reachable w ExampleValues.store) by apply reach_init.
  assert (H2 : "golgi" ∉ references_list ExampleValues.store).
  { intros H. apply list_elem_of_singleton in H. discriminate. }
  split; [exact H1 |]. split; [exact H2 |].
  exact (AdditionalRefDict_getitem_unknown w ExampleValues.store Env_empty "golgi" H1 H2).
Defined.

(** C9 on the example atlas: the coordinates (-1, -2.9, -5). *)
Lemma coords_not_validated_witness :
  let w := Example.world Example.md_current in
  let self := Example.atlas Example.md_current in
  let c0 := Py.Int (-1) in
  let c1 := Py.Float ExampleValues.minus_2_9 in
  let c2 := Py.Int (-5) in
  let h := ExampleValues.hemisphere_stack Example.md_current (self, Env_empty) in
  let st' := Example.after (hemispheres w) (self, Env_empty) in
  _idx_from_coords self (c0, c1, c2) false = Ok (-1, -2, -5)%Z
  /\ hemispheres w self Env_empty = (Ok h, st'.1, st'.2)
  /\ np.shape h = (2, 2, 5)
  /\ hemisphere_from_coords w (c0, c1, c2) false false self Env_empty
     = (Ok (VInt (np.item h 1 0 0)), st'.1, st'.2).
Proof.
  intros w self c0 c1 c2 h st'.
  destruct (coords_not_validated w self Env_empty c0 c1 c2 eq_refl eq_refl eq_refl)
    as (Hidx & Hhem & _).
  assert (Hh : hemispheres w self Env_empty = (Ok h, st'.1, st'.2))
    by (vm_compute; reflexivity).
  assert (Hs : np.shape h = (2, 2, 5)) by (vm_compute; reflexivity).
  split; [exact Hidx |]. split; [exact Hh |]. split; [exact Hs |].
  apply (Hhem h st'.1 st'.2 2 2 5 Hh Hs); vm_compute; split; first [discriminate | reflexivity].
Defined.

(** C10 on two stored hemisphere volumes whose voxel (0, 0, 0) holds 0:
    one of dtype uint8, where the lookup fails, and one of dtype int16,
    where it gives "right". *)
Lemma hemisphere_from_coords_label_witness :
  let w := Example.world Example.md_stored in
  let w' := Edge.world_signed Example.md_stored in
  let self := Example.atlas Example.md_stored in
  let st := Example.after (hemispheres w) (self, Env_empty) in
  let self' := Edge.atlas_in w' in
  let st' := Example.after (hemispheres w') (self', Env_empty) in
  let origin := (Py.Int 0, Py.Int 0, Py.Int 0) in
  (hemispheres w self Env_empty = (Ok Example.hemispheres_tiff, st.1, st.2)
   /\ _idx_from_coords st.1 origin false = Ok (0, 0, 0)%Z
   /\ np.getitem Example.hemispheres_tiff (0, 0, 0)%Z = Ok 0%Z
   /\ np.in_range (np.dtype_of Example.hemispheres_tiff) 0
   /\ (8 <= np.bits (np.dtype_of Example.hemispheres_tiff))%Z
   /\ hemisphere_from_coords w origin false true self Env_empty
      = (Raise IndexError, st.1,
         {| warnings := warnings st.2 ++ [np.scalar_subtract_warning];
            reads := reads st.2 |}))
  /\ (hemispheres w' self' Env_empty = (Ok Edge.hemispheres_int16, st'.1, st'.2)
      /\ _idx_from_coords st'.1 origin false = Ok (0, 0, 0)%Z
      /\ np.getitem Edge.hemispheres_int16 (0, 0, 0)%Z = Ok 0%Z
      /\ np.in_range (np.dtype_of Edge.hemispheres_int16) 0
      /\ (8 <= np.bits (np.dtype_of Edge.hemispheres_int16))%Z
      /\ hemisphere_from_coords w' origin false true self' Env_empty
         = (Ok (VStr "right"), st'.1, st'.2)).
Proof.
  intros w w' self st self' st' origin.
  assert (H1 : hemispheres w self Env_empty = (Ok Example.hemispheres_tiff, st.1, st.2))
    by (vm_compute; reflexivity).
  assert (H2 : _idx_from_coords st.1 origin false = Ok (0, 0, 0)%Z) by reflexivity.
  assert (H3 : np.getitem Example.hemispheres_tiff (0, 0, 0)%Z = Ok 0%Z) by reflexivity.
  assert (H4 : np.in_range (np.dtype_of Example.hemispheres_tiff) 0)
    by (vm_compute; split; [discriminate | reflexivity]).
  assert (H5 : (8 <= np.bits (np.dtype_of Example.hemispheres_tiff))%Z)
    by (vm_compute; discriminate).
  assert (G1 : hemispheres w' self' Env_empty = (Ok Edge.hemispheres_int16, st'.1, st'.2))
    by (vm_compute; reflexivity).
  assert (G2 : _idx_from_coords st'.1 origin false = Ok (0, 0, 0)%Z) by reflexivity.
  assert (G3 : np.getitem Edge.hemispheres_int16 (0, 0, 0)%Z = Ok 0%Z) by reflexivity.
  assert (G4 : np.in_range (np.dtype_of Edge.hemispheres_int16) 0)
    by (vm_compute; split; [discriminate | reflexivity]).
  assert (G5 : (8 <= np.bits (np.dtype_of Edge.hemispheres_int16))%Z)
    by (vm_compute; discriminate).
  split.
  - repeat (split; [assumption |]).
    exact (hemisphere_from_coords_label w self Env_empty origin false
             Example.hemispheres_tiff st.1 st.2 (0, 0, 0)%Z 0%Z H1 H2 H3 H4 H5).
  - repeat (split; [assumption |]).
    exact (hemisphere_from_coords_label w' self' Env_empty origin false
             Edge.hemispheres_int16 st'.1 st'.2 (0, 0, 0)%Z 0%Z G1 G2 G3 G4 G5).
Defined.

(** * Further properties of [core.py] *)

(** ** The catalog built by the constructor *)

Lemma add_all_data (l : list Structure.t) (sd sd' : StructuresDict.t) :
  StructuresDict.add_all l sd = Ok sd' ->
  forall i s,
    StructuresDict.data sd' !! i = Some s <->
    StructuresDict.data sd !! i = Some s \/ (s ∈ l /\ Structure.id s = i).
Proof.
  revert sd. induction l as [|s0 rest IH]; intros sd; simpl.
  - intros [= <-] i s. split; [auto |]. intros [H | [H _]]; [exact H | inversion H].
  - destruct (decide (is_Some (StructuresDict.data sd !! Structure.id s0))) as [|Hid];
      [discriminate |].
    destruct (decide (is_Some (StructuresDict.acronym_to_id_map sd !! Structure.acronym s0)));
      [discriminate |].
    intros Hrest i s. apply eq_None_not_Some in Hid.
    rewrite (IH _ Hrest i s). simpl. rewrite elem_of_cons.
    destruct (decide (i = Structure.id s0)) as [-> | Hne].
    + rewrite lookup_insert_eq. split.
      * intros [[= <-] | [Hin Heq]]; [right; split; [left |]; reflexivity |].
        right. split; [right; exact Hin | exact Heq].
      * intros [H | [[-> | Hin] Heq]]; [congruence | left; reflexivity |].
        right. split; assumption.
    + rewrite lookup_insert_ne by congruence. split.
      * intros [H | [Hin Heq]]; [left; exact H |].
        right. split; [right; exact Hin | exact Heq].
      * intros [H | [[-> | Hin] Heq]]; [left; exact H | congruence |].
        right. split; assumption.
Qed.

Lemma init_data (l : list Structure.t) (sd : StructuresDict.t) (i : Z) (s : Structure.t) :
  StructuresDict.init l = Ok sd ->
  StructuresDict.data sd !! i = Some s <-> s ∈ l /\ Structure.id s = i.
Proof.
  intros Hinit. rewrite (add_all_data _ _ _ Hinit i s). simpl.
  rewrite lookup_empty. split; [intros [[=] | H]; exact H | auto].
Qed.

Lemma add_all_keys (l : list Structure.t) (sd sd' : StructuresDict.t) :
  StructuresDict.add_all l sd = Ok sd' ->
  StructuresDict.keys sd' = StructuresDict.keys sd ++ map Structure.id l.
Proof.
  revert sd. induction l as [|s0 rest IH]; intros sd; simpl.
  - intros [= <-]. rewrite app_nil_r. reflexivity.
  - destruct (decide _); [discriminate |]. destruct (decide _); [discriminate |].
    intros Hrest. rewrite (IH _ Hrest). simpl. rewrite <- app_assoc. reflexivity.
Qed.

Lemma add_all_NoDup (l : list Structure.t) (sd sd' : StructuresDict.t) :
  catalog_wf sd -> NoDup (StructuresDict.keys sd) ->
  StructuresDict.add_all l sd = Ok sd' -> NoDup (StructuresDict.keys sd').
Proof.
  revert sd. induction l as [|s0 rest IH]; intros sd Hwf Hnd; simpl.
  - intros [= <-]. exact Hnd.
  - destruct (decide (is_Some (StructuresDict.data sd !! Structure.id s0))) as [|Hid] eqn:E1;
      [discriminate |].
    destruct (decide (is_Some (StructuresDict.acronym_to_id_map sd !! Structure.acronym s0)))
      as [|Hac] eqn:E2; [discriminate |].
    apply IH.
    + apply (StructuresDictFacts.add_all_wf [s0] sd); [exact Hwf |].
      simpl. rewrite E1, E2. reflexivity.
    + simpl. apply NoDup_app. split; [exact Hnd |]. split.
      * intros x Hx Hx'. apply list_elem_of_singleton in Hx'. subst x.
        apply Hid, (wf_keys _ Hwf), Hx.
      * apply NoDup_singleton.
Qed.

Lemma init_NoDup (l : list Structure.t) (sd : StructuresDict.t) :
  StructuresDict.init l = Ok sd -> NoDup (StructuresDict.keys sd).
Proof.
  apply add_all_NoDup; [apply StructuresDictFacts.empty_wf | apply NoDup_nil_2].
Qed.

(** ** Construction *)

(** What [Atlas.__init__] has done when it returns. *)
Lemma Atlas_init_inv (w : World) (path : string) (env env' : Env)
    (r : result Atlas) (u : ()) :
  Atlas_init w path () env = (r, u, env') ->
  reads env' = reads env
  /\ forall atlas, r = Ok atlas ->
       exists md json,
         read_json_metadata w (path_join path (METADATA_FILENAME w)) = Some md
         /\ read_json_structures w (path_join path (STRUCTURES_FILENAME w)) = Some json
         /\ root_dir atlas = path
         /\ metadata atlas = md
         /\ structures_list atlas = add_mesh_filenames w path json
         /\ StructuresDict.init (structures_list atlas) = Ok (structures atlas)
         /\ additional_references atlas
            = (fun refs => AdditionalRefDict_init refs path ∅)
                <$> md_additional_references md
         /\ warnings env'
            = warnings env
              ++ match md_additional_references md with
                 | Some _ => []
                 | None => [outdated_warning]
                 end
         /\ _reference atlas = None /\ _annotation atlas = None
         /\ _hemispheres atlas = None /\ _lookup atlas = None.
Proof.
  unfold Atlas_init. unfold_M.
  destruct (read_json_metadata w _) as [md|] eqn:Hmd; simpl;
    [| intros [= <- <- <-]; split; [reflexivity | discriminate]].
  destruct (read_json_structures w _) as [json|] eqn:Hjson; simpl;
    [| intros [= <- <- <-]; split; [reflexivity | discriminate]].
  destruct (StructuresDict.init _) as [sd|] eqn:Hsd;
    [| intros [= <- <- <-]; split; [reflexivity | discriminate]].
  destruct (AnatomicalSpace w _ _ _) as [sp|] eqn:Hsp;
    [| intros [= <- <- <-]; split; [reflexivity | discriminate]].
  destruct (md_additional_references md) as [refs|] eqn:Hrefs;
    intros [= <- <- <-]; (split; [reflexivity |]);
    intros atlas [= <-]; exists md, json; rewrite Hrefs; simpl;
    rewrite ?app_nil_r; repeat split; assumption || reflexivity.
Qed.

(** X1. [Atlas.__init__] loads no volume: whether it returns or raises,
    nothing was handed to [read_tiff], and the atlas it returns has no
    volume and no table cached. *)
Theorem Atlas_init_is_lazy (w : World) (path : string) (env env' : Env)
    (r : result Atlas) (u : ()) :
  Atlas_init w path () env = (r, u, env') ->
  reads env' = reads env
  /\ forall atlas, r = Ok atlas ->
       _reference atlas = None /\ _annotation atlas = None
       /\ _hemispheres atlas = None /\ _lookup atlas = None.
Proof.
  intros H. destruct (Atlas_init_inv _ _ _ _ _ _ H) as [Hreads Hok].
  split; [exact Hreads |]. intros atlas Hr.
  destruct (Hok atlas Hr) as (md & json & _ & _ & _ & _ & _ & _ & _ & _ & H1 & H2 & H3 & H4).
  repeat split; assumption.
Qed.

(** X2. When the metadata lists [additional_references], the atlas
    that [Atlas.__init__] returns holds a reference store with that list
    as its allow-list, the atlas directory as its data path and nothing
    loaded, and no warning was emitted. *)
Theorem Atlas_init_reference_store (w : World) (path : string) (env env' : Env)
    (atlas : Atlas) (u : ()) (md : Metadata) (refs : list string) :
  Atlas_init w path () env = (Ok atlas, u, env') ->
  read_json_metadata w (path_join path (METADATA_FILENAME w)) = Some md ->
  md_additional_references md = Some refs ->
  exists store,
    get_additional_references atlas = Ok store
    /\ references_list store = refs
    /\ data_path store = path
    /\ data store = ∅
    /\ warnings env' = warnings env.
Proof.
  intros H Hmd Hrefs. destruct (Atlas_init_inv _ _ _ _ _ _ H) as [_ Hok].
  destruct (Hok atlas eq_refl)
    as (md' & json & Hmd' & _ & _ & _ & _ & _ & Hstore & Hwarn & _).
  rewrite Hmd in Hmd'. injection Hmd' as <-. rewrite Hrefs in Hstore, Hwarn.
  simpl in Hstore. exists (AdditionalRefDict_init refs path ∅).
  unfold get_additional_references. rewrite Hstore.
  rewrite app_nil_r in Hwarn. repeat split; [exact Hwarn].
Qed.

(** X3. On an atlas returned by [Atlas.__init__], the mesh file of
    every structure, asked for by id or by acronym, is
    [<root>/<meshes dir>/<id>.obj]. *)
Theorem meshfile_from_structure_path (w : World) (path : string) (env env' : Env)
    (atlas : Atlas) (u : ()) (structure : key) (s : Structure.t) :
  Atlas_init w path () env = (Ok atlas, u, env') ->
  StructuresDict.getitem (structures atlas) structure = Ok s ->
  meshfile_from_structure atlas structure
  = Ok (Some (path_join (path_join path (MESHES_DIRNAME w))
                (pretty (Structure.id s) +:+ ".obj"))).
Proof.
  intros H Hs. destruct (Atlas_init_inv _ _ _ _ _ _ H) as [_ Hok].
  destruct (Hok atlas eq_refl) as (md & json & _ & _ & _ & _ & Hlist & Hinit & _).
  pose proof (StructuresDictFacts.init_wf _ _ Hinit) as Hwf.
  pose proof (StructuresDictFacts.getitem_data _ _ _ Hwf Hs) as Hd.
  apply (init_data _ _ _ _ Hinit) in Hd as [Hin _].
  rewrite Hlist in Hin. unfold add_mesh_filenames in Hin.
  apply list_elem_of_fmap in Hin as (s0 & -> & _).
  unfold meshfile_from_structure, _get_from_structure. rewrite Hs. reflexivity.
Qed.

(** X4. On an atlas whose catalog was built from its structure list,
    the table [lookup_df] is built on first access without reading any
    file, and cached. It has exactly one row per structure of the
    catalog: its id column is the list of the catalog's keys, no id
    twice, every record of the catalog has its row, and every row holds
    the acronym, the id and the name of the record that its id and its
    acronym both resolve to. *)
Theorem lookup_df_rows (self : Atlas) (env : Env) :
  StructuresDict.init (structures_list self) = Ok (structures self) ->
  _lookup self = None ->
  exists df,
    lookup_df self env = (Ok df, set_lookup self df, env)
    /\ (forall env2, lookup_df (set_lookup self df) env2 = (Ok df, set_lookup self df, env2))
    /\ map (fun row => row.1.2) df = StructuresDict.keys (structures self)
    /\ NoDup (map (fun row => row.1.2) df)
    /\ (forall i s, StructuresDict.data (structures self) !! i = Some s ->
          (Structure.acronym s, i, Structure.name s) ∈ df)
    /\ forall a i n, (a, i, n) ∈ df ->
         exists s,
           StructuresDict.getitem (structures self) (KInt i) = Ok s
           /\ StructuresDict.getitem (structures self) (KStr a) = Ok s
           /\ Structure.acronym s = a
           /\ Structure.name s = n.
Proof.
  intros Hinit Hnone. pose proof (StructuresDictFacts.init_wf _ _ Hinit) as Hwf.
  unfold lookup_df. unfold_M. rewrite Hnone. eexists. split; [reflexivity |].
  split; [reflexivity |].
  assert (Hkeys : map (fun row : string * Z * string => row.1.2)
                    (map (fun r => (Structure.acronym r, Structure.id r,
                                    Structure.name r)) (structures_list self))
                  = StructuresDict.keys (structures self)).
  { rewrite (add_all_keys _ _ _ Hinit). simpl. rewrite map_map. reflexivity. }
  split; [exact Hkeys |]. split; [rewrite Hkeys; exact (init_NoDup _ _ Hinit) |].
  split.
  - intros i s Hd. apply (init_data _ _ _ _ Hinit) in Hd as [Hin <-].
    apply list_elem_of_fmap. exists s. split; [reflexivity | exact Hin].
  - intros a i n Hrow. apply list_elem_of_fmap in Hrow as (s & [= -> -> ->] & Hin).
    assert (Hd : StructuresDict.data (structures self) !! Structure.id s = Some s)
      by (apply (init_data _ _ _ _ Hinit); split; [exact Hin | reflexivity]).
    exists s. split; [apply StructuresDictFacts.getitem_KInt, Hd |].
    split; [apply (StructuresDictFacts.getitem_acronym _ _ _ Hwf Hd) |].
    split; reflexivity.
Qed.

(** ** Lazily loaded volumes, continued *)

Section LazyVolumes.

Variable w : World.

Lemma reference_inv (self : Atlas) (env : Env) (r : result np.ndarray)
    (self1 : Atlas) (env1 : Env) :
  reference w self env = (r, self1, env1) ->
  match r with
  | Ok v =>
      _reference self1 = Some v
      /\ ((_reference self = Some v /\ self1 = self /\ env1 = env)
          \/ (_reference self = None /\ self1 = set_reference self v
              /\ read_tiff_file w (path_join (root_dir self) (REFERENCE_FILENAME w))
                 = Some v
              /\ env1 = {| warnings := warnings env;
                           reads := reads env
                                    ++ [path_join (root_dir self) (REFERENCE_FILENAME w)] |}))
  | Raise e =>
      e = OSError /\ self1 = self /\ _reference self = None
      /\ read_tiff_file w (path_join (root_dir self) (REFERENCE_FILENAME w)) = None
      /\ env1 = {| warnings := warnings env;
                   reads := reads env
                            ++ [path_join (root_dir self) (REFERENCE_FILENAME w)] |}
  end.
Proof.
  unfold reference. unfold_M.
  destruct (_reference self) as [v|] eqn:E.
  - intros [= <- <- <-]. split; [exact E | left; auto].
  - destruct (read_tiff_file w _) as [v|] eqn:Ef; simpl; intros [= <- <- <-].
    + split; [reflexivity | right; auto].
    + auto.
Qed.

Lemma annotation_cases (self : Atlas) (env : Env) (r : result np.ndarray)
    (self1 : Atlas) (env1 : Env) :
  annotation w self env = (r, self1, env1) ->
  match r with
  | Ok v =>
      _annotation self1 = Some v
      /\ ((_annotation self = Some v /\ self1 = self /\ env1 = env)
          \/ (_annotation self = None /\ self1 = set_annotation self v
              /\ read_tiff_file w (path_join (root_dir self) (ANNOTATION_FILENAME w))
                 = Some v
              /\ env1 = {| warnings := warnings env;
                           reads := reads env
                                    ++ [path_join (root_dir self) (ANNOTATION_FILENAME w)] |}))
  | Raise e =>
      e = OSError /\ self1 = self /\ _annotation self = None
      /\ read_tiff_file w (path_join (root_dir self) (ANNOTATION_FILENAME w)) = None
      /\ env1 = {| warnings := warnings env;
                   reads := reads env
                            ++ [path_join (root_dir self) (ANNOTATION_FILENAME w)] |}
  end.
Proof.
  unfold annotation. unfold_M.
  destruct (_annotation self) as [v|] eqn:E.
  - intros [= <- <- <-]. split; [exact E | left; auto].
  - destruct (read_tiff_file w _) as [v|] eqn:Ef; simpl; intros [= <- <- <-].
    + split; [reflexivity | right; auto].
    + auto.
Qed.

Lemma reference_cached (self : Atlas) (env : Env) (v : np.ndarray) :
  _reference self = Some v -> reference w self env = (Ok v, self, env).
Proof. intros H. unfold reference. unfold_M. rewrite H. reflexivity. Qed.

Lemma hemispheres_cached (self : Atlas) (env : Env) (v : np.ndarray) :
  _hemispheres self = Some v -> hemispheres w self env = (Ok v, self, env).
Proof. intros H. unfold hemispheres. unfold_M. rewrite H. reflexivity. Qed.

(** An access to the hemisphere volume changes nothing but its cache,
    and reads at most the hemisphere file. *)
Lemma hemispheres_inv (self : Atlas) (env : Env) (r : result np.ndarray)
    (self1 : Atlas) (env1 : Env) :
  hemispheres w self env = (r, self1, env1) ->
  structures self1 = structures self
  /\ metadata self1 = metadata self
  /\ _annotation self1 = _annotation self
  /\ _reference self1 = _reference self
  /\ warnings env1 = warnings env
  /\ (forall v, r = Ok v -> _hemispheres self1 = Some v)
  /\ (forall e, r = Raise e -> self1 = self)
  /\ (reads env1 = reads env
      \/ (md_symmetric (metadata self) = false /\ _hemispheres self = None
          /\ reads env1
             = reads env ++ [path_join (root_dir self) (HEMISPHERES_FILENAME w)])).
Proof.
  unfold hemispheres. unfold_M.
  destruct (_hemispheres self) as [v|] eqn:E.
  { intros [= <- <- <-]. repeat split; try reflexivity; try discriminate;
      [congruence | left; reflexivity]. }
  destruct (md_symmetric (metadata self)) eqn:Hsym.
  - destruct (Py.list_index _ _) as [ax|];
      [| intros [= <- <- <-]; repeat split; try reflexivity; try discriminate;
         left; reflexivity].
    destruct (np.shape_getitem _ ax) as [n|];
      [| intros [= <- <- <-]; repeat split; try reflexivity; try discriminate;
         left; reflexivity].
    destruct (list_setitem _ ax _) as [sl|];
      [| intros [= <- <- <-]; repeat split; try reflexivity; try discriminate;
         left; reflexivity].
    destruct (np.setitem_slices _ sl 1) as [st|];
      intros [= <- <- <-]; repeat split; try reflexivity; try discriminate;
      try (left; reflexivity).
    simpl. congruence.
  - destruct (read_tiff_file w _) as [v|]; simpl; intros [= <- <- <-];
      repeat split; try reflexivity; try discriminate;
      try (right; repeat split; reflexivity).
    simpl. congruence.
Qed.

End LazyVolumes.

(** X5. The annotation and the reference volume are read once: after
    an access that returned a volume, every later access returns the same
    volume, leaves the atlas as it is and reads no file; and the first
    access of an atlas that has nothing cached reads exactly the volume's
    own file. *)
Theorem volumes_read_once (w : World) (self : Atlas) (env : Env) :
  (forall v self1 env1,
     annotation w self env = (Ok v, self1, env1) ->
     (forall env2, annotation w self1 env2 = (Ok v, self1, env2))
     /\ (_annotation self = None ->
         reads env1 = reads env ++ [path_join (root_dir self) (ANNOTATION_FILENAME w)]))
  /\ (forall v self1 env1,
        reference w self env = (Ok v, self1, env1) ->
        (forall env2, reference w self1 env2 = (Ok v, self1, env2))
        /\ (_reference self = None ->
            reads env1 = reads env ++ [path_join (root_dir self) (REFERENCE_FILENAME w)])).
Proof.
  split; intros v self1 env1 H.
  - destruct (annotation_cases w _ _ _ _ _ H) as [Hc Hcases]. split.
    + intros env2. apply annotation_cached, Hc.
    + intros Hnone. destruct Hcases as [(Hsome & _) | (_ & _ & _ & ->)];
        [congruence | reflexivity].
  - destruct (reference_inv w _ _ _ _ _ H) as [Hc Hcases]. split.
    + intros env2. apply reference_cached, Hc.
    + intros Hnone. destruct Hcases as [(Hsome & _) | (_ & _ & _ & ->)];
        [congruence | reflexivity].
Qed.

(** X6. A volume that cannot be read is not cached: the access raises
    OSError, reads the volume's file and leaves the atlas unchanged, and
    every later access reads the same file again. *)
Theorem annotation_failure_not_cached (w : World) (self : Atlas) (env : Env)
    (e : exn) (self1 : Atlas) (env1 : Env) :
  annotation w self env = (Raise e, self1, env1) ->
  e = OSError /\ self1 = self
  /\ reads env1 = reads env ++ [path_join (root_dir self) (ANNOTATION_FILENAME w)]
  /\ forall env2,
       annotation w self1 env2
       = (Raise OSError, self,
          {| warnings := warnings env2;
             reads := reads env2
                      ++ [path_join (root_dir self) (ANNOTATION_FILENAME w)] |}).
Proof.
  intros H. destruct (annotation_cases w _ _ _ _ _ H) as (-> & -> & Hnone & Hfile & ->).
  repeat split. intros env2.
  unfold annotation. unfold_M. rewrite Hnone, Hfile. reflexivity.
Qed.

(** X7. The hemisphere volume of an atlas that is not symmetric is the
    content of the hemisphere file: the first access reads that file and
    nothing else, and every later access returns the same volume without
    reading. Whatever the atlas, an access to the hemisphere volume emits
    no warning and touches neither the catalog nor the other volumes. *)
Theorem hemispheres_stored (w : World) (self : Atlas) (env : Env) :
  (forall v,
     _hemispheres self = None ->
     md_symmetric (metadata self) = false ->
     read_tiff_file w (path_join (root_dir self) (HEMISPHERES_FILENAME w)) = Some v ->
     hemispheres w self env
     = (Ok v, set_hemispheres self v,
        {| warnings := warnings env;
           reads := reads env ++ [path_join (root_dir self) (HEMISPHERES_FILENAME w)] |}))
  /\ (forall v self1 env1,
        hemispheres w self env = (Ok v, self1, env1) ->
        forall env2, hemispheres w self1 env2 = (Ok v, self1, env2))
  /\ (forall r self1 env1,
        hemispheres w self env = (r, self1, env1) ->
        warnings env1 = warnings env
        /\ structures self1 = structures self
        /\ _annotation self1 = _annotation self
        /\ _reference self1 = _reference self).
Proof.
  split; [| split].
  - intros v Hnone Hsym Hfile. unfold hemispheres. unfold_M.
    rewrite Hnone, Hsym, Hfile. reflexivity.
  - intros v self1 env1 H env2.
    destruct (hemispheres_inv w _ _ _ _ _ H) as (_ & _ & _ & _ & _ & Hc & _).
    apply hemispheres_cached, Hc. reflexivity.
  - intros r self1 env1 H.
    destruct (hemispheres_inv w _ _ _ _ _ H) as (H1 & _ & H3 & H4 & H5 & _).
    auto.
Qed.

(** ** Coordinate queries, continued *)

Lemma normalize_index_ok (n : nat) (i : Z) (m : nat) :
  np.normalize_index n i = Ok m -> (- Z.of_nat n <= i < Z.of_nat n)%Z.
Proof.
  unfold np.normalize_index.
  destruct (i <? 0)%Z eqn:E;
    destruct ((0 <=? _)%Z && (_ <? _)%Z) eqn:E2; try discriminate; intros _;
    apply andb_prop in E2 as [H1 H2]; apply Z.leb_le in H1; apply Z.ltb_lt in H2.
  - apply Z.ltb_lt in E. lia.
  - apply Z.ltb_ge in E. lia.
Qed.

Lemma getitem_in_bounds (a : np.ndarray) (i j k : nat) :
  np.in_bounds (np.shape a) i j k ->
  np.getitem a (Z.of_nat i, Z.of_nat j, Z.of_nat k) = Ok (np.item a i j k).
Proof.
  unfold np.in_bounds, np.getitem. destruct (np.shape a) as [[n0 n1] n2].
  intros (Hi & Hj & Hk). rewrite !npFacts.normalize_index_nonneg by assumption.
  reflexivity.
Qed.

(** An index outside [-n, n) on some axis is an IndexError. *)
Lemma getitem_out_of_bounds (a : np.ndarray) (n0 n1 n2 : nat) (i j k : Z) :
  np.shape a = (n0, n1, n2) ->
  ~ ((- Z.of_nat n0 <= i < Z.of_nat n0)%Z /\ (- Z.of_nat n1 <= j < Z.of_nat n1)%Z
     /\ (- Z.of_nat n2 <= k < Z.of_nat n2)%Z) ->
  np.getitem a (i, j, k) = Raise IndexError.
Proof.
  intros Hs Hout. unfold np.getitem. rewrite Hs.
  destruct (np.normalize_index n0 i) as [i'|e] eqn:Ei; simpl;
    [| rewrite (npFacts.normalize_index_raises _ _ _ Ei); reflexivity].
  destruct (np.normalize_index n1 j) as [j'|e] eqn:Ej; simpl;
    [| rewrite (npFacts.normalize_index_raises _ _ _ Ej); reflexivity].
  destruct (np.normalize_index n2 k) as [k'|e] eqn:Ek; simpl;
    [| rewrite (npFacts.normalize_index_raises _ _ _ Ek); reflexivity].
  exfalso. apply Hout.
  repeat split; eapply normalize_index_ok; eassumption.
Qed.

(** The volume a symmetric atlas builds on first access. *)
Lemma hemispheres_first_access (w : World) (self : Atlas) (env : Env)
    (ax n : nat) :
  _hemispheres self = None ->
  md_symmetric (metadata self) = true ->
  Py.list_index "frontal" (axes_order (space self)) = Ok ax ->
  np.shape_getitem (md_shape (metadata self)) ax = Ok n ->
  exists stack,
    hemispheres w self env = (Ok stack, set_hemispheres self stack, env)
    /\ np.shape stack = md_shape (metadata self)
    /\ np.dtype_of stack = np.uint8
    /\ forall i j k, np.in_bounds (md_shape (metadata self)) i j k ->
         np.item stack i j k
         = if bool_decide (n / 2 + 1 <= axis_index ax i j k)
           then LEFT_HEMI_VAL else RIGHT_HEMI_VAL.
Proof.
  intros Hnone Hsym Hax Hn.
  unfold hemispheres. unfold_M. rewrite Hnone, Hsym, Hax.
  cbn [np.shape np.full]. rewrite Hn.
  rewrite split_index_nat. set (start := n / 2 + 1). clearbody start.
  destruct (md_shape (metadata self)) as [[n0 n1] n2] eqn:Hshape.
  destruct ax as [|[|[|ax]]]; simpl in Hn; try discriminate;
    clear Hn; simpl;
    (eexists; split; [reflexivity |]; split; [reflexivity |];
     split; [reflexivity |]);
    intros i j k (Hi & Hj & Hk); simpl;
    rewrite ?slice_selects_all by assumption;
    rewrite slice_selects_from by assumption;
    rewrite ?andb_true_r; simpl;
    destruct (bool_decide _); reflexivity.
Qed.

(** X8. On a symmetric atlas every voxel of the volume has a
    hemisphere: for a voxel inside the atlas shape,
    [hemisphere_from_coords] returns 1, or "left" with [as_string], when
    the index along the frontal axis is at least [shape[frontal] // 2 + 1],
    and 2, or "right", otherwise; it reads no file. *)
Theorem hemisphere_from_coords_symmetric (w : World) (self : Atlas) (env : Env)
    (ax n i j k : nat) (as_string : bool) :
  _hemispheres self = None ->
  md_symmetric (metadata self) = true ->
  Py.list_index "frontal" (axes_order (space self)) = Ok ax ->
  np.shape_getitem (md_shape (metadata self)) ax = Ok n ->
  np.in_bounds (md_shape (metadata self)) i j k ->
  exists self',
    hemisphere_from_coords w
      (Py.Int (Z.of_nat i), Py.Int (Z.of_nat j), Py.Int (Z.of_nat k))
      false as_string self env
    = (Ok (if bool_decide (n / 2 + 1 <= axis_index ax i j k)
           then (if as_string then VStr "left" else VInt LEFT_HEMI_VAL)
           else (if as_string then VStr "right" else VInt RIGHT_HEMI_VAL)),
       self', env).
Proof.
  intros Hnone Hsym Hax Hn Hin.
  destruct (hemispheres_first_access w self env ax n Hnone Hsym Hax Hn)
    as (stack & Hh & Hshape & Hdtype & Hitem).
  exists (set_hemispheres self stack).
  assert (Hidx : forall s x y z,
             _idx_from_coords s (Py.Int x, Py.Int y, Py.Int z) false = Ok (x, y, z))
    by reflexivity.
  unfold hemisphere_from_coords. unfold_M. rewrite Hh, Hidx.
  rewrite getitem_in_bounds by (rewrite Hshape; exact Hin).
  rewrite (Hitem i j k Hin), Hdtype.
  destruct (bool_decide _), as_string; reflexivity.
Qed.

(** X9. Coordinates outside the volume are refused by the array, not
    by the atlas: when the integral part of a coordinate is outside
    [-n, n) for the length [n] of its axis, [structure_from_coords] and
    [hemisphere_from_coords] raise IndexError, whatever their flags. *)
Theorem coords_outside_volume (w : World) (self : Atlas) (env : Env)
    (coords : Py.num * Py.num * Py.num) (microns : bool) (i j k : Z) :
  (forall a self' env' n0 n1 n2 as_acronym hierarchy_lev key_error_string,
     annotation w self env = (Ok a, self', env') ->
     _idx_from_coords self' coords microns = Ok (i, j, k) ->
     np.shape a = (n0, n1, n2) ->
     ~ ((- Z.of_nat n0 <= i < Z.of_nat n0)%Z /\ (- Z.of_nat n1 <= j < Z.of_nat n1)%Z
        /\ (- Z.of_nat n2 <= k < Z.of_nat n2)%Z) ->
     structure_from_coords w coords microns as_acronym hierarchy_lev key_error_string
       self env
     = (Raise IndexError, self', env'))
  /\ (forall h self' env' n0 n1 n2 as_string,
        hemispheres w self env = (Ok h, self', env') ->
        _idx_from_coords self' coords microns = Ok (i, j, k) ->
        np.shape h = (n0, n1, n2) ->
        ~ ((- Z.of_nat n0 <= i < Z.of_nat n0)%Z /\ (- Z.of_nat n1 <= j < Z.of_nat n1)%Z
           /\ (- Z.of_nat n2 <= k < Z.of_nat n2)%Z) ->
        hemisphere_from_coords w coords microns as_string self env
        = (Raise IndexError, self', env')).
Proof.
  split.
  - intros a self' env' n0 n1 n2 as_acronym lev kes Ha Hidx Hs Hout.
    unfold structure_from_coords. unfold_M. rewrite Ha, Hidx.
    rewrite (getitem_out_of_bounds a n0 n1 n2) by assumption. reflexivity.
  - intros h self' env' n0 n1 n2 as_string Hh Hidx Hs Hout.
    unfold hemisphere_from_coords. unfold_M. rewrite Hh, Hidx.
    rewrite (getitem_out_of_bounds h n0 n1 n2) by assumption. reflexivity.
Qed.

(** X10. Without a hierarchy level, [structure_from_coords] returns
    the id stored at the voxel, known to the catalog or not, and with
    [as_acronym] the acronym of that id, or [key_error_string] when the id
    is not in the catalog. *)
Theorem structure_from_coords_plain (w : World) (self : Atlas) (env : Env)
    (coords : Py.num * Py.num * Py.num) (microns as_acronym : bool)
    (key_error_string : string)
    (a : np.ndarray) (self' : Atlas) (env' : Env) (idx : Z * Z * Z) (rid : Z) :
  annotation w self env = (Ok a, self', env') ->
  _idx_from_coords self' coords microns = Ok idx ->
  np.getitem a idx = Ok rid ->
  structure_from_coords w coords microns as_acronym None key_error_string self env
  = (Ok (if as_acronym
         then VStr (match StructuresDict.data (structures self') !! rid with
                    | Some s => Structure.acronym s
                    | None => key_error_string
                    end)
         else VInt rid),
     self', env').
Proof.
  intros Ha Hidx Hget. unfold structure_from_coords. unfold_M.
  rewrite Ha, Hidx, Hget. destruct as_acronym; [| reflexivity].
  destruct (StructuresDict.data (structures self') !! rid) as [s|] eqn:E.
  - rewrite (proj2 (StructuresDictFacts.getitem_KInt _ _ _) E). reflexivity.
  - rewrite (StructuresDictFacts.getitem_KInt_None _ _ E). reflexivity.
Qed.

Lemma removelast_lookup {A} (l : list A) (n : nat) :
  S n < length l -> removelast l !! n = l !! n.
Proof.
  revert n. induction l as [|x t IH]; intros n Hn; simpl in *; [lia |].
  destruct t as [|y t']; simpl in *; [lia |].
  destruct n as [|n]; [reflexivity |]. simpl. apply IH. simpl. lia.
Qed.

Lemma removelast_length {A} (l : list A) : length (removelast l) = length l - 1.
Proof.
  induction l as [|x t IH]; simpl; [reflexivity |].
  destruct t as [|y t']; simpl in *; [reflexivity | lia].
Qed.

Lemma list_getitem_nonneg {A} (l : list A) (n : nat) (x : A) :
  l !! n = Some x -> Py.list_getitem l (Z.of_nat n) = Ok x.
Proof.
  intros H. pose proof (lookup_lt_Some _ _ _ H) as Hlt.
  unfold Py.list_getitem.
  replace (Z.of_nat n <? 0)%Z with false by (symmetry; apply Z.ltb_ge; lia).
  replace (0 <=? Z.of_nat n)%Z with true by (symmetry; apply Z.leb_le; lia).
  replace (Z.of_nat n <? Z.of_nat (length l))%Z with true
    by (symmetry; apply Z.ltb_lt; lia).
  simpl. rewrite Nat2Z.id, H. reflexivity.
Qed.

(** The ancestors of a structure, entry by entry. *)
Lemma ancestors_entries (self : Atlas) (k : key) (S : Structure.t)
    (ancestors : list string) :
  StructuresDict.getitem (structures self) k = Ok S ->
  get_structure_ancestors self k = Ok ancestors ->
  length ancestors = length (Structure.structure_id_path S) - 1
  /\ forall n acr, ancestors !! n = Some acr ->
       exists i s,
         Structure.structure_id_path S !! n = Some i
         /\ StructuresDict.getitem (structures self) (KInt i) = Ok s
         /\ Structure.acronym s = acr.
Proof.
  intros HS. unfold get_structure_ancestors, _get_from_structure at 1.
  rewrite HS. simpl. unfold _get_from_structure_list. intros Hc.
  apply comprehension_inv in Hc.
  pose proof (Forall2_length _ _ _ Hc) as Hlen.
  rewrite length_map in Hlen. unfold Py.all_but_last in *.
  rewrite removelast_length in Hlen. split; [lia |].
  intros n acr Hn.
  destruct (Forall2_lookup_r _ _ _ _ _ Hc Hn) as (kk & Hkk & Hacr).
  rewrite list_lookup_fmap in Hkk.
  destruct (removelast (Structure.structure_id_path S) !! n) as [i|] eqn:Ei;
    [| discriminate].
  injection Hkk as <-.
  pose proof (lookup_lt_Some _ _ _ Ei) as Hlt. rewrite removelast_length in Hlt.
  rewrite removelast_lookup in Ei by lia.
  unfold _get_from_structure in Hacr.
  destruct (StructuresDict.getitem (structures self) (KInt i)) as [s|] eqn:Es;
    [| discriminate].
  injection Hacr as <-. exists i, s. auto.
Qed.

(** X11. With [as_acronym] and a hierarchy level [lev] that is the
    position of an ancestor, [structure_from_coords] returns the entry
    [lev] of the list [get_structure_ancestors] gives for the structure at
    the voxel. *)
Theorem structure_from_coords_level (w : World) (self : Atlas) (env : Env)
    (coords : Py.num * Py.num * Py.num) (microns : bool) (key_error_string : string)
    (a : np.ndarray) (self' : Atlas) (env' : Env) (idx : Z * Z * Z) (rid : Z)
    (ancestors : list string) (lev : nat) (acr : string) :
  annotation w self env = (Ok a, self', env') ->
  _idx_from_coords self' coords microns = Ok idx ->
  np.getitem a idx = Ok rid ->
  get_structure_ancestors self' (KInt rid) = Ok ancestors ->
  ancestors !! lev = Some acr ->
  structure_from_coords w coords microns true (Some (Z.of_nat lev)) key_error_string
    self env
  = (Ok (VStr acr), self', env').
Proof.
  intros Ha Hidx Hget Hanc Hlev.
  destruct (StructuresDict.getitem (structures self') (KInt rid)) as [S|e] eqn:HS.
  2:{ unfold get_structure_ancestors, _get_from_structure in Hanc.
      rewrite HS in Hanc. discriminate. }
  destruct (ancestors_entries self' (KInt rid) S ancestors HS Hanc) as [_ Hent].
  destruct (Hent lev acr Hlev) as (i & s & Hi & Hs & <-).
  unfold structure_from_coords. unfold_M. rewrite Ha, Hidx, Hget, HS.
  rewrite (list_getitem_nonneg _ _ _ Hi), Hs. reflexivity.
Qed.

(** X12. A hierarchy level beyond the path of the structure at the
    voxel makes [structure_from_coords] raise IndexError. *)
Theorem structure_from_coords_level_out_of_range (w : World) (self : Atlas) (env : Env)
    (coords : Py.num * Py.num * Py.num) (microns as_acronym : bool)
    (key_error_string : string)
    (a : np.ndarray) (self' : Atlas) (env' : Env) (idx : Z * Z * Z) (rid : Z)
    (S : Structure.t) (lev : Z) :
  annotation w self env = (Ok a, self', env') ->
  _idx_from_coords self' coords microns = Ok idx ->
  np.getitem a idx = Ok rid ->
  StructuresDict.getitem (structures self') (KInt rid) = Ok S ->
  (lev < - Z.of_nat (length (Structure.structure_id_path S))
   \/ Z.of_nat (length (Structure.structure_id_path S)) <= lev)%Z ->
  structure_from_coords w coords microns as_acronym (Some lev) key_error_string
    self env
  = (Raise IndexError, self', env').
Proof.
  intros Ha Hidx Hget HS Hlev. unfold structure_from_coords. unfold_M.
  rewrite Ha, Hidx, Hget, HS.
  assert (Hraise : Py.list_getitem (Structure.structure_id_path S) lev = Raise IndexError).
  { unfold Py.list_getitem. destruct (lev <? 0)%Z eqn:E.
    - apply Z.ltb_lt in E.
      destruct ((0 <=? _)%Z && _) eqn:E2; [| reflexivity].
      apply andb_prop in E2 as [H1 H2]. apply Z.leb_le in H1. lia.
    - apply Z.ltb_ge in E.
      replace (lev <? Z.of_nat (length (Structure.structure_id_path S)))%Z with false
        by (symmetry; apply Z.ltb_ge; lia).
      rewrite andb_false_r. reflexivity. }
  rewrite Hraise. reflexivity.
Qed.

(** ** Ancestors and descendants, continued *)

(** X13. The ancestors of a structure follow its path: the list has
    one entry less than the path, and its entry [n] is the acronym of the
    structure whose id is the entry [n] of the path; a structure whose
    path has at most one entry has no ancestors. *)
Theorem get_structure_ancestors_follow_path (self : Atlas) (k : key) (S : Structure.t) :
  StructuresDict.getitem (structures self) k = Ok S ->
  (forall ancestors,
     get_structure_ancestors self k = Ok ancestors ->
     length ancestors = length (Structure.structure_id_path S) - 1
     /\ forall n acr, ancestors !! n = Some acr ->
          exists i s,
            Structure.structure_id_path S !! n = Some i
            /\ StructuresDict.getitem (structures self) (KInt i) = Ok s
            /\ Structure.acronym s = acr)
  /\ (length (Structure.structure_id_path S) <= 1 ->
      get_structure_ancestors self k = Ok []).
Proof.
  intros HS. split.
  - intros ancestors. apply ancestors_entries. exact HS.
  - intros Hlen. unfold get_structure_ancestors, _get_from_structure at 1.
    rewrite HS. simpl.
    destruct (Structure.structure_id_path S) as [|x [|y t]]; simpl in *;
      [reflexivity | reflexivity | lia].
Qed.

Lemma descendants_loop_ok (self : Atlas) (a : string) (keys : list Z)
    (acc ds : list string) :
  descendants_loop self a keys acc = Ok ds ->
  forall k, k ∈ keys -> exists anc, get_structure_ancestors self (KInt k) = Ok anc.
Proof.
  revert acc. induction keys as [|k0 rest IH]; intros acc; simpl.
  - intros _ k Hk. inversion Hk.
  - destruct (get_structure_ancestors self (KInt k0)) as [anc|] eqn:E; simpl;
      [| discriminate].
    intros Hloop k Hk. apply elem_of_cons in Hk as [-> | Hk]; [eauto |].
    destruct (decide (a ∈ anc)).
    + destruct (_get_from_structure self (KInt k0) _); simpl in Hloop; [| discriminate].
      eapply IH; eassumption.
    + eapply IH; eassumption.
Qed.

(** X14. One dangling id spoils every descendant query: when the path
    of some record names, before its last entry, an id that is not in the
    catalog, the ancestors of that record raise KeyError, and so do the
    descendants and the mask of every structure of the catalog; the mask
    fails before any file is read. *)
Theorem dangling_path_id (w : World) (self : Atlas)
    (structures_list : list Structure.t) (i j : Z) (s : Structure.t) :
  StructuresDict.init structures_list = Ok (structures self) ->
  StructuresDict.data (structures self) !! i = Some s ->
  j ∈ Py.all_but_last (Structure.structure_id_path s) ->
  StructuresDict.data (structures self) !! j = None ->
  get_structure_ancestors self (KInt i) = Raise KeyError
  /\ forall k P,
       StructuresDict.getitem (structures self) k = Ok P ->
       get_structure_descendants self k = Raise KeyError
       /\ forall hemisphere env,
            get_structure_mask w k hemisphere self env = (Raise KeyError, self, env).
Proof.
  intros Hinit Hs Hj Hnone.
  pose proof (StructuresDictFacts.init_wf _ _ Hinit) as Hwf.
  assert (Hanc : get_structure_ancestors self (KInt i) = Raise KeyError).
  { destruct (get_structure_ancestors self (KInt i)) as [anc|e] eqn:E;
      [| rewrite (ancestors_raises _ _ _ E); reflexivity].
    exfalso. unfold get_structure_ancestors, _get_from_structure at 1 in E.
    rewrite (proj2 (StructuresDictFacts.getitem_KInt _ _ _) Hs) in E. simpl in E.
    apply comprehension_inv in E.
    apply list_elem_of_lookup in Hj as [n Hn].
    assert (Hk : map KInt (Py.all_but_last (Structure.structure_id_path s)) !! n
                 = Some (KInt j)) by (rewrite list_lookup_fmap, Hn; reflexivity).
    destruct (Forall2_lookup_l _ _ _ _ _ E Hk) as (acr & _ & Hacr).
    unfold _get_from_structure in Hacr.
    rewrite (StructuresDictFacts.getitem_KInt_None _ _ Hnone) in Hacr. discriminate. }
  split; [exact Hanc |]. intros k P HP.
  assert (Hdesc : get_structure_descendants self k = Raise KeyError).
  { destruct (get_structure_descendants self k) as [ds|e] eqn:E;
      [| rewrite (descendants_raises _ _ _ E); reflexivity].
    exfalso. unfold get_structure_descendants in E.
    destruct (_get_from_structure self k Structure.acronym) as [a|]; simpl in E;
      [| discriminate].
    destruct (descendants_loop_ok _ _ _ _ _ E i) as [anc Hok].
    - apply (wf_keys _ Hwf). eauto.
    - rewrite Hanc in Hok. discriminate. }
  split; [exact Hdesc |]. intros hemisphere env.
  unfold get_structure_mask. unfold_M. rewrite HP. simpl. rewrite Hdesc. reflexivity.
Qed.

Lemma descendants_loop_NoDup (self : Atlas) (a : string) (keys : list Z)
    (acc ds : list string) :
  catalog_wf (structures self) ->
  NoDup keys -> NoDup acc ->
  (forall x, x ∈ acc ->
     exists k s, (k ∉ keys) /\ StructuresDict.data (structures self) !! k = Some s
                 /\ Structure.acronym s = x) ->
  descendants_loop self a keys acc = Ok ds -> NoDup ds.
Proof.
  intros Hwf. revert acc. induction keys as [|k0 rest IH]; intros acc Hnd Hacc Hfrom; simpl.
  - intros [= <-]. exact Hacc.
  - apply NoDup_cons in Hnd as [Hk0 Hnd].
    assert (Hfrom' : forall x, x ∈ acc ->
              exists k s, (k ∉ rest) /\ StructuresDict.data (structures self) !! k = Some s
                          /\ Structure.acronym s = x).
    { intros x Hx. destruct (Hfrom x Hx) as (k & s & Hk & Hs & Hacr).
      exists k, s. split; [| auto]. intros Hin. apply Hk. right. exact Hin. }
    destruct (get_structure_ancestors self (KInt k0)) as [anc|]; simpl; [| discriminate].
    destruct (decide (a ∈ anc)); [| apply IH; assumption].
    unfold _get_from_structure.
    destruct (StructuresDict.getitem (structures self) (KInt k0)) as [s0|] eqn:E0;
      simpl; [| discriminate].
    apply StructuresDictFacts.getitem_KInt in E0.
    apply IH; [exact Hnd | |].
    + apply NoDup_app. split; [exact Hacc |]. split; [| apply NoDup_singleton].
      intros x Hx Hx'. apply list_elem_of_singleton in Hx'. subst x.
      destruct (Hfrom _ Hx) as (k & s & Hk & Hs & Hacr).
      destruct (StructuresDictFacts.acronym_inj _ _ _ _ _ Hwf Hs E0 Hacr) as [-> _].
      apply Hk. left.
    + intros x Hx. apply elem_of_app in Hx as [Hx | Hx]; [apply Hfrom', Hx |].
      apply list_elem_of_singleton in Hx. subst x. exists k0, s0. auto.
Qed.

(** X15. The descendants of a structure are listed once each, and a
    structure whose own id occurs in its path at the last position only
    is not among its own descendants. *)
Theorem get_structure_descendants_distinct (self : Atlas)
    (structures_list : list Structure.t) (k : key) (S : Structure.t)
    (descendants : list string) :
  StructuresDict.init structures_list = Ok (structures self) ->
  paths_closed (structures self) = true ->
  StructuresDict.getitem (structures self) k = Ok S ->
  get_structure_descendants self k = Ok descendants ->
  NoDup descendants
  /\ (Structure.id S ∉ Py.all_but_last (Structure.structure_id_path S) ->
      Structure.acronym S ∉ descendants).
Proof.
  intros Hinit Hclosed HS Hdesc.
  pose proof (StructuresDictFacts.init_wf _ _ Hinit) as Hwf.
  split.
  - unfold get_structure_descendants in Hdesc.
    destruct (_get_from_structure self k Structure.acronym) as [a|]; simpl in Hdesc;
      [| discriminate].
    eapply (descendants_loop_NoDup self a _ []); try eassumption.
    + eapply init_NoDup, Hinit.
    + apply NoDup_nil_2.
    + intros x Hx. inversion Hx.
  - intros Hnotin Hin.
    destruct (descendants_spec self Hwf Hclosed k S HS) as (ds & Hds & Hspec).
    rewrite Hdesc in Hds. injection Hds as <-.
    apply Hspec in Hin as (D & HD & Hacr & anc & Hanc & Hin).
    pose proof (StructuresDictFacts.getitem_data _ _ _ Hwf HS) as HdS.
    destruct (StructuresDictFacts.acronym_inj _ _ _ _ _ Hwf HD HdS Hacr) as [_ ->].
    apply list_elem_of_lookup in Hin as [n Hn].
    destruct (ancestors_entries self (KInt (Structure.id S)) S anc
                (proj2 (StructuresDictFacts.getitem_KInt _ _ _) HdS) Hanc) as [Hlen Hent].
    destruct (Hent n _ Hn) as (i & s & Hi & Hs & Hsacr).
    apply StructuresDictFacts.getitem_KInt in Hs.
    destruct (StructuresDictFacts.acronym_inj _ _ _ _ _ Hwf Hs HdS Hsacr) as [-> _].
    apply Hnotin. apply list_elem_of_lookup. exists n.
    pose proof (lookup_lt_Some _ _ _ Hn) as Hlt.
    unfold Py.all_but_last. rewrite removelast_lookup by lia. exact Hi.
Qed.

(** X16. A key that is neither an id nor an acronym of the catalog
    makes the hierarchy queries, the mesh file query and the mask raise
    KeyError; the mask raises before any file is read or any volume is
    cached. *)
Theorem unknown_structure_key (w : World) (self : Atlas) (k : key) (e : exn) :
  StructuresDict.getitem (structures self) k = Raise e ->
  get_structure_ancestors self k = Raise KeyError
  /\ get_structure_descendants self k = Raise KeyError
  /\ meshfile_from_structure self k = Raise KeyError
  /\ forall hemisphere env,
       get_structure_mask w k hemisphere self env = (Raise KeyError, self, env).
Proof.
  intros Hk. pose proof (getitem_raises _ _ _ Hk) as ->.
  unfold get_structure_ancestors, get_structure_descendants, meshfile_from_structure,
    _get_from_structure, get_structure_mask. unfold_M. rewrite Hk.
  repeat split.
Qed.

(** ** Structure masks, continued *)

(** X17. The hemisphere argument is checked last: a call of
    [get_structure_mask] with an argument other than -1, 0 and 1 does all
    that the call with 0 does, the same lookups, the same reading and
    caching of the annotation volume, and differs only in raising
    InvalidHemisphereFilter where the call with 0 returns the mask. *)
Theorem invalid_hemisphere_checked_last (w : World) (structure : key)
    (hemisphere : Z) (self : Atlas) (env : Env) :
  hemisphere <> (-1)%Z -> hemisphere <> 0%Z -> hemisphere <> 1%Z ->
  get_structure_mask w structure hemisphere self env
  = let '(r, self', env') := get_structure_mask w structure 0 self env in
    (match r with
     | Ok _ => Raise InvalidHemisphereFilter
     | Raise e => Raise e
     end, self', env').
Proof.
  intros Hm1 H0 H1. apply Z.eqb_neq in Hm1, H0, H1.
  unfold get_structure_mask. unfold_M.
  destruct (Structure.id <$> StructuresDict.getitem (structures self) structure)
    as [sid|]; [| reflexivity].
  destruct (get_structure_descendants self structure) as [ds|]; [| reflexivity].
  destruct (comprehension _ ds) as [ids|]; [| reflexivity].
  destruct (annotation w self env) as [[[ann|] self1] env1]; [| reflexivity].
  destruct (annotation w self1 env1) as [[[ann'|] self2] env2]; [| reflexivity].
  destruct (np.setitem_mask _ _ sid) as [mask1|]; [| reflexivity].
  rewrite Hm1, H0, H1. reflexivity.
Qed.

(** X18. Without a hemisphere filter the hemisphere volume is left
    alone: whatever [get_structure_mask] with hemisphere 0 returns or
    raises, the hemisphere cache, the catalog and the warnings are as
    before, and the only file it may have read is the annotation file. *)
Theorem mask_without_filter_effects (w : World) (structure : key)
    (self : Atlas) (env : Env) (r : result np.ndarray) (self' : Atlas) (env' : Env) :
  get_structure_mask w structure 0 self env = (r, self', env') ->
  _hemispheres self' = _hemispheres self
  /\ structures self' = structures self
  /\ warnings env' = warnings env
  /\ (reads env' = reads env
      \/ reads env' = reads env ++ [path_join (root_dir self) (ANNOTATION_FILENAME w)]).
Proof.
  unfold get_structure_mask. unfold_M.
  destruct (Structure.id <$> StructuresDict.getitem (structures self) structure)
    as [sid|]; [| intros [= <- <- <-]; auto].
  destruct (get_structure_descendants self structure) as [ds|];
    [| intros [= <- <- <-]; auto].
  destruct (comprehension _ ds) as [ids|]; [| intros [= <- <- <-]; auto].
  destruct (annotation w self env) as [[r1 self1] env1] eqn:E1.
  pose proof (annotation_inv w _ _ _ _ _ E1) as (Hs1 & _ & _ & _ & Hh1 & _ & _).
  assert (Henv1 : warnings env1 = warnings env
                  /\ (reads env1 = reads env
                      \/ reads env1
                         = reads env ++ [path_join (root_dir self) (ANNOTATION_FILENAME w)])).
  { pose proof (annotation_cases w _ _ _ _ _ E1) as Hc. destruct r1.
    - destruct Hc as [_ [(_ & _ & ->) | (_ & _ & _ & ->)]]; simpl; auto.
    - destruct Hc as (_ & _ & _ & _ & ->). simpl. auto. }
  destruct r1 as [ann|]; [| intros [= <- <- <-]; tauto].
  destruct (annotation w self1 env1) as [[r2 self2] env2] eqn:E2.
  pose proof (annotation_cases w _ _ _ _ _ E1) as [Hc1 _].
  rewrite (annotation_cached w self1 env1 ann Hc1) in E2. injection E2 as <- <- <-.
  destruct (np.setitem_mask _ _ sid) as [mask1|]; simpl; intros [= <- <- <-]; tauto.
Qed.

(** X19. A mask holds two values at most: whatever the hemisphere
    argument, the volume [get_structure_mask] returns has the atlas shape
    and the dtype of the annotation volume, and each of its elements is 0
    or the id of the structure as that dtype stores it. *)
Theorem mask_values (w : World) (structure : key) (hemisphere : Z)
    (self : Atlas) (env : Env) (mask : np.ndarray) (self' : Atlas) (env' : Env)
    (S : Structure.t) :
  get_structure_mask w structure hemisphere self env = (Ok mask, self', env') ->
  StructuresDict.getitem (structures self) structure = Ok S ->
  exists ann,
    _annotation self' = Some ann
    /\ np.shape mask = shape self
    /\ np.dtype_of mask = np.dtype_of ann
    /\ forall i j k,
         np.item mask i j k = 0%Z
         \/ np.item mask i j k = np.cast (np.dtype_of ann) (Structure.id S).
Proof.
  intros H HS. revert H. unfold get_structure_mask. unfold_M. rewrite HS. simpl.
  destruct (get_structure_descendants self structure) as [ds|]; [| discriminate].
  destruct (comprehension _ ds) as [ids|]; [| discriminate].
  destruct (annotation w self env) as [[[ann|] self1] env1] eqn:E1; [| discriminate].
  pose proof (annotation_cases w _ _ _ _ _ E1) as [Hc1 _].
  rewrite (annotation_cached w self1 env1 ann Hc1).
  unfold np.setitem_mask at 1. cbn [np.isin np.bshape np.zeros np.full np.shape].
  destruct (decide (np.shape ann = shape self)) as [Hshape|]; [| discriminate].
  set (mask1 := {| np.shape := shape self |}).
  assert (Hm1 : forall i j k,
             np.item mask1 i j k = 0%Z
             \/ np.item mask1 i j k = np.cast (np.dtype_of ann) (Structure.id S)).
  { intros i j k. unfold mask1. simpl.
    destruct (bool_decide _); [right; reflexivity | left; apply npFacts.cast_zero]. }
  assert (Hs1 : np.shape mask1 = shape self) by reflexivity.
  assert (Hd1 : np.dtype_of mask1 = np.dtype_of ann) by reflexivity.
  clearbody mask1.
  assert (Hfilter : forall h v self2 env2 m,
             hemispheres w self1 env1 = (Ok h, self2, env2) ->
             np.setitem_mask mask1 (np.eq_scalar h v) 0 = Ok m ->
             exists ann0,
               _annotation self2 = Some ann0 /\ np.shape m = shape self
               /\ np.dtype_of m = np.dtype_of ann0
               /\ forall i j k,
                    np.item m i j k = 0%Z
                    \/ np.item m i j k = np.cast (np.dtype_of ann0) (Structure.id S)).
  { intros h v self2 env2 m Hh Hm.
    destruct (hemispheres_inv w _ _ _ _ _ Hh) as (_ & _ & Hann & _).
    exists ann. split; [congruence |].
    unfold np.setitem_mask in Hm. destruct (decide _); [| discriminate].
    injection Hm as <-. cbn [np.shape np.dtype_of np.item].
    split; [exact Hs1 |]. split; [exact Hd1 |].
    intros i j k. simpl. destruct (np.item h i j k =? v)%Z;
      [left; apply npFacts.cast_zero | apply Hm1]. }
  destruct (negb (hemisphere =? 0)%Z).
  - destruct (hemisphere =? -1)%Z.
    + destruct (hemispheres w self1 env1) as [[[h|] self2] env2] eqn:Eh; [| discriminate].
      destruct (np.setitem_mask mask1 _ 0) as [m|] eqn:Em; [| discriminate].
      intros [= <- <- <-]. eapply Hfilter; [reflexivity | exact Em].
    + destruct (hemisphere =? 1)%Z; [| discriminate].
      destruct (hemispheres w self1 env1) as [[[h|] self2] env2] eqn:Eh; [| discriminate].
      destruct (np.setitem_mask mask1 _ 0) as [m|] eqn:Em; [| discriminate].
      intros [= <- <- <-]. eapply Hfilter; [reflexivity | exact Em].
  - intros [= <- <- <-]. exists ann. auto.
Qed.

(** X20. The two hemisphere masks split the whole mask: when the mask
    without filter can be computed and the hemisphere volume has the atlas
    shape, both filtered masks can be computed too; at a voxel whose
    hemisphere value is 1 the mask of hemisphere 1 is 0 and the mask of
    hemisphere -1 is the whole mask, at a voxel whose hemisphere value is
    2 it is the other way round, so that there the whole mask is the sum
    of the two. *)
Theorem mask_hemispheres_split (w : World) (structure : key)
    (self : Atlas) (env : Env) (mask : np.ndarray) (self1 : Atlas) (env1 : Env)
    (hem : np.ndarray) (self2 : Atlas) (env2 : Env) :
  get_structure_mask w structure 0 self env = (Ok mask, self1, env1) ->
  hemispheres w self1 env1 = (Ok hem, self2, env2) ->
  np.shape hem = shape self ->
  exists left right,
    get_structure_mask w structure (-1) self env = (Ok left, self2, env2)
    /\ get_structure_mask w structure 1 self env = (Ok right, self2, env2)
    /\ forall i j k,
         (np.item hem i j k = LEFT_HEMI_VAL ->
          np.item left i j k = np.item mask i j k /\ np.item right i j k = 0%Z)
         /\ (np.item hem i j k = RIGHT_HEMI_VAL ->
             np.item left i j k = 0%Z /\ np.item right i j k = np.item mask i j k)
         /\ (np.item hem i j k = LEFT_HEMI_VAL \/ np.item hem i j k = RIGHT_HEMI_VAL ->
             np.item mask i j k = (np.item left i j k + np.item right i j k)%Z).
Proof.
  intros H0 Hh Hshape. revert H0. unfold get_structure_mask. unfold_M.
  destruct (Structure.id <$> StructuresDict.getitem (structures self) structure)
    as [sid|]; [| discriminate].
  destruct (get_structure_descendants self structure) as [ds|]; [| discriminate].
  destruct (comprehension _ ds) as [ids|]; [| discriminate].
  destruct (annotation w self env) as [[[ann|] s1] e1]; [| discriminate].
  destruct (annotation w s1 e1) as [[[ann'|] s2] e2]; [| discriminate].
  destruct (np.setitem_mask _ _ sid) as [mask1|] eqn:Em; [| discriminate].
  simpl. intros [= -> -> ->]. rewrite Hh.
  assert (Hms : np.shape mask = shape self).
  { unfold np.setitem_mask in Em. destruct (decide _); [| discriminate].
    injection Em as <-. reflexivity. }
  rewrite !npFacts.setitem_mask_ok by (simpl; congruence).
  do 2 eexists. split; [reflexivity |]. split; [reflexivity |].
  intros i j k. cbn [np.item np.eq_scalar np.bitem]. rewrite npFacts.cast_zero.
  unfold LEFT_HEMI_VAL, RIGHT_HEMI_VAL.
  destruct (Z.eqb_spec (np.item hem i j k) 2) as [E2 | E2];
    destruct (Z.eqb_spec (np.item hem i j k) 1) as [E1 | E1];
    repeat split; intros; try lia.
Qed.

(** ** The reference store, continued *)

(** X21. An allowed reference is read once: the first lookup of a
    name of [references_list] reads [<data_path>/<name>.tiff], caches the
    volume and returns it without a warning, and every later lookup of the
    name returns the cached volume and reads nothing. *)
Theorem AdditionalRefDict_getitem_loads_once (w : World) (d : AdditionalRefDict)
    (env : Env) (ref_name : string) (v : np.ndarray) :
  data d !! ref_name = None ->
  ref_name ∈ references_list d ->
  read_tiff_file w (path_join (data_path d) (ref_name +:+ ".tiff")) = Some v ->
  exists d',
    AdditionalRefDict_getitem w ref_name d env
    = (Ok (Some v), d',
       {| warnings := warnings env;
          reads := reads env ++ [path_join (data_path d) (ref_name +:+ ".tiff")] |})
    /\ data d' = <[ref_name := v]> (data d)
    /\ forall env2,
         AdditionalRefDict_getitem w ref_name d' env2 = (Ok (Some v), d', env2).
Proof.
  intros Hmiss Hin Hfile. eexists. split; [| split].
  - unfold AdditionalRefDict_getitem. unfold_M.
    destruct (decide (data d !! ref_name = None)); [| contradiction].
    destruct (decide (ref_name ∉ references_list d)); [contradiction |].
    rewrite Hfile. simpl. rewrite lookup_insert_eq. reflexivity.
  - reflexivity.
  - intros env2. unfold AdditionalRefDict_getitem. unfold_M. simpl.
    destruct (decide (<[ref_name:=v]> (data d) !! ref_name = None)) as [Hn|];
      [rewrite lookup_insert_eq in Hn; discriminate |].
    rewrite lookup_insert_eq. reflexivity.
Qed.

(** What a lookup leaves in place. *)
Lemma AdditionalRefDict_getitem_inv (w : World) (d : AdditionalRefDict) (env : Env)
    (ref_name : string) (r : result (option np.ndarray))
    (d' : AdditionalRefDict) (env' : Env) :
  AdditionalRefDict_getitem w ref_name d env = (r, d', env') ->
  references_list d' = references_list d
  /\ data_path d' = data_path d
  /\ (forall k v, data d !! k = Some v -> data d' !! k = Some v)
  /\ (forall k, k <> ref_name -> data d' !! k = data d !! k)
  /\ (forall e, r = Raise e ->
        e = OSError /\ d' = d /\ ref_name ∈ references_list d
        /\ read_tiff_file w (path_join (data_path d) (ref_name +:+ ".tiff")) = None)
  /\ (forall o, r = Ok o -> o = data d' !! ref_name).
Proof.
  unfold AdditionalRefDict_getitem. unfold_M.
  destruct (decide (data d !! ref_name = None)) as [Hmiss | Hhit].
  - destruct (decide (ref_name ∉ references_list d)) as [Hout | Hin].
    + intros [= <- <- <-].
      split; [reflexivity |]. split; [reflexivity |]. split; [auto |].
      split; [reflexivity |]. split; [discriminate |].
      intros o [= <-]. symmetry. exact Hmiss.
    + assert (Hin' : ref_name ∈ references_list d)
        by (destruct (decide (ref_name ∈ references_list d)); tauto).
      destruct (read_tiff_file w _) as [v|] eqn:Hf; simpl; intros [= <- <- <-].
      * split; [reflexivity |]. split; [reflexivity |]. split; [| split; [| split]].
        -- intros k v' Hk. simpl. rewrite lookup_insert_ne; [exact Hk | congruence].
        -- intros k Hk. simpl. rewrite lookup_insert_ne by congruence. reflexivity.
        -- discriminate.
        -- intros o [= <-]. reflexivity.
      * split; [reflexivity |]. split; [reflexivity |]. split; [auto |].
        split; [reflexivity |]. split; [| discriminate].
        intros e' [= <-]. auto.
  - intros [= <- <- <-].
    split; [reflexivity |]. split; [reflexivity |]. split; [auto |].
    split; [reflexivity |]. split; [discriminate |].
    intros o [= <-]. reflexivity.
Qed.

(** X22. A lookup never shrinks the store: it leaves the allow-list
    and the data path as they are, keeps every volume that is cached, and
    touches no name but the one looked up; what it returns is what the
    store then holds under the name. It raises only when the file of an
    allowed name cannot be read, with OSError, and then the store is
    unchanged. *)
Theorem AdditionalRefDict_getitem_keeps_store (w : World) (d : AdditionalRefDict)
    (env : Env) (ref_name : string) (r : result (option np.ndarray))
    (d' : AdditionalRefDict) (env' : Env) :
  AdditionalRefDict_getitem w ref_name d env = (r, d', env') ->
  references_list d' = references_list d
  /\ data_path d' = data_path d
  /\ (forall k v, data d !! k = Some v -> data d' !! k = Some v)
  /\ (forall k, k <> ref_name -> data d' !! k = data d !! k)
  /\ (forall o, r = Ok o -> o = data d' !! ref_name)
  /\ (forall e, r = Raise e ->
        e = OSError /\ d' = d /\ ref_name ∈ references_list d
        /\ read_tiff_file w (path_join (data_path d) (ref_name +:+ ".tiff")) = None).
Proof.
  intros H. destruct (AdditionalRefDict_getitem_inv _ _ _ _ _ _ _ H)
    as (H1 & H2 & H3 & H4 & H5 & H6).
  auto 10.
Qed.

(** ** Coordinates, continued *)

Lemma truediv_zero (c r : Py.num) (f : spec_float) :
  (r = Py.Int 0 \/ exists s, r = Py.Float (S754_zero s)) ->
  Py.to_float c = Ok f ->
  Py.truediv c r = Raise ZeroDivisionError.
Proof.
  intros [-> | [s ->]] Hc.
  - destruct c as [a | x]; [reflexivity |]. reflexivity.
  - unfold Py.truediv. destruct c as [a | x]; rewrite Hc; reflexivity.
Qed.

(** X23. A resolution of zero is a division by zero: with [microns],
    [_idx_from_coords] raises ZeroDivisionError when the resolution of an
    axis is 0 or 0.0 and the divisions of the axes before it went through;
    the same coordinates in voxels are not divided at all. *)
Theorem idx_from_coords_zero_resolution (self : Atlas)
    (c0 c1 c2 r0 r1 r2 : Py.num) :
  resolution self = (r0, r1, r2) ->
  let zero r := r = Py.Int 0 \/ exists s, r = Py.Float (S754_zero s) in
  (forall f, zero r0 -> Py.to_float c0 = Ok f ->
             _idx_from_coords self (c0, c1, c2) true = Raise ZeroDivisionError)
  /\ (forall q0 f, Py.truediv c0 r0 = Ok q0 -> zero r1 -> Py.to_float c1 = Ok f ->
                   _idx_from_coords self (c0, c1, c2) true = Raise ZeroDivisionError)
  /\ (forall q0 q1 f, Py.truediv c0 r0 = Ok q0 -> Py.truediv c1 r1 = Ok q1 ->
                      zero r2 -> Py.to_float c2 = Ok f ->
                      _idx_from_coords self (c0, c1, c2) true = Raise ZeroDivisionError)
  /\ (Py.is_finite c0 = true -> Py.is_finite c1 = true -> Py.is_finite c2 = true ->
      _idx_from_coords self (c0, c1, c2) false
      = Ok (truncate c0, truncate c1, truncate c2)).
Proof.
  intros Hres zero. unfold _idx_from_coords. rewrite Hres.
  split; [| split; [| split]].
  - intros f Hz Hc. rewrite (truediv_zero c0 r0 f Hz Hc). reflexivity.
  - intros q0 f -> Hz Hc. simpl. rewrite (truediv_zero c1 r1 f Hz Hc). reflexivity.
  - intros q0 q1 f -> -> Hz Hc. simpl. rewrite (truediv_zero c2 r2 f Hz Hc). reflexivity.
  - intros H0 H1 H2. simpl.
    rewrite (int_finite _ H0), (int_finite _ H1), (int_finite _ H2). reflexivity.
Qed.

Lemma comprehension_Forall2 {A B} (f : A -> result B) (l : list A) (bs : list B) :
  Forall2 (fun a b => f a = Ok b) l bs -> comprehension f l = Ok bs.
Proof.
  induction 1 as [|a b l bs Hab _ IH]; simpl; [reflexivity |].
  rewrite Hab. simpl. rewrite IH. reflexivity.
Qed.

Lemma comprehension_raises_at {A B} (f : A -> result B) (l : list A) (e : exn) :
  comprehension f l = Raise e -> exists a, a ∈ l /\ f a = Raise e.
Proof.
  induction l as [|a t IH]; simpl; [discriminate |].
  destruct (f a) as [b|e'] eqn:Hb; simpl.
  - destruct (comprehension f t) as [bs|e'']; simpl; [discriminate |].
    intros [= <-]. destruct IH as (x & Hx & Hfx); [reflexivity |].
    exists x. split; [right; exact Hx | exact Hfx].
  - intros [= <-]. exists a. split; [left | exact Hb].
Qed.

(** X24. A query on a list of structures is the list of the queries
    on its elements: [_get_from_structure] on a list returns a list
    exactly when the query on every element returns, with the results in
    the order of the keys; otherwise it raises KeyError, and some element
    is not a key of the catalog. *)
Theorem get_from_structure_list_fanout {A} (self : Atlas) (structure : list key)
    (field : Structure.t -> A) :
  (forall values,
     _get_from_structure_list self structure field = Ok values
     <-> Forall2 (fun k v => _get_from_structure self k field = Ok v) structure values)
  /\ (forall e,
        _get_from_structure_list self structure field = Raise e ->
        e = KeyError
        /\ exists k, k ∈ structure
                     /\ StructuresDict.getitem (structures self) k = Raise KeyError).
Proof.
  unfold _get_from_structure_list. split.
  - intros values. split; [apply comprehension_inv | apply comprehension_Forall2].
  - intros e He. split.
    + revert He. apply (comprehension_raises (fun e => e = KeyError)).
      intros k e'. apply get_from_structure_raises.
    + destruct (comprehension_raises_at _ _ _ He) as (k & Hk & Hfail).
      exists k. split; [exact Hk |].
      unfold _get_from_structure in Hfail.
      destruct (StructuresDict.getitem (structures self) k) as [s|e'] eqn:E;
        [discriminate |].
      rewrite (getitem_raises _ _ _ E). reflexivity.
Qed.

(** X25. Coordinates in microns and in voxels agree: for a resolution
    whose components are positive integers, held as [int] or as [float],
    and integers [x, y, z >= 0] with [x*rx], [y*ry] and [z*rz] below
    [2^53], [structure_from_coords] and [hemisphere_from_coords] at
    [(x*rx, y*ry, z*rz)] in microns do what they do at [(x, y, z)] in
    voxels. *)
Theorem coords_microns_as_voxels (w : World) (self : Atlas) (env : Env)
    (x y z rx ry rz : Z) (r0 r1 r2 cx cy cz : Py.num) :
  resolution self = (r0, r1, r2) ->
  is_integer rx r0 -> is_integer ry r1 -> is_integer rz r2 ->
  (0 < rx)%Z -> (0 < ry)%Z -> (0 < rz)%Z ->
  (0 <= x)%Z -> (0 <= y)%Z -> (0 <= z)%Z ->
  (x * rx < 2 ^ 53)%Z -> (y * ry < 2 ^ 53)%Z -> (z * rz < 2 ^ 53)%Z ->
  Py.mul (Py.Int x) r0 = Ok cx ->
  Py.mul (Py.Int y) r1 = Ok cy ->
  Py.mul (Py.Int z) r2 = Ok cz ->
  (forall as_acronym hierarchy_lev key_error_string,
     structure_from_coords w (cx, cy, cz) true as_acronym hierarchy_lev
       key_error_string self env
     = structure_from_coords w (Py.Int x, Py.Int y, Py.Int z) false as_acronym
         hierarchy_lev key_error_string self env)
  /\ (forall as_string,
        hemisphere_from_coords w (cx, cy, cz) true as_string self env
        = hemisphere_from_coords w (Py.Int x, Py.Int y, Py.Int z) false as_string
            self env).
Proof.
  intros Hres Hi0 Hi1 Hi2 Hrx Hry Hrz Hx Hy Hz Hbx Hby Hbz Hcx Hcy Hcz.
  assert (Hidx : forall self',
             metadata self' = metadata self ->
             _idx_from_coords self' (cx, cy, cz) true
             = _idx_from_coords self' (Py.Int x, Py.Int y, Py.Int z) false).
  { intros self' Hmd.
    rewrite (idx_from_coords_round_trip self' x y z rx ry rz r0 r1 r2 cx cy cz);
      try assumption; [reflexivity |].
    unfold resolution in *. rewrite Hmd. exact Hres. }
  split.
  - intros as_acronym lev kes. unfold structure_from_coords. unfold_M.
    destruct (annotation w self env) as [[[a|] self'] env'] eqn:E; [| reflexivity].
    destruct (annotation_inv w _ _ _ _ _ E) as (_ & Hmd & _).
    rewrite (Hidx self' Hmd). reflexivity.
  - intros as_string. unfold hemisphere_from_coords. unfold_M.
    destruct (hemispheres w self env) as [[[h|] self'] env'] eqn:E; [| reflexivity].
    destruct (hemispheres_inv w _ _ _ _ _ E) as (_ & Hmd & _).
    rewrite (Hidx self' Hmd). reflexivity.
Qed.

(** ** The further properties on the example atlas *)

(** X1 on the example atlas. *)
Lemma Atlas_init_is_lazy_witness :
  let w := Example.world Example.md_current in
  let atlas := Example.atlas Example.md_current in
  Atlas_init w "atlas" () Env_empty = (Ok atlas, (), Env_empty)
  /\ reads Env_empty = reads Env_empty
  /\ _reference atlas = None /\ _annotation atlas = None
  /\ _hemispheres atlas = None /\ _lookup atlas = None.
Proof.
  intros w atlas.
  assert (H : Atlas_init w "atlas" () Env_empty = (Ok atlas, (), Env_empty))
    by (vm_compute; reflexivity).
  split; [exact H |].
  destruct (Atlas_init_is_lazy w "atlas" Env_empty Env_empty (Ok atlas) () H) as [Hr Hc].
  split; [exact Hr | exact (Hc atlas eq_refl)].
Defined.

(** X2 on the example atlas: the allow-list is ["nissl"]. *)
Lemma Atlas_init_reference_store_witness :
  let w := Example.world Example.md_current in
  let atlas := Example.atlas Example.md_current in
  Atlas_init w "atlas" () Env_empty = (Ok atlas, (), Env_empty)
  /\ read_json_metadata w (path_join "atlas" (METADATA_FILENAME w))
     = Some Example.md_current
  /\ md_additional_references Example.md_current = Some ["nissl"]
  /\ exists store,
       get_additional_references atlas = Ok store
       /\ references_list store = ["nissl"]
       /\ data_path store = "atlas"
       /\ data store = ∅
       /\ warnings Env_empty = warnings Env_empty.
Proof.
  intros w atlas.
  assert (H1 : Atlas_init w "atlas" () Env_empty = (Ok atlas, (), Env_empty))
    by (vm_compute; reflexivity).
  assert (H2 : read_json_metadata w (path_join "atlas" (METADATA_FILENAME w))
               = Some Example.md_current) by (vm_compute; reflexivity).
  assert (H3 : md_additional_references Example.md_current = Some ["nissl"])
    by reflexivity.
  repeat (split; [assumption |]).
  exact (Atlas_init_reference_store w "atlas" Env_empty Env_empty atlas ()
           Example.md_current ["nissl"] H1 H2 H3).
Defined.

(** X3 on the example atlas: the mesh file of C. *)
Lemma meshfile_from_structure_path_witness :
  let w := Example.world Example.md_current in
  let atlas := Example.atlas Example.md_current in
  let s := ExampleValues.lookup Example.md_current (KStr "C") in
  Atlas_init w "atlas" () Env_empty = (Ok atlas, (), Env_empty)
  /\ StructuresDict.getitem (structures atlas) (KStr "C") = Ok s
  /\ meshfile_from_structure atlas (KStr "C")
     = Ok (Some (path_join (path_join "atlas" (MESHES_DIRNAME w))
                   (pretty (Structure.id s) +:+ ".obj"))).
Proof.
  intros w atlas s.
  assert (H1 : Atlas_init w "atlas" () Env_empty = (Ok atlas, (), Env_empty))
    by (vm_compute; reflexivity).
  assert (H2 : StructuresDict.getitem (structures atlas) (KStr "C") = Ok s)
    by (vm_compute; reflexivity).
  repeat (split; [assumption |]).
  exact (meshfile_from_structure_path w "atlas" Env_empty Env_empty atlas ()
           (KStr "C") s H1 H2).
Defined.

(** X4 on the example atlas. *)
Lemma lookup_df_rows_witness :
  let self := Example.atlas Example.md_current in
  StructuresDict.init (structures_list self) = Ok (structures self)
  /\ _lookup self = None
  /\ exists df,
       lookup_df self Env_empty = (Ok df, set_lookup self df, Env_empty)
       /\ (forall env2, lookup_df (set_lookup self df) env2
                        = (Ok df, set_lookup self df, env2))
       /\ map (fun row => row.1.2) df = StructuresDict.keys (structures self)
       /\ NoDup (map (fun row => row.1.2) df)
       /\ (forall i s, StructuresDict.data (structures self) !! i = Some s ->
             (Structure.acronym s, i, Structure.name s) ∈ df)
       /\ forall a i n, (a, i, n) ∈ df ->
            exists s,
              StructuresDict.getitem (structures self) (KInt i) = Ok s
              /\ StructuresDict.getitem (structures self) (KStr a) = Ok s
              /\ Structure.acronym s = a
              /\ Structure.name s = n.
Proof.
  intros self.
  assert (H1 : StructuresDict.init (structures_list self) = Ok (structures self))
    by (vm_compute; reflexivity).
  assert (H2 : _lookup self = None) by (vm_compute; reflexivity).
  repeat (split; [assumption |]).
  exact (lookup_df_rows self Env_empty H1 H2).
Defined.

(** X5 on the example atlas: the annotation volume. *)
Lemma volumes_read_once_witness :
  let w := Example.world Example.md_current in
  let self := Example.atlas Example.md_current in
  let st1 := ExampleValues.annotated Example.md_current in
  annotation w self Env_empty = (Ok Example.annotation_tiff, st1.1, st1.2)
  /\ _annotation self = None
  /\ (forall env2, annotation w st1.1 env2 = (Ok Example.annotation_tiff, st1.1, env2))
  /\ reads st1.2
     = reads Env_empty ++ [path_join (root_dir self) (ANNOTATION_FILENAME w)].
Proof.
  intros w self st1.
  assert (H1 : annotation w self Env_empty = (Ok Example.annotation_tiff, st1.1, st1.2))
    by (vm_compute; reflexivity).
  assert (H2 : _annotation self = None) by (vm_compute; reflexivity).
  destruct (volumes_read_once w self Env_empty) as [Hann _].
  destruct (Hann Example.annotation_tiff st1.1 st1.2 H1) as [Hagain Hreads].
  split; [exact H1 |]. split; [exact H2 |]. split; [exact Hagain | exact (Hreads H2)].
Defined.

(** X6 in a world whose volumes cannot be read. *)
Lemma annotation_failure_not_cached_witness :
  let w := Edge.world_no_volumes Example.md_current in
  let self := Edge.atlas_in w in
  let env1 := {| warnings := []; reads := ["atlas/annotation.tiff"] |} in
  annotation w self Env_empty = (Raise OSError, self, env1)
  /\ OSError = OSError /\ self = self
  /\ reads env1 = reads Env_empty ++ [path_join (root_dir self) (ANNOTATION_FILENAME w)]
  /\ forall env2,
       annotation w self env2
       = (Raise OSError, self,
          {| warnings := warnings env2;
             reads := reads env2
                      ++ [path_join (root_dir self) (ANNOTATION_FILENAME w)] |}).
Proof.
  intros w self env1.
  assert (H1 : annotation w self Env_empty = (Raise OSError, self, env1))
    by (vm_compute; reflexivity).
  split; [exact H1 |].
  exact (annotation_failure_not_cached w self Env_empty OSError self env1 H1).
Defined.

(** X7 on the atlas with stored hemispheres. *)
Lemma hemispheres_stored_witness :
  let w := Example.world Example.md_stored in
  let self := Example.atlas Example.md_stored in
  _hemispheres self = None
  /\ md_symmetric (metadata self) = false
  /\ read_tiff_file w (path_join (root_dir self) (HEMISPHERES_FILENAME w))
     = Some Example.hemispheres_tiff
  /\ hemispheres w self Env_empty
     = (Ok Example.hemispheres_tiff, set_hemispheres self Example.hemispheres_tiff,
        {| warnings := warnings Env_empty;
           reads := reads Env_empty
                    ++ [path_join (root_dir self) (HEMISPHERES_FILENAME w)] |}).
Proof.
  intros w self.
  assert (H1 : _hemispheres self = None) by (vm_compute; reflexivity).
  assert (H2 : md_symmetric (metadata self) = false) by (vm_compute; reflexivity).
  assert (H3 : read_tiff_file w (path_join (root_dir self) (HEMISPHERES_FILENAME w))
               = Some Example.hemispheres_tiff) by (vm_compute; reflexivity).
  repeat (split; [assumption |]).
  destruct (hemispheres_stored w self Env_empty) as [Hfirst _].
  exact (Hfirst Example.hemispheres_tiff H1 H2 H3).
Defined.

(** X8 on the example atlas: the voxel (1, 1, 4) is on the left. *)
Lemma hemisphere_from_coords_symmetric_witness :
  let w := Example.world Example.md_current in
  let self := Example.atlas Example.md_current in
  _hemispheres self = None
  /\ md_symmetric (metadata self) = true
  /\ Py.list_index "frontal" (axes_order (space self)) = Ok 2
  /\ np.shape_getitem (md_shape (metadata self)) 2 = Ok 5
  /\ np.in_bounds (md_shape (metadata self)) 1 1 4
  /\ exists self',
       hemisphere_from_coords w (Py.Int 1, Py.Int 1, Py.Int 4) false true self Env_empty
       = (Ok (VStr "left"), self', Env_empty).
Proof.
  intros w self.
  assert (H1 : _hemispheres self = None) by (vm_compute; reflexivity).
  assert (H2 : md_symmetric (metadata self) = true) by (vm_compute; reflexivity).
  assert (H3 : Py.list_index "frontal" (axes_order (space self)) = Ok 2)
    by (vm_compute; reflexivity).
  assert (H4 : np.shape_getitem (md_shape (metadata self)) 2 = Ok 5)
    by (vm_compute; reflexivity).
  assert (H5 : np.in_bounds (md_shape (metadata self)) 1 1 4)
    by (vm_compute; repeat split; lia).
  repeat (split; [assumption |]).
  exact (hemisphere_from_coords_symmetric w self Env_empty 2 5 1 1 4 true
           H1 H2 H3 H4 H5).
Defined.

(** X9 on the example atlas: the last index 5 is outside the volume. *)
Lemma coords_outside_volume_witness :
  let w := Example.world Example.md_current in
  let self := Example.atlas Example.md_current in
  let st1 := ExampleValues.annotated Example.md_current in
  annotation w self Env_empty = (Ok Example.annotation_tiff, st1.1, st1.2)
  /\ _idx_from_coords st1.1 (Py.Int 0, Py.Int 0, Py.Int 5) false = Ok (0, 0, 5)%Z
  /\ np.shape Example.annotation_tiff = (2, 2, 5)
  /\ structure_from_coords w (Py.Int 0, Py.Int 0, Py.Int 5) false true None
       "Outside atlas" self Env_empty
     = (Raise IndexError, st1.1, st1.2).
Proof.
  intros w self st1.
  assert (H1 : annotation w self Env_empty = (Ok Example.annotation_tiff, st1.1, st1.2))
    by (vm_compute; reflexivity).
  assert (H2 : _idx_from_coords st1.1 (Py.Int 0, Py.Int 0, Py.Int 5) false
               = Ok (0, 0, 5)%Z) by reflexivity.
  assert (H3 : np.shape Example.annotation_tiff = (2, 2, 5)) by reflexivity.
  repeat (split; [assumption |]).
  destruct (coords_outside_volume w self Env_empty (Py.Int 0, Py.Int 0, Py.Int 5)
              false 0 0 5) as [Hs _].
  apply (Hs Example.annotation_tiff st1.1 st1.2 2 2 5 true None "Outside atlas" H1 H2 H3).
  intros (_ & _ & Hk). simpl in Hk. lia.
Defined.

(** X10 on the example atlas: the voxel (0, 0, 1) holds 7, the id of A. *)
Lemma structure_from_coords_plain_witness :
  let w := Example.world Example.md_current in
  let self := Example.atlas Example.md_current in
  let st1 := ExampleValues.annotated Example.md_current in
  annotation w self Env_empty = (Ok Example.annotation_tiff, st1.1, st1.2)
  /\ _idx_from_coords st1.1 (Py.Int 0, Py.Int 0, Py.Int 1) false = Ok (0, 0, 1)%Z
  /\ np.getitem Example.annotation_tiff (0, 0, 1)%Z = Ok 7%Z
  /\ structure_from_coords w (Py.Int 0, Py.Int 0, Py.Int 1) false true None
       "Outside atlas" self Env_empty
     = (Ok (VStr match StructuresDict.data (structures st1.1) !! 7%Z with
                 | Some s => Structure.acronym s
                 | None => "Outside atlas"
                 end), st1.1, st1.2).
Proof.
  intros w self st1.
  assert (H1 : annotation w self Env_empty = (Ok Example.annotation_tiff, st1.1, st1.2))
    by (vm_compute; reflexivity).
  assert (H2 : _idx_from_coords st1.1 (Py.Int 0, Py.Int 0, Py.Int 1) false
               = Ok (0, 0, 1)%Z) by reflexivity.
  assert (H3 : np.getitem Example.annotation_tiff (0, 0, 1)%Z = Ok 7%Z) by reflexivity.
  repeat (split; [assumption |]).
  exact (structure_from_coords_plain w self Env_empty (Py.Int 0, Py.Int 0, Py.Int 1)
           false true "Outside atlas" Example.annotation_tiff st1.1 st1.2
           (0, 0, 1)%Z 7%Z H1 H2 H3).
Defined.

(** X11 on the example atlas: the voxel (0, 0, 3) holds C, whose
    ancestor at level 1 is A. *)
Lemma structure_from_coords_level_witness :
  let w := Example.world Example.md_current in
  let self := Example.atlas Example.md_current in
  let st1 := ExampleValues.annotated Example.md_current in
  annotation w self Env_empty = (Ok Example.annotation_tiff, st1.1, st1.2)
  /\ _idx_from_coords st1.1 (Py.Int 0, Py.Int 0, Py.Int 3) false = Ok (0, 0, 3)%Z
  /\ np.getitem Example.annotation_tiff (0, 0, 3)%Z = Ok 9%Z
  /\ get_structure_ancestors st1.1 (KInt 9) = Ok ["root"; "A"; "B"]
  /\ ["root"; "A"; "B"] !! 1 = Some "A"
  /\ structure_from_coords w (Py.Int 0, Py.Int 0, Py.Int 3) false true (Some 1%Z)
       "Outside atlas" self Env_empty
     = (Ok (VStr "A"), st1.1, st1.2).
Proof.
  intros w self st1.
  assert (H1 : annotation w self Env_empty = (Ok Example.annotation_tiff, st1.1, st1.2))
    by (vm_compute; reflexivity).
  assert (H2 : _idx_from_coords st1.1 (Py.Int 0, Py.Int 0, Py.Int 3) false
               = Ok (0, 0, 3)%Z) by reflexivity.
  assert (H3 : np.getitem Example.annotation_tiff (0, 0, 3)%Z = Ok 9%Z) by reflexivity.
  assert (H4 : get_structure_ancestors st1.1 (KInt 9) = Ok ["root"; "A"; "B"])
    by (vm_compute; reflexivity).
  assert (H5 : ["root"; "A"; "B"] !! 1 = Some "A") by reflexivity.
  repeat (split; [assumption |]).
  exact (structure_from_coords_level w self Env_empty (Py.Int 0, Py.Int 0, Py.Int 3)
           false "Outside atlas" Example.annotation_tiff st1.1 st1.2 (0, 0, 3)%Z 9%Z
           ["root"; "A"; "B"] 1 "A" H1 H2 H3 H4 H5).
Defined.

(** X12 on the example atlas: C has a path of four entries. *)
Lemma structure_from_coords_level_out_of_range_witness :
  let w := Example.world Example.md_current in
  let self := Example.atlas Example.md_current in
  let st1 := ExampleValues.annotated Example.md_current in
  let S := ExampleValues.lookup Example.md_current (KInt 9) in
  annotation w self Env_empty = (Ok Example.annotation_tiff, st1.1, st1.2)
  /\ _idx_from_coords st1.1 (Py.Int 0, Py.Int 0, Py.Int 3) false = Ok (0, 0, 3)%Z
  /\ np.getitem Example.annotation_tiff (0, 0, 3)%Z = Ok 9%Z
  /\ StructuresDict.getitem (structures st1.1) (KInt 9) = Ok S
  /\ structure_from_coords w (Py.Int 0, Py.Int 0, Py.Int 3) false true (Some 4%Z)
       "Outside atlas" self Env_empty
     = (Raise IndexError, st1.1, st1.2).
Proof.
  intros w self st1 S.
  assert (H1 : annotation w self Env_empty = (Ok Example.annotation_tiff, st1.1, st1.2))
    by (vm_compute; reflexivity).
  assert (H2 : _idx_from_coords st1.1 (Py.Int 0, Py.Int 0, Py.Int 3) false
               = Ok (0, 0, 3)%Z) by reflexivity.
  assert (H3 : np.getitem Example.annotation_tiff (0, 0, 3)%Z = Ok 9%Z) by reflexivity.
  assert (H4 : StructuresDict.getitem (structures st1.1) (KInt 9) = Ok S)
    by (vm_compute; reflexivity).
  repeat (split; [assumption |]).
  apply (structure_from_coords_level_out_of_range w self Env_empty
           (Py.Int 0, Py.Int 0, Py.Int 3) false true "Outside atlas"
           Example.annotation_tiff st1.1 st1.2 (0, 0, 3)%Z 9%Z S 4%Z H1 H2 H3 H4).
  right. vm_compute. discriminate.
Defined.

(** X13 on the example atlas: the ancestors of C. *)
Lemma get_structure_ancestors_follow_path_witness :
  let self := Example.atlas Example.md_current in
  let S := ExampleValues.lookup Example.md_current (KInt 9) in
  StructuresDict.getitem (structures self) (KInt 9) = Ok S
  /\ get_structure_ancestors self (KInt 9) = Ok ["root"; "A"; "B"]
  /\ length ["root"; "A"; "B"] = length (Structure.structure_id_path S) - 1
  /\ forall n acr, ["root"; "A"; "B"] !! n = Some acr ->
       exists i s,
         Structure.structure_id_path S !! n = Some i
         /\ StructuresDict.getitem (structures self) (KInt i) = Ok s
         /\ Structure.acronym s = acr.
Proof.
  intros self S.
  assert (H1 : StructuresDict.getitem (structures self) (KInt 9) = Ok S)
    by (vm_compute; reflexivity).
  assert (H2 : get_structure_ancestors self (KInt 9) = Ok ["root"; "A"; "B"])
    by (vm_compute; reflexivity).
  split; [exact H1 |]. split; [exact H2 |].
  destruct (get_structure_ancestors_follow_path self (KInt 9) S H1) as [Hent _].
  exact (Hent ["root"; "A"; "B"] H2).
Defined.

(** X14 in the world whose structure list names the missing id 7. *)
Lemma dangling_path_id_witness :
  let w := Edge.world_dangling Example.md_current in
  let self := Edge.atlas_in w in
  let s := Edge.lookup_in self (KInt 8) in
  let P := Edge.lookup_in self (KStr "root") in
  StructuresDict.init (structures_list self) = Ok (structures self)
  /\ StructuresDict.data (structures self) !! 8%Z = Some s
  /\ 7%Z ∈ Py.all_but_last (Structure.structure_id_path s)
  /\ StructuresDict.data (structures self) !! 7%Z = None
  /\ StructuresDict.getitem (structures self) (KStr "root") = Ok P
  /\ get_structure_ancestors self (KInt 8) = Raise KeyError
  /\ get_structure_descendants self (KStr "root") = Raise KeyError
  /\ get_structure_mask w (KStr "root") 0 self Env_empty
     = (Raise KeyError, self, Env_empty).
Proof.
  intros w self s P.
  assert (H1 : StructuresDict.init (structures_list self) = Ok (structures self))
    by (vm_compute; reflexivity).
  assert (H2 : StructuresDict.data (structures self) !! 8%Z = Some s)
    by (vm_compute; reflexivity).
  assert (H3 : 7%Z ∈ Py.all_but_last (Structure.structure_id_path s))
    by (right; left).
  assert (H4 : StructuresDict.data (structures self) !! 7%Z = None)
    by (vm_compute; reflexivity).
  assert (H5 : StructuresDict.getitem (structures self) (KStr "root") = Ok P)
    by (vm_compute; reflexivity).
  repeat (split; [assumption |]).
  destruct (dangling_path_id w self (structures_list self) 8%Z 7%Z s H1 H2 H3 H4)
    as [Hanc Hall].
  split; [exact Hanc |].
  destruct (Hall (KStr "root") P H5) as [Hdesc Hmask].
  split; [exact Hdesc | exact (Hmask 0%Z Env_empty)].
Defined.

(** X15 on the example atlas: the descendants of A. *)
Lemma get_structure_descendants_distinct_witness :
  let self := Example.atlas Example.md_current in
  let S := ExampleValues.lookup Example.md_current (KStr "A") in
  StructuresDict.init (structures_list self) = Ok (structures self)
  /\ paths_closed (structures self) = true
  /\ StructuresDict.getitem (structures self) (KStr "A") = Ok S
  /\ get_structure_descendants self (KStr "A") = Ok ["B"; "C"]
  /\ NoDup ["B"; "C"]
  /\ (Structure.id S ∉ Py.all_but_last (Structure.structure_id_path S) ->
      Structure.acronym S ∉ ["B"; "C"]).
Proof.
  intros self S.
  assert (H1 : StructuresDict.init (structures_list self) = Ok (structures self))
    by (vm_compute; reflexivity).
  assert (H2 : paths_closed (structures self) = true) by (vm_compute; reflexivity).
  assert (H3 : StructuresDict.getitem (structures self) (KStr "A") = Ok S)
    by (vm_compute; reflexivity).
  assert (H4 : get_structure_descendants self (KStr "A") = Ok ["B"; "C"])
    by (vm_compute; reflexivity).
  repeat (split; [assumption |]).
  exact (get_structure_descendants_distinct self (structures_list self) (KStr "A") S
           ["B"; "C"] H1 H2 H3 H4).
Defined.

(** X16 on the example atlas: "nope" is no structure. *)
Lemma unknown_structure_key_witness :
  let w := Example.world Example.md_current in
  let self := Example.atlas Example.md_current in
  StructuresDict.getitem (structures self) (KStr "nope") = Raise KeyError
  /\ get_structure_ancestors self (KStr "nope") = Raise KeyError
  /\ get_structure_descendants self (KStr "nope") = Raise KeyError
  /\ meshfile_from_structure self (KStr "nope") = Raise KeyError
  /\ forall hemisphere env,
       get_structure_mask w (KStr "nope") hemisphere self env
       = (Raise KeyError, self, env).
Proof.
  intros w self.
  assert (H1 : StructuresDict.getitem (structures self) (KStr "nope") = Raise KeyError)
    by (vm_compute; reflexivity).
  split; [exact H1 |].
  exact (unknown_structure_key w self (KStr "nope") KeyError H1).
Defined.

(** X17 on the example atlas: hemisphere 5. *)
Lemma invalid_hemisphere_checked_last_witness :
  let w := Example.world Example.md_current in
  let self := Example.atlas Example.md_current in
  get_structure_mask w (KInt 7) 5 self Env_empty
  = let '(r, self', env') := get_structure_mask w (KInt 7) 0 self Env_empty in
    (match r with
     | Ok _ => Raise InvalidHemisphereFilter
     | Raise e => Raise e
     end, self', env').
Proof.
  intros w self.
  apply (invalid_hemisphere_checked_last w (KInt 7) 5%Z self Env_empty); discriminate.
Defined.

(** X18 on the example atlas. *)
Lemma mask_without_filter_effects_witness :
  let w := Example.world Example.md_current in
  let self := Example.atlas Example.md_current in
  let r := Example.value (get_structure_mask w (KInt 7) 0) (self, Env_empty) in
  let st' := Example.after (get_structure_mask w (KInt 7) 0) (self, Env_empty) in
  get_structure_mask w (KInt 7) 0 self Env_empty = (r, st'.1, st'.2)
  /\ _hemispheres st'.1 = _hemispheres self
  /\ structures st'.1 = structures self
  /\ warnings st'.2 = warnings Env_empty
  /\ (reads st'.2 = reads Env_empty
      \/ reads st'.2
         = reads Env_empty ++ [path_join (root_dir self) (ANNOTATION_FILENAME w)]).
Proof.
  intros w self r st'.
  assert (H1 : get_structure_mask w (KInt 7) 0 self Env_empty = (r, st'.1, st'.2))
    by (vm_compute; reflexivity).
  split; [exact H1 |].
  exact (mask_without_filter_effects w (KInt 7) self Env_empty r st'.1 st'.2 H1).
Defined.

(** X19 on the example atlas: the mask of A, left hemisphere kept. *)
Lemma mask_values_witness :
  let w := Example.world Example.md_current in
  let self := Example.atlas Example.md_current in
  let S := ExampleValues.lookup Example.md_current (KInt 7) in
  let mask := ExampleValues.volume
                (Example.value (get_structure_mask w (KInt 7) (-1)) (self, Env_empty)) in
  let st' := Example.after (get_structure_mask w (KInt 7) (-1)) (self, Env_empty) in
  get_structure_mask w (KInt 7) (-1) self Env_empty = (Ok mask, st'.1, st'.2)
  /\ StructuresDict.getitem (structures self) (KInt 7) = Ok S
  /\ exists ann,
       _annotation st'.1 = Some ann
       /\ np.shape mask = shape self
       /\ np.dtype_of mask = np.dtype_of ann
       /\ forall i j k,
            np.item mask i j k = 0%Z
            \/ np.item mask i j k = np.cast (np.dtype_of ann) (Structure.id S).
Proof.
  intros w self S mask st'.
  assert (H1 : get_structure_mask w (KInt 7) (-1) self Env_empty = (Ok mask, st'.1, st'.2))
    by (vm_compute; reflexivity).
  assert (H2 : StructuresDict.getitem (structures self) (KInt 7) = Ok S)
    by (vm_compute; reflexivity).
  repeat (split; [assumption |]).
  exact (mask_values w (KInt 7) (-1)%Z self Env_empty mask st'.1 st'.2 S H1 H2).
Defined.

(** X20 on the example atlas: the masks of A. *)
Lemma mask_hemispheres_split_witness :
  let w := Example.world Example.md_current in
  let self := Example.atlas Example.md_current in
  let mask := ExampleValues.volume
                (Example.value (get_structure_mask w (KInt 7) 0) (self, Env_empty)) in
  let st1 := Example.after (get_structure_mask w (KInt 7) 0) (self, Env_empty) in
  let hem := ExampleValues.hemisphere_stack Example.md_current st1 in
  let st2 := Example.after (hemispheres w) st1 in
  get_structure_mask w (KInt 7) 0 self Env_empty = (Ok mask, st1.1, st1.2)
  /\ hemispheres w st1.1 st1.2 = (Ok hem, st2.1, st2.2)
  /\ np.shape hem = shape self
  /\ exists left right,
       get_structure_mask w (KInt 7) (-1) self Env_empty = (Ok left, st2.1, st2.2)
       /\ get_structure_mask w (KInt 7) 1 self Env_empty = (Ok right, st2.1, st2.2)
       /\ forall i j k,
            (np.item hem i j k = LEFT_HEMI_VAL ->
             np.item left i j k = np.item mask i j k /\ np.item right i j k = 0%Z)
            /\ (np.item hem i j k = RIGHT_HEMI_VAL ->
                np.item left i j k = 0%Z /\ np.item right i j k = np.item mask i j k)
            /\ (np.item hem i j k = LEFT_HEMI_VAL \/ np.item hem i j k = RIGHT_HEMI_VAL ->
                np.item mask i j k = (np.item left i j k + np.item right i j k)%Z).
Proof.
  intros w self mask st1 hem st2.
  assert (H1 : get_structure_mask w (KInt 7) 0 self Env_empty = (Ok mask, st1.1, st1.2))
    by (vm_compute; reflexivity).
  assert (H2 : hemispheres w st1.1 st1.2 = (Ok hem, st2.1, st2.2))
    by (vm_compute; reflexivity).
  assert (H3 : np.shape hem = shape self) by (vm_compute; reflexivity).
  repeat (split; [assumption |]).
  exact (mask_hemispheres_split w (KInt 7) self Env_empty mask st1.1 st1.2 hem
           st2.1 st2.2 H1 H2 H3).
Defined.

(** X21 in the world with a secondary reference on disk. *)
Lemma AdditionalRefDict_getitem_loads_once_witness :
  let w := Edge.world_nissl Example.md_current in
  data ExampleValues.store !! "nissl" = None
  /\ "nissl" ∈ references_list ExampleValues.store
  /\ read_tiff_file w (path_join (data_path ExampleValues.store) ("nissl" +:+ ".tiff"))
     = Some Edge.nissl_tiff
  /\ exists d',
       AdditionalRefDict_getitem w "nissl" ExampleValues.store Env_empty
       = (Ok (Some Edge.nissl_tiff), d',
          {| warnings := warnings Env_empty;
             reads := reads Env_empty
                      ++ [path_join (data_path ExampleValues.store)
                            ("nissl" +:+ ".tiff")] |})
       /\ data d' = <["nissl" := Edge.nissl_tiff]> (data ExampleValues.store)
       /\ forall env2,
            AdditionalRefDict_getitem w "nissl" d' env2
            = (Ok (Some Edge.nissl_tiff), d', env2).
Proof.
  intros w.
  assert (H1 : data ExampleValues.store !! "nissl" = None) by (vm_compute; reflexivity).
  assert (H2 : "nissl" ∈ references_list ExampleValues.store) by left.
  assert (H3 : read_tiff_file w
                 (path_join (data_path ExampleValues.store) ("nissl" +:+ ".tiff"))
               = Some Edge.nissl_tiff) by (vm_compute; reflexivity).
  repeat (split; [assumption |]).
  exact (AdditionalRefDict_getitem_loads_once w ExampleValues.store Env_empty "nissl"
           Edge.nissl_tiff H1 H2 H3).
Defined.

(** X22 in the world with a secondary reference on disk: the first
    lookup of "nissl". *)
Lemma AdditionalRefDict_getitem_keeps_store_witness :
  let w := Edge.world_nissl Example.md_current in
  let d := ExampleValues.store in
  let run := AdditionalRefDict_getitem w "nissl" d Env_empty in
  let r := run.1.1 in
  let d' := run.1.2 in
  let env' := run.2 in
  AdditionalRefDict_getitem w "nissl" d Env_empty = (r, d', env')
  /\ references_list d' = references_list d
  /\ data_path d' = data_path d
  /\ (forall k v, data d !! k = Some v -> data d' !! k = Some v)
  /\ (forall k, k <> "nissl" -> data d' !! k = data d !! k)
  /\ (forall o, r = Ok o -> o = data d' !! "nissl")
  /\ (forall e, r = Raise e ->
        e = OSError /\ d' = d /\ "nissl" ∈ references_list d
        /\ read_tiff_file w (path_join (data_path d) ("nissl" +:+ ".tiff")) = None).
Proof.
  intros w d run r d' env'.
  assert (H1 : AdditionalRefDict_getitem w "nissl" d Env_empty = (r, d', env'))
    by (vm_compute; reflexivity).
  split; [exact H1 |].
  exact (AdditionalRefDict_getitem_keeps_store w d Env_empty "nissl" r d' env' H1).
Defined.

(** X23 on an atlas whose resolution is zero. *)
Lemma idx_from_coords_zero_resolution_witness :
  let self := Example.atlas Edge.md_flat in
  resolution self = (Py.Int 0, Py.Int 0, Py.Int 0)
  /\ Py.to_float (Py.Int 10) = Ok (float_of_small_int 10)
  /\ _idx_from_coords self (Py.Int 10, Py.Int 0, Py.Int 0) true = Raise ZeroDivisionError
  /\ _idx_from_coords self (Py.Int 10, Py.Int 0, Py.Int 0) false = Ok (10, 0, 0)%Z.
Proof.
  intros self.
  assert (H1 : resolution self = (Py.Int 0, Py.Int 0, Py.Int 0))
    by (vm_compute; reflexivity).
  assert (H2 : Py.to_float (Py.Int 10) = Ok (float_of_small_int 10))
    by (vm_compute; reflexivity).
  split; [exact H1 |]. split; [exact H2 |].
  destruct (idx_from_coords_zero_resolution self (Py.Int 10) (Py.Int 0) (Py.Int 0)
              (Py.Int 0) (Py.Int 0) (Py.Int 0) H1) as (Hzero & _ & _ & Hvox).
  split.
  - exact (Hzero (float_of_small_int 10) (or_introl eq_refl) H2).
  - exact (Hvox eq_refl eq_refl eq_refl).
Defined.

(** X24 on the example atlas: the acronyms of the keys 7 and "B". *)
Lemma get_from_structure_list_fanout_witness :
  let self := Example.atlas Example.md_current in
  _get_from_structure_list self [KInt 7; KStr "B"] Structure.acronym = Ok ["A"; "B"]
  /\ Forall2 (fun k v => _get_from_structure self k Structure.acronym = Ok v)
       [KInt 7; KStr "B"] ["A"; "B"].
Proof.
  intros self.
  assert (H1 : _get_from_structure_list self [KInt 7; KStr "B"] Structure.acronym
               = Ok ["A"; "B"]) by (vm_compute; reflexivity).
  split; [exact H1 |].
  destruct (get_from_structure_list_fanout self [KInt 7; KStr "B"] Structure.acronym)
    as [Hiff _].
  exact (proj1 (Hiff ["A"; "B"]) H1).
Defined.

(** X25 on the example atlas, at 25 microns: the voxel (1, 1, 3). *)
Lemma coords_microns_as_voxels_witness :
  let w := Example.world Example.md_current in
  let self := Example.atlas Example.md_current in
  resolution self = (Py.Int 25, Py.Int 25, Py.Int 25)
  /\ is_integer 25 (Py.Int 25)
  /\ structure_from_coords w (Py.Int 25, Py.Int 25, Py.Int 75) true true None
       "Outside atlas" self Env_empty
     = structure_from_coords w (Py.Int 1, Py.Int 1, Py.Int 3) false true None
         "Outside atlas" self Env_empty
  /\ hemisphere_from_coords w (Py.Int 25, Py.Int 25, Py.Int 75) true true self Env_empty
     = hemisphere_from_coords w (Py.Int 1, Py.Int 1, Py.Int 3) false true self Env_empty.
Proof.
  intros w self.
  assert (H1 : resolution self = (Py.Int 25, Py.Int 25, Py.Int 25))
    by (vm_compute; reflexivity).
  assert (H2 : is_integer 25 (Py.Int 25)) by (left; reflexivity).
  split; [exact H1 |]. split; [exact H2 |].
  destruct (coords_microns_as_voxels w self Env_empty 1 1 3 25 25 25
              (Py.Int 25) (Py.Int 25) (Py.Int 25) (Py.Int 25) (Py.Int 25) (Py.Int 75)
              H1 H2 H2 H2)%Z as [Hs Hh];
    try reflexivity; try discriminate.
  split; [exact (Hs true None "Outside atlas") | exact (Hh true)].
Defined.
